(** * djapy: the handler contract wrapper and the API document generator

    A shallow embedding of
      - [djapy/v2/dec.py]     (module [Dec]):  the error-handler registry,
        [handle_error], the decorator [djapify] and its [_wrapped_view];
      - [djapy/data/dec2.py]  (module [Dec2]): the older decorator;
      - [djapy/v2/openapi.py] (module [OpenApi]): [Path] and [OpenAPI].

    Python values are a small tree type, exceptions are values of an error
    result, and the calls a request makes into foreign code (parameter
    extraction, the handler body, schema validation, logging, the error
    handlers) are recorded in a trace, so that "never executed" is a
    statement about that trace. *)

From Stdlib Require Import ZArith List String Ascii Bool Lia DecimalString.
Import ListNotations.
Local Open Scope string_scope.
Local Open Scope Z_scope.
Set Warnings "-register-all".


(* ===================================================================== *)
(** ** Python values, exceptions and results *)
(* ===================================================================== *)

Module Py.

(** The Python values that travel through the wrapper.  Dictionaries are
    keyed by strings (JSON objects) and keep their insertion order. [PObj]
    is an instance of a class the JSON encoder does not know. *)
Inductive pyval : Type :=
| PNone
| PBool (b : bool)
| PInt (z : Z)
| PStr (s : string)
| PList (l : list pyval)
| PTuple (l : list pyval)
| PDict (d : list (string * pyval))
| PObj (cls : string).

(** An exception class: its qualified name (a built-in class goes by its
    bare name) and the names of the classes it derives from, nearest
    first: its [__mro__] without the class itself and without [object]. *)
Record pyclass : Type := mkClass {
  cls_name : string;
  cls_ancestors : list string
}.

(** An exception instance: its class and its arguments. *)
Inductive pyexc : Type :=
| Exc (cls : pyclass) (detail : pyval).

(** [e.__class__] *)
Definition exc_class (e : pyexc) : pyclass :=
  match e with Exc c _ => c end.

Definition mem_string (s : string) (l : list string) : bool :=
  existsb (String.eqb s) l.

Fixpoint names_eqb (l1 l2 : list string) : bool :=
  match l1, l2 with
  | [], [] => true
  | a :: l1', b :: l2' => String.eqb a b && names_eqb l1' l2'
  | _, _ => false
  end.

(** [c == d] on classes: the same class. *)
Definition class_eqb (c d : pyclass) : bool :=
  String.eqb (cls_name c) (cls_name d)
  && names_eqb (cls_ancestors c) (cls_ancestors d).

(** [issubclass(c, base)], for the class named [base] *)
Definition derives_from (c : pyclass) (base : string) : bool :=
  mem_string base (cls_name c :: cls_ancestors c).

(** [class name(Exception)] *)
Definition exception_class (name : string) : pyclass :=
  mkClass name ["Exception"; "BaseException"].

(** The built-in classes the sources meet. *)
Definition TypeError : pyclass := exception_class "TypeError".
Definition ValueError : pyclass := exception_class "ValueError".
Definition AttributeError : pyclass := exception_class "AttributeError".
Definition RuntimeError : pyclass := exception_class "RuntimeError".
Definition KeyError : pyclass :=
  mkClass "KeyError" ["LookupError"; "Exception"; "BaseException"].
Definition ModuleNotFoundError : pyclass :=
  mkClass "ModuleNotFoundError" ["ImportError"; "Exception"; "BaseException"].
Definition SystemExit : pyclass := mkClass "SystemExit" ["BaseException"].

(** [pydantic.ValidationError], the class both decorators import: it is
    defined in [pydantic_core] and derives from [ValueError]. *)
Definition ValidationError : pyclass :=
  mkClass "pydantic_core._pydantic_core.ValidationError"
    ["ValueError"; "Exception"; "BaseException"].

(** [isinstance(e, Exception)], what [except Exception] catches. *)
Definition is_Exception (e : pyexc) : bool :=
  derives_from (exc_class e) "Exception".

(** [isinstance(e, TypeError)] *)
Definition is_TypeError (e : pyexc) : bool :=
  derives_from (exc_class e) "TypeError".

(** [isinstance(e, ValidationError)] for pydantic's class, which is final
    (it cannot be subclassed): a test on the class itself. *)
Definition is_ValidationError (e : pyexc) : bool :=
  class_eqb (exc_class e) ValidationError.

Inductive result (A : Type) : Type :=
| Ok (a : A)
| Raise (e : pyexc).
Arguments Ok {A} a.
Arguments Raise {A} e.

(** Truth value of a Python object. *)
Definition truthy (v : pyval) : bool :=
  match v with
  | PNone => false
  | PBool b => b
  | PInt z => negb (z =? 0)
  | PStr s => negb (String.eqb s "")
  | PList l | PTuple l => match l with [] => false | _ => true end
  | PDict d => match d with [] => false | _ => true end
  | PObj _ => true
  end.

Definition isinstance_list (v : pyval) : bool :=
  match v with PList _ => true | _ => false end.
Definition isinstance_str (v : pyval) : bool :=
  match v with PStr _ => true | _ => false end.
Definition isinstance_dict (v : pyval) : bool :=
  match v with PDict _ => true | _ => false end.
Definition isinstance_tuple (v : pyval) : bool :=
  match v with PTuple _ => true | _ => false end.

(** [x == PStr s] for a string on one side. *)
Definition eq_str (s : string) (v : pyval) : bool :=
  match v with PStr t => String.eqb s t | _ => false end.

(** [s in l] for a list [l] *)
Definition str_in (s : string) (l : list pyval) : bool :=
  existsb (eq_str s) l.

(** [hash(v)] succeeds *)
Fixpoint hashable (v : pyval) : bool :=
  match v with
  | PList _ | PDict _ => false
  | PTuple l => forallb hashable l
  | _ => true
  end.

(** What [json.dumps] accepts. *)
Fixpoint json_ok (v : pyval) : bool :=
  match v with
  | PNone | PBool _ | PInt _ | PStr _ => true
  | PList l | PTuple l => forallb json_ok l
  | PDict d => forallb (fun kv => json_ok (snd kv)) d
  | PObj _ => false
  end.

(** [str(z)] *)
Definition str_of_Z (z : Z) : string := NilZero.string_of_int (Z.to_int z).

(** *** Dictionaries that keep insertion order *)

Section Dict.
Context {V : Type}.

Fixpoint dict_get (k : string) (d : list (string * V)) : option V :=
  match d with
  | [] => None
  | (k', v) :: d' => if String.eqb k k' then Some v else dict_get k d'
  end.

(** [d[k] = v]: an existing key keeps its place, a new key goes last. *)
Fixpoint dict_set (k : string) (v : V) (d : list (string * V))
  : list (string * V) :=
  match d with
  | [] => [(k, v)]
  | (k', v') :: d' =>
      if String.eqb k k' then (k, v) :: d' else (k', v') :: dict_set k v d'
  end.

(** [d.update(other)] *)
Definition dict_update (d other : list (string * V)) : list (string * V) :=
  fold_left (fun acc kv => dict_set (fst kv) (snd kv) acc) other d.

(** [d.pop(k)] on a present key: the dictionary without it *)
Fixpoint dict_remove (k : string) (d : list (string * V))
  : list (string * V) :=
  match d with
  | [] => []
  | (k', v) :: d' =>
      if String.eqb k k' then d' else (k', v) :: dict_remove k d'
  end.

Definition keys (d : list (string * V)) : list string := map fst d.
End Dict.

(** [getattr(obj, name, default)] on an attribute dictionary *)
Definition getattr (attrs : list (string * pyval)) (name : string)
  (default : pyval) : pyval :=
  match dict_get name attrs with Some v => v | None => default end.

(** *** Responses *)

Record HttpResponse : Type := mkResponse {
  status_code : Z;
  content : pyval   (* the data that was serialised into the body *)
}.

(** [int(status)] as [HttpResponseBase.__init__] takes it *)
Definition int_of_status (status : pyval) : option Z :=
  match status with
  | PInt z => Some z
  | PBool b => Some (if b then 1 else 0)
  | _ => None
  end.

(** [JsonResponse(data, status=status, safe=safe)]: with [safe] only a
    dictionary is accepted; the data is serialised first, then the status
    is checked. *)
Definition JsonResponse (data : pyval) (status : pyval) (safe : bool)
  : result HttpResponse :=
  if safe && negb (isinstance_dict data) then
    Raise (Exc TypeError (PStr "In order to allow non-dict objects to be serialized set the safe parameter to False."))
  else if negb (json_ok data) then
    Raise (Exc TypeError (PStr "Object is not JSON serializable"))
  else
    match int_of_status status with
    | None => Raise (Exc TypeError (PStr "HTTP status code must be an integer."))
    | Some z =>
        if (100 <=? z) && (z <=? 599) then Ok (mkResponse z data)
        else Raise (Exc ValueError (PStr "HTTP status code must be an integer from 100 to 599."))
    end.

(** *** Computations that log what they call *)

Inductive event : Type :=
| EvExtractParams                 (* extract_and_validate_request_params *)
| EvViewFunc                      (* the handler body *)
| EvModelValidate (schema : string)   (* Schema.model_validate *)
| EvLogException (e : pyexc)      (* logging.exception *)
| EvErrorHandler (name : string). (* a function of the errorhandler module *)

Definition M (A : Type) : Type := (list event * result A)%type.

Definition ret {A} (a : A) : M A := ([], Ok a).
Definition raise {A} (e : pyexc) : M A := ([], Raise e).
Definition lift {A} (r : result A) : M A := ([], r).
Definition emit (ev : event) : M unit := ([ev], Ok tt).

Definition bind {A B} (m : M A) (f : A -> M B) : M B :=
  match m with
  | (t, Ok a) => let (t', r) := f a in ((t ++ t')%list, r)
  | (t, Raise e) => (t, Raise e)
  end.

(** [try: body  except <catches> as e: handler e] *)
Definition try_except {A} (body : M A) (catches : pyexc -> bool)
  (handler : pyexc -> M A) : M A :=
  match body with
  | (t, Ok a) => (t, Ok a)
  | (t, Raise e) =>
      if catches e then let (t', r) := handler e in ((t ++ t')%list, r)
      else (t, Raise e)
  end.

Definition trace_of {A} (m : M A) : list event := fst m.
Definition outcome {A} (m : M A) : result A := snd m.

End Py.

Module PyNotations.
  Notation "x <- m ;; k" := (Py.bind m (fun x => k))
    (at level 61, m at next level, right associativity).
  Notation "m ;;; k" := (Py.bind m (fun _ => k))
    (at level 61, right associativity).
End PyNotations.

(* ===================================================================== *)
(** ** djapy/v2/dec.py *)
(* ===================================================================== *)

Module Dec.
Import Py PyNotations.

(** *** Type descriptions, signatures, requests *)

(** The classes a handler names in its return annotation: a subclass of
    djapy's [Schema], or one of the built-in classes. *)
Inductive builtin : Type :=
| B_str | B_int | B_bool | B_list | B_dict | B_tuple.

Inductive pytype : Type :=
| TSchema (name : string)
| TBuiltin (b : builtin).

Definition builtin_name (b : builtin) : string :=
  match b with
  | B_str => "str" | B_int => "int" | B_bool => "bool"
  | B_list => "list" | B_dict => "dict" | B_tuple => "tuple"
  end.

(** [t.__name__] *)
Definition type_name (t : pytype) : string :=
  match t with
  | TSchema n => n
  | TBuiltin b => builtin_name b
  end.

(** [isinstance(v, b)]; [bool] is a subclass of [int]. *)
Definition isinstance (v : pyval) (b : builtin) : bool :=
  match b, v with
  | B_str, PStr _ => true
  | B_int, PInt _ => true
  | B_int, PBool _ => true
  | B_bool, PBool _ => true
  | B_list, PList _ => true
  | B_dict, PDict _ => true
  | B_tuple, PTuple _ => true
  | _, _ => false
  end.

(** [b(v)] for an instance [v] of [b]: the built-in constructors copy. *)
Definition call_builtin (b : builtin) (v : pyval) : pyval :=
  match b, v with
  | B_int, PBool x => PInt (if x then 1 else 0)
  | _, _ => v
  end.

(** The value of [view_func.__annotations__['return']]. *)
Inductive annotation : Type :=
| AnnDict (m : list (Z * pytype))     (* {200: T, 404: U, ...} *)
| AnnType (t : pytype).               (* a bare class *)

Inductive param_kind : Type :=
| POSITIONAL_ONLY | POSITIONAL_OR_KEYWORD | VAR_POSITIONAL
| KEYWORD_ONLY | VAR_KEYWORD.

Definition is_POSITIONAL_OR_KEYWORD (k : param_kind) : bool :=
  match k with POSITIONAL_OR_KEYWORD => true | _ => false end.

(** [inspect.Parameter] *)
Record parameter : Type := mkParameter {
  param_name : string;
  kind : param_kind;
  param_annotation : option pytype
}.

Record HttpRequest : Type := mkRequest {
  method : string;
  user_is_authenticated : bool;     (* request.user.is_authenticated *)
  payload : pyval                   (* path captures, query and body *)
}.

Definition kwargs : Type := list (string * pyval).

(** A handler as the decorator receives it. *)
Record view_function : Type := mkView {
  vf_name : string;                                   (* __name__ *)
  vf_parameters : list parameter;                     (* its signature *)
  vf_return : option annotation;       (* __annotations__.get('return') *)
  vf_dict : list (string * pyval);                    (* its __dict__ *)
  vf_body : HttpRequest -> list pyval -> kwargs -> result pyval
}.

(** [get_required_params]: the POSITIONAL_OR_KEYWORD parameters but the
    first of the signature. *)
Definition enumerate {A} (l : list A) : list (nat * A) :=
  combine (seq 0 (List.length l)) l.

Definition get_required_params (view_func : view_function)
  : list parameter :=
  map snd
    (filter (fun ip => is_POSITIONAL_OR_KEYWORD (kind (snd ip))
                       && negb (Nat.eqb (fst ip) 0))
       (enumerate (vf_parameters view_func))).

(** *** The error-handler module and the registry built from it *)

(** A function of the errorhandler module: what
    [inspect.signature(f).parameters.get('exception')] gives (no such
    parameter, or the parameter with the class it is annotated with, if
    any), and the function itself. *)
Record function_obj : Type := mkFunction {
  fn_name : string;
  fn_exception_param : option (option pyclass);
  fn_call : HttpRequest -> pyexc -> result pyval
}.

Inductive module_attr : Type :=
| AttrFunction (f : function_obj)
| AttrValue (v : pyval).

(** A module, as the list of its attributes in the order of [dir]. *)
Definition py_module : Type := list (string * module_attr).

Definition dir (m : py_module) : list string := map fst m.

Definition MAX_HANDLER_COUNT : Z := 1.
Definition ERROR_HANDLER_MODULE : string := "djapy_ext.errorhandler".

Definition handler_count_warning : string :=
  "Errorhandler module should not contain more than 1 handlers. We discourage using more than 1 handlers in errorhandler module.".

(** The module-level state after lines 37-49 have run. *)
Record registry : Type := mkRegistry {
  _errorhandler_functions : list module_attr;
  _imported_errorhandler : option py_module;
  logged_warnings : list string
}.

(** Lines 37-49.  [imported] is what
    [importlib.import_module(ERROR_HANDLER_MODULE)] does: it returns the
    module or raises. *)
Definition load_errorhandlers (imported : result py_module)
  : result registry :=
  match imported with
  | Ok m =>
      let _all_handlers := dir m in
      let warned :=
        if Z.of_nat (List.length _all_handlers) >? MAX_HANDLER_COUNT
        then [handler_count_warning] else [] in
      Ok (mkRegistry
            (map snd (filter (fun kv => String.prefix "handler_" (fst kv)) m))
            (Some m) warned)
  | Raise e =>
      if is_Exception e then Ok (mkRegistry [] None [])
      else Raise e
  end.

(** [import_module] on a module that does not exist *)
Definition module_absent : result py_module :=
  Raise (Exc ModuleNotFoundError (PStr "No module named 'djapy_ext'")).

(** *** The parts of djapy the sources import but do not contain *)

(** The constants of [djapy.v2.defaults], the parser of [djapy.v2.parser],
    the helpers of [djapy.v2.response] and pydantic's validation, taken as
    given. [model_validate s v] stands for [s.model_validate(v).dict()]:
    the fields of the validated model. *)
Record foreign : Type := mkForeign {
  DEFAULT_AUTH_REQUIRED_MESSAGE : pyval;
  DEFAULT_METHOD_NOT_ALLOWED_MESSAGE : pyval;
  DEFAULT_MESSAGE_ERROR : pyval;
  extract_and_validate_request_params :
    HttpRequest -> list parameter -> kwargs -> result kwargs;
  model_validate : string -> pyval -> result (list (string * pyval));
  create_validation_error : string -> string -> string -> result pyexc;
  create_json_from_validation_error : pyexc -> result pyval
}.

Section Wrapper.
Variable F : foreign.
(** The module state the wrapper runs against. *)
Variable reg : registry.

(** [inspect.signature(f)] refuses what is not callable. *)
Definition inspect_signature (a : module_attr) : result function_obj :=
  match a with
  | AttrFunction f => Ok f
  | AttrValue _ =>
      Raise (Exc TypeError (PStr "object is not a callable object"))
  end.

(** [exception.__class__ == exception_param.annotation] *)
Definition annotation_matches (exception : pyexc) (ann : option pyclass)
  : bool :=
  match ann with
  | Some c => class_eqb (exc_class exception) c
  | None => false             (* inspect.Parameter.empty *)
  end.

(** The loop of [handle_error] over [_errorhandler_functions]. *)
Fixpoint handle_error_loop (fns : list module_attr) (request : HttpRequest)
  (exception : pyexc) : M (option HttpResponse) :=
  match fns with
  | [] => ret None
  | _errorhandler_function :: rest =>
      f <- lift (inspect_signature _errorhandler_function) ;;
      match fn_exception_param f with
      | None =>
          raise (Exc AttributeError
                   (PStr "'NoneType' object has no attribute 'annotation'"))
      | Some ann =>
          if annotation_matches exception ann then
            emit (EvErrorHandler (fn_name f)) ;;;
            _data_from_error <- lift (fn_call f request exception) ;;
            if truthy _data_from_error && isinstance_dict _data_from_error
            then
              try_except
                (r <- lift (JsonResponse _data_from_error (PInt 400) true) ;;
                 ret (Some r))
                is_TypeError
                (fun e =>
                   emit (EvLogException e) ;;;
                   r <- lift (JsonResponse (DEFAULT_MESSAGE_ERROR F)
                                (PInt 500) true) ;;
                   ret (Some r))
            else handle_error_loop rest request exception
          else handle_error_loop rest request exception
      end
  end.

Definition handle_error (request : HttpRequest) (exception : pyexc)
  : M (option HttpResponse) :=
  handle_error_loop (_errorhandler_functions reg) request exception.

(** *** The wrapped view *)

(** [_wrapped_view] with what it closes over ([view_func],
    [required_params], [x_schema]) and its own attributes. *)
Record wrapped_view : Type := mkWrapped {
  view_func : view_function;
  required_params : list parameter;
  x_schema : option annotation;
  wv_dict : list (string * pyval)
}.

Definition lookup_status (z : Z) (m : list (Z * pytype)) : option pytype :=
  match find (fun kv => Z.eqb (fst kv) z) m with
  | Some kv => Some (snd kv)
  | None => None
  end.

(** [x_schema.get(status, None)]: on no annotation and on a bare class
    the attribute lookup already fails (on the class [dict] the unbound
    method takes [status] for its dictionary). *)
Definition x_schema_get (xs : option annotation) (status : pyval)
  : result (option pytype) :=
  match xs with
  | None =>
      Raise (Exc AttributeError
               (PStr "'NoneType' object has no attribute 'get'"))
  | Some (AnnDict m) =>
      if hashable status then
        Ok (match int_of_status status with
            | Some z => lookup_status z m
            | None => None
            end)
      else Raise (Exc TypeError (PStr "unhashable type"))
  | Some (AnnType (TBuiltin B_dict)) =>
      if isinstance_dict status then Ok None
      else Raise (Exc TypeError
                    (PStr "descriptor 'get' for 'dict' objects doesn't apply"))
  | Some (AnnType t) =>
      Raise (Exc AttributeError
               (PStr ("type object '" ++ type_name t
                      ++ "' has no attribute 'get'")))
  end.

(** Lines 102-105 *)
Definition unpack_response (response_from_view_func : pyval)
  : result (pyval * pyval) :=
  if isinstance_tuple response_from_view_func then
    match response_from_view_func with
    | PTuple [status; response] => Ok (status, response)
    | _ => Raise (Exc ValueError (PStr "wrong number of values to unpack"))
    end
  else Ok (PInt 200, response_from_view_func).

(** What [schema_or_type.__name__] raises on line 115 when
    [schema_or_type] is [None]. *)
Definition missing_name : pyexc :=
  Exc AttributeError
    (PStr "'NoneType' object has no attribute '__name__'").

(** Lines 107-115 *)
Definition resolve_response (xs : option annotation)
  (status response : pyval) : M HttpResponse :=
  schema_or_type <- lift (x_schema_get xs status) ;;
  match schema_or_type with
  | Some (TSchema name) =>
      emit (EvModelValidate name) ;;;
      validated_data <- lift (model_validate F name response) ;;
      lift (JsonResponse (PDict validated_data) status true)
  | Some (TBuiltin b) =>
      if isinstance response b then
        lift (JsonResponse (call_builtin b response) status false)
      else
        e <- lift (create_validation_error F "Response" "response"
                     (builtin_name b ++ "_parsing")) ;;
        raise e
  | None => raise missing_name
  end.

(** Lines 100-115: the body of the [try]. *)
Definition try_block (w : wrapped_view) (request : HttpRequest)
  (args : list pyval) (view_kwargs : kwargs) : M HttpResponse :=
  emit EvExtractParams ;;;
  _data_kwargs <- lift (extract_and_validate_request_params F request
                          (required_params w) view_kwargs) ;;
  emit EvViewFunc ;;;
  response_from_view_func <-
    lift (vf_body (view_func w) request args _data_kwargs) ;;
  sr <- lift (unpack_response response_from_view_func) ;;
  resolve_response (x_schema w) (fst sr) (snd sr).

(** Lines 117-127: the [except Exception] clause. *)
Definition except_block (request : HttpRequest) (exception : pyexc)
  : M HttpResponse :=
  emit (EvLogException exception) ;;;
  error_response <- handle_error request exception ;;
  match error_response with
  | Some r => ret r
  | None =>
      if is_ValidationError exception then
        body <- lift (create_json_from_validation_error F exception) ;;
        lift (JsonResponse body (PInt 400) false)
      else lift (JsonResponse (DEFAULT_MESSAGE_ERROR F) (PInt 500) true)
  end.

(** [request.method not in djapy_allowed_method] for a list *)
Definition method_not_in (request : HttpRequest) (allowed : pyval) : bool :=
  match allowed with
  | PList l => negb (str_in (method request) l)
  | _ => false
  end.

(** Lines 86-127 *)
Definition _wrapped_view (w : wrapped_view) (request : HttpRequest)
  (args : list pyval) (view_kwargs : kwargs) : M HttpResponse :=
  let djapy_has_login_required :=
    getattr (wv_dict w) "djapy_has_login_required" (PBool false) in
  let djapy_allowed_method :=
    getattr (wv_dict w) "djapy_allowed_method" PNone in
  if truthy djapy_has_login_required
     && negb (user_is_authenticated request) then
    lift (JsonResponse
            (getattr (vf_dict (view_func w)) "djapy_message_response"
               (DEFAULT_AUTH_REQUIRED_MESSAGE F))
            (PInt 401) true)
  else if isinstance_list djapy_allowed_method
          && method_not_in request djapy_allowed_method then
    lift (JsonResponse
            (getattr (vf_dict (view_func w)) "djapy_message_response"
               (DEFAULT_METHOD_NOT_ALLOWED_MESSAGE F))
            (PInt 405) true)
  else if isinstance_str djapy_allowed_method
          && negb (eq_str (method request) djapy_allowed_method) then
    lift (JsonResponse
            (getattr (vf_dict (view_func w)) "djapy_message_response"
               (DEFAULT_METHOD_NOT_ALLOWED_MESSAGE F))
            (PInt 405) true)
  else
    try_except (try_block w request args view_kwargs)
      is_Exception
      (except_block request).

(** The conditions of line 90 and of lines 93 and 96. *)
Definition login_refused (w : wrapped_view) (request : HttpRequest) : bool :=
  truthy (getattr (wv_dict w) "djapy_has_login_required" (PBool false))
  && negb (user_is_authenticated request).

Definition method_refused (w : wrapped_view) (request : HttpRequest) : bool :=
  let djapy_allowed_method :=
    getattr (wv_dict w) "djapy_allowed_method" PNone in
  (isinstance_list djapy_allowed_method
   && method_not_in request djapy_allowed_method)
  || (isinstance_str djapy_allowed_method
      && negb (eq_str (method request) djapy_allowed_method)).

(** An entry of the registry the loop of [handle_error] passes over for
    [exception]: a function with a parameter [exception] annotated with
    another class. *)
Definition passes_over (exception : pyexc) (a : module_attr) : bool :=
  match a with
  | AttrFunction f =>
      match fn_exception_param f with
      | Some ann => negb (annotation_matches exception ann)
      | None => false
      end
  | AttrValue _ => false
  end.

(** An entry that cannot make [handle_error] raise: a function with a
    parameter [exception] that returns on every call. *)
Definition handler_returns (a : module_attr) : Prop :=
  exists f, a = AttrFunction f
            /\ fn_exception_param f <> None
            /\ forall request e, exists v, fn_call f request e = Ok v.

(** *** The decorator *)

Record djapify_options : Type := mkOptions {
  login_required : bool;
  allowed_method : pyval;
  openapi : bool;
  openapi_tags : pyval
}.

(** The defaults of the signature of [djapify]. *)
Definition default_options : djapify_options :=
  mkOptions false (PStr "GET") true PNone.

(** Lines 140-144: what is attached as [djapy_allowed_method], if
    anything. *)
Definition attached_allowed_method (am : pyval) : option pyval :=
  if truthy am then
    if isinstance_list am then Some am
    else if isinstance_str am then Some (PList [am])
    else None
  else None.

(** The attribute values that are not JSON data.  A function, a class and
    an [inspect.Parameter] are objects the JSON encoder does not know; the
    return annotation is [None], a class, or a dictionary of classes keyed
    by status (the keys written in decimal).  What these objects are is
    kept in the fields [view_func], [required_params] and [x_schema] of
    the wrapper. *)
Definition function_object (vf : view_function) : pyval := PObj "function".
Definition class_object (t : pytype) : pyval := PObj "type".
Definition parameter_object (p : parameter) : pyval := PObj "Parameter".

Definition annotation_object (xs : option annotation) : pyval :=
  match xs with
  | None => PNone
  | Some (AnnType t) => class_object t
  | Some (AnnDict m) =>
      PDict (map (fun kv => (str_of_Z (fst kv), class_object (snd kv))) m)
  end.

(** [functools.wraps(view_func)] on the attribute dictionary of the new
    function: [__dict__.update(view_func.__dict__)] on the empty
    dictionary of a new function, a copy, then [__wrapped__ = view_func].
    ([__name__], [__doc__] and the like are not kept in [__dict__].) *)
Definition wraps (vf : view_function) : list (string * pyval) :=
  dict_set "__wrapped__" (function_object vf) (vf_dict vf).

(** Lines 82-146: [wraps] on line 85, then the assignments of lines
    131-144 in their order. *)
Definition djapify (o : djapify_options) (vf : view_function)
  : wrapped_view :=
  let rp := get_required_params vf in
  let xs := vf_return vf in
  let d := wraps vf in
  let d := dict_set "djapy" (PBool true) d in
  let d := dict_set "openapi" (PBool (openapi o)) d in
  let d := dict_set "openapi_tags" (openapi_tags o) d in
  let d := dict_set "schema" (annotation_object xs) d in
  let d := dict_set "djapy_message_response"
             (getattr (vf_dict vf) "djapy_message_response" (PDict [])) d in
  let d := dict_set "required_params" (PList (map parameter_object rp)) d in
  let d := if login_required o
           then dict_set "djapy_has_login_required" (PBool true) d
           else d in
  let d := match attached_allowed_method (allowed_method o) with
           | Some l => dict_set "djapy_allowed_method" l d
           | None => d
           end in
  mkWrapped vf rp xs d.

End Wrapper.

End Dec.

(* ===================================================================== *)
(** ** djapy/data/dec2.py *)
(* ===================================================================== *)

Module Dec2.
Import Py PyNotations.
Import Dec.

(** What [djapy.data.defaults], [djapy.data.parser],
    [djapy.utils.prepare_exception] and pydantic give this module.
    [log_exception] returns the pair (error_message, display_message),
    [exc_json e] is [e.json()], [call_type b v] is [b(v)] on any [v]. *)
Record foreign : Type := mkForeign {
  DEFAULT_AUTH_REQUIRED_MESSAGE : pyval;
  DEFAULT_METHOD_NOT_ALLOWED_MESSAGE : pyval;
  extract_and_validate_request_params :
    HttpRequest -> list parameter -> result kwargs;
  model_validate : string -> pyval -> result (list (string * pyval));
  log_exception : HttpRequest -> pyexc -> result (pyval * pyval);
  exc_json : pyexc -> string;
  call_type : builtin -> pyval -> result pyval
}.

(** Lines 43-44 *)
Definition normalize_schema (schema_or_view_func : annotation)
  : list (Z * pytype) :=
  match schema_or_view_func with
  | AnnDict m => m
  | AnnType t => [(200, t)]
  end.

(** Lines 46-50: the import under [try], then
    [print(getattr(_imported_errorhandler, 'handler'))], a [getattr]
    without default. *)
Definition import_errorhandler (imported : result py_module)
  : result (option py_module) :=
  match imported with
  | Ok m => Ok (Some m)
  | Raise e => if is_Exception e then Ok None else Raise e
  end.

Definition getattr_handler (m : option py_module) : result module_attr :=
  match m with
  | None =>
      Raise (Exc AttributeError
               (PStr "'NoneType' object has no attribute 'handler'"))
  | Some attrs =>
      match dict_get "handler" attrs with
      | Some a => Ok a
      | None =>
          Raise (Exc AttributeError
                   (PStr "module 'djapy_ext.errorhandler' has no attribute 'handler'"))
      end
  end.

Record djapify_options : Type := mkOptions {
  login_required : bool;
  allowed_method : pyval;
  openapi : bool;
  openapi_tags : pyval
}.

Definition default_options : djapify_options :=
  mkOptions false (PStr "GET") false PNone.

(** The wrapper of this module with what it closes over. *)
Record wrapped_view : Type := mkWrapped {
  view_func : view_function;
  required_params : list parameter;
  schema_map : list (Z * pytype);
  wv_dict : list (string * pyval)
}.

(** Lines 51-105, the inner [decorator]: [wraps] on line 54, then the
    assignments of lines 95-103; the test of line 94 holds since line 44
    has made [schema_or_view_func] a dictionary. *)
Definition decorator (schema_map : list (Z * pytype)) (o : djapify_options)
  (vf : view_function) : wrapped_view :=
  let rp := get_required_params vf in
  let d := Dec.wraps vf in
  let d := dict_set "djapy" (PBool true) d in
  let d := dict_set "openapi" (PBool (openapi o)) d in
  let d := dict_set "openapi_tags" (openapi_tags o) d in
  let d := dict_set "djapy_message_response"
             (getattr (vf_dict vf) "djapy_message_response" (PDict [])) d in
  let d := if login_required o
           then dict_set "djapy_has_login_required" (PBool true) d
           else d in
  let d := if truthy (allowed_method o)
           then dict_set "djapy_allowed_method" (allowed_method o) d
           else d in
  mkWrapped vf rp schema_map d.

(** Lines 29-107: [djapify(schema, ...)] returns the decorator, or raises
    before it is built. *)
Definition djapify (imported : result py_module)
  (schema_or_view_func : annotation) (o : djapify_options)
  : result (view_function -> wrapped_view) :=
  let schema_map := normalize_schema schema_or_view_func in
  match import_errorhandler imported with
  | Raise e => Raise e
  | Ok _imported_errorhandler =>
      match getattr_handler _imported_errorhandler with
      | Raise e => Raise e
      | Ok _ => Ok (decorator schema_map o)
      end
  end.

Section Wrapper.
Variable F : foreign.

(** Lines 83-92; the function returns nothing when no branch does. *)
Definition respond (w : wrapped_view) (func : pyval)
  : M (option HttpResponse) :=
  match Dec.lookup_status 200 (schema_map w) with
  | None =>
      raise (Exc TypeError (PStr "issubclass() arg 1 must be a class"))
  | Some (TSchema name) =>
      try_except
        (emit (EvModelValidate name) ;;;
         validated_data <- lift (model_validate F name func) ;;
         r <- lift (JsonResponse (PDict validated_data) (PInt 200) true) ;;
         ret (Some r))
        is_ValidationError
        (fun e => ret (Some (mkResponse 400 (PStr (exc_json F e)))))
  | Some (TBuiltin b) =>
      v <- lift (call_type F b func) ;;
      r <- lift (JsonResponse v (PInt 200) false) ;;
      ret (Some r)
  end.

(** [view_func(request, *args, **_data_kwargs, **kwargs)]: a keyword
    given twice is refused at the call. *)
Definition call_view (w : wrapped_view) (request : HttpRequest)
  (args : list pyval) (_data_kwargs kw : kwargs) : result pyval :=
  if existsb (fun k => mem_string k (keys _data_kwargs)) (keys kw) then
    Raise (Exc TypeError (PStr "got multiple values for keyword argument"))
  else vf_body (view_func w) request args (_data_kwargs ++ kw)%list.

(** Lines 68-73 *)
Definition extract_step (w : wrapped_view) (request : HttpRequest)
  : M (kwargs + HttpResponse) :=
  try_except
    (emit EvExtractParams ;;;
     _data_kwargs <- lift (extract_and_validate_request_params F request
                             (required_params w)) ;;
     ret (inl _data_kwargs))
    is_ValidationError
    (fun e => ret (inr (mkResponse 400 (PStr (exc_json F e))))).

(** Lines 75-81 *)
Definition invoke_step (w : wrapped_view) (request : HttpRequest)
  (args : list pyval) (_data_kwargs kw : kwargs)
  : M (pyval + HttpResponse) :=
  try_except
    (emit EvViewFunc ;;;
     func <- lift (call_view w request args _data_kwargs kw) ;;
     ret (inl func))
    is_Exception
    (fun e =>
       emit (EvLogException e) ;;;
       msgs <- lift (log_exception F request e) ;;
       r <- lift (JsonResponse
                    (PDict [("message", snd msgs);
                            ("error_message", fst msgs);
                            ("alias", PStr "server_error")])
                    (PInt 500) true) ;;
       ret (inr r)).

(** Lines 55-92 *)
Definition _wrapped_view (w : wrapped_view) (request : HttpRequest)
  (args : list pyval) (kw : kwargs) : M (option HttpResponse) :=
  let djapy_has_login_required :=
    getattr (wv_dict w) "djapy_has_login_required" (PBool false) in
  let djapy_allowed_method :=
    getattr (wv_dict w) "djapy_allowed_method" PNone in
  if truthy djapy_has_login_required
     && negb (user_is_authenticated request) then
    r <- lift (JsonResponse
                 (getattr (vf_dict (view_func w)) "djapy_message_response"
                    (DEFAULT_AUTH_REQUIRED_MESSAGE F))
                 (PInt 401) true) ;;
    ret (Some r)
  else if isinstance_list djapy_allowed_method
          && Dec.method_not_in request djapy_allowed_method then
    r <- lift (JsonResponse
                 (getattr (vf_dict (view_func w)) "message_response"
                    (DEFAULT_METHOD_NOT_ALLOWED_MESSAGE F))
                 (PInt 405) true) ;;
    ret (Some r)
  else if isinstance_str djapy_allowed_method
          && negb (eq_str (method request) djapy_allowed_method) then
    r <- lift (JsonResponse
                 (getattr (vf_dict (view_func w)) "message_response"
                    (DEFAULT_METHOD_NOT_ALLOWED_MESSAGE F))
                 (PInt 405) true) ;;
    ret (Some r)
  else
    x <- extract_step w request ;;
    match x with
    | inr r => ret (Some r)
    | inl _data_kwargs =>
        y <- invoke_step w request args _data_kwargs kw ;;
        match y with
        | inr r => ret (Some r)
        | inl func => respond w func
        end
    end.
End Wrapper.

End Dec2.


(* ===================================================================== *)
(** ** djapy/v2/openapi.py *)
(* ===================================================================== *)

Module OpenApi.
Import Py.
Import Dec.

(** *** Strings *)

Definition newline : ascii := ascii_of_nat 10.

(** The rest of [(.+?)>] after the first character of the group: up to the
    first [>], with no newline on the way. *)
Fixpoint find_close (s : string) : option (string * string) :=
  match s with
  | EmptyString => None
  | String c s' =>
      if Ascii.eqb c ">" then Some (EmptyString, s')
      else if Ascii.eqb c newline then None
      else match find_close s' with
           | Some (g, r) => Some (String c g, r)
           | None => None
           end
  end.

Fixpoint strip_prefix (p s : string) : option string :=
  match p, s with
  | EmptyString, _ => Some s
  | String a p', String b s' =>
      if Ascii.eqb a b then strip_prefix p' s' else None
  | String _ _, EmptyString => None
  end.

(** A match of [<int:(.+?)>] at the head of [s]: the group and what
    follows the match. *)
Definition match_int_capture (s : string) : option (string * string) :=
  match strip_prefix "<int:" s with
  | Some (String c r) =>
      if Ascii.eqb c newline then None
      else match find_close r with
           | Some (g, after) => Some (String c g, after)
           | None => None
           end
  | _ => None
  end.

(** [re.sub('<int:(.+?)>', '{\g<1>}', s)], scanning from the left; [skip]
    counts the characters of a match still to be passed over. *)
Fixpoint sub_int_captures (skip : nat) (s : string) : string :=
  match s with
  | EmptyString => EmptyString
  | String c s' =>
      match skip with
      | S k => sub_int_captures k s'
      | O =>
          match match_int_capture s with
          | Some (g, after) =>
              "{" ++ g ++ "}"
              ++ sub_int_captures
                   (String.length s - String.length after - 1) s'
          | None => String c (sub_int_captures 0 s')
          end
      end
  end.

Definition make_path_name_from_url (pattern : string) : string :=
  sub_int_captures 0 pattern.

Definition lower_ascii (c : ascii) : ascii :=
  let n := nat_of_ascii c in
  if (Nat.leb 65 n && Nat.leb n 90)%bool then ascii_of_nat (n + 32) else c.

(** [s.lower()] on ASCII text *)
Fixpoint lower (s : string) : string :=
  match s with
  | EmptyString => EmptyString
  | String c s' => String (lower_ascii c) (lower s')
  end.

(** *** The routing tree *)

(** A view function as the generator sees it: its name and attributes.
    The attributes [schema] and [required_params] hold values that are not
    JSON data and have fields of their own; each may be missing. *)
Record callback : Type := mkCallback {
  cb_name : string;
  cb_dict : list (string * pyval);
  cb_schema : option (option annotation);
  cb_required_params : option (list parameter)
}.

(** The callback a view wrapped by [Dec.djapify] is. *)
Definition callback_of (w : Dec.wrapped_view) : callback :=
  mkCallback (vf_name (Dec.view_func w)) (Dec.wv_dict w)
    (Some (Dec.x_schema w)) (Some (Dec.required_params w)).

(** Django's two kinds of entries: a [URLPattern] has a callback and no
    [url_patterns]; a [URLResolver] has [callback = None] and a list of
    entries. *)
Inductive url_entry : Type :=
| URLPattern (pattern : string) (cb : callback)
| URLResolver (pattern : string) (url_patterns : list url_entry).

(** pydantic: [create_model(name, **fields, __base__=Schema)
    .schema(ref_template="#/components/schemas/{model}")], the rendered
    schema as a dictionary. *)
Record foreign : Type := mkForeign {
  model_schema :
    string -> list (string * option pytype) -> result (list (string * pyval))
}.

(** *** [Path] *)

Record Path : Type := mkPath {
  path : string;
  methods : pyval;
  summary : string;
  export_components : list (string * pyval);
  export_definitions : list (string * pyval);
  parameters : list pyval;
  responses : list (string * pyval);
  request_body : pyval;
  operation_name : string          (* url_pattern.callback.__name__ *)
}.

Section Generator.
Variable F : foreign.

(** Lines 49-50 and 76-77: [if "$defs" in prepared_schema:
    export_components.update(prepared_schema.pop("$defs"))]; the result is
    the components and what is left of the schema. *)
Definition hoist_defs (prepared_schema components : list (string * pyval))
  : result (list (string * pyval) * list (string * pyval)) :=
  match dict_get "$defs" prepared_schema with
  | None => Ok (components, prepared_schema)
  | Some (PDict defs) =>
      Ok (dict_update components defs, dict_remove "$defs" prepared_schema)
  | Some _ =>
      Raise (Exc TypeError (PStr "cannot update a dictionary from this"))
  end.

(** [prepared_schema['properties']['response']] *)
Definition response_property (prepared_schema : list (string * pyval))
  : result pyval :=
  match dict_get "properties" prepared_schema with
  | None => Raise (Exc KeyError (PStr "properties"))
  | Some (PDict props) =>
      match dict_get "response" props with
      | Some content => Ok content
      | None => Raise (Exc KeyError (PStr "response"))
      end
  | Some _ => Raise (Exc TypeError (PStr "object is not subscriptable"))
  end.

Definition media (content : pyval) : pyval :=
  PDict [("application/json", PDict [("schema", content)])].

(** The loop of [get_responses] over the items of the schema map; it
    carries [responses] and [self.export_components]. *)
Fixpoint get_responses_loop (items : list (Z * pytype))
  (acc : list (string * pyval) * list (string * pyval))
  : result (list (string * pyval) * list (string * pyval)) :=
  match items with
  | [] => Ok acc
  | (status, schema) :: rest =>
      let description := if status =? 200 then "OK" else "Else 200" in
      match model_schema F "openapi_response_model"
              [("response", Some schema)] with
      | Raise e => Raise e
      | Ok prepared_schema =>
          match hoist_defs prepared_schema (snd acc) with
          | Raise e => Raise e
          | Ok (components, prepared_schema') =>
              match response_property prepared_schema' with
              | Raise e => Raise e
              | Ok content =>
                  get_responses_loop rest
                    (dict_set (str_of_Z status)
                       (PDict [("description", PStr description);
                               ("content", media content)])
                       (fst acc),
                     components)
              end
          end
      end
  end.

(** [getattr(view_func, 'schema', {}).items()] *)
Definition schema_items (cb : callback) : result (list (Z * pytype)) :=
  match cb_schema cb with
  | None => Ok []
  | Some None =>
      Raise (Exc AttributeError
               (PStr "'NoneType' object has no attribute 'items'"))
  | Some (Some (AnnDict m)) => Ok m
  | Some (Some (AnnType (TBuiltin B_dict))) =>
      Raise (Exc TypeError (PStr "unbound method dict.items() needs an argument"))
  | Some (Some (AnnType t)) =>
      Raise (Exc AttributeError
               (PStr ("type object '" ++ type_name t
                      ++ "' has no attribute 'items'")))
  end.

(** Lines 65-84 *)
Definition get_responses (cb : callback)
  (components : list (string * pyval))
  : result (list (string * pyval) * list (string * pyval)) :=
  match schema_items cb with
  | Raise e => Raise e
  | Ok items => get_responses_loop items ([], components)
  end.

(** Lines 41-55 *)
Definition get_request_body (cb : callback)
  (components : list (string * pyval))
  : result (pyval * list (string * pyval)) :=
  match cb_required_params cb with
  | None =>
      Raise (Exc AttributeError
               (PStr "function object has no attribute 'required_params'"))
  | Some params =>
      match model_schema F "openapi_request_model"
              (map (fun p => (param_name p, param_annotation p)) params) with
      | Raise e => Raise e
      | Ok prepared_schema =>
          match hoist_defs prepared_schema components with
          | Raise e => Raise e
          | Ok (components', content) =>
              Ok (PDict [("content", media (PDict content))], components')
          end
      end
  end.

(** Lines 30-39, [Path.__init__] *)
Definition Path_init (pattern : string) (cb : callback) (methods : pyval)
  : result Path :=
  match get_responses cb [] with
  | Raise e => Raise e
  | Ok (responses, components) =>
      match get_request_body cb components with
      | Raise e => Raise e
      | Ok (request_body, components') =>
          Ok (mkPath (make_path_name_from_url pattern) methods
                "Register and login user" components' [] []
                responses request_body (cb_name cb))
      end
  end.

(** [for method in self.methods] *)
Definition iterate (v : pyval) : result (list pyval) :=
  match v with
  | PList l | PTuple l => Ok l
  | PStr s => Ok (map (fun c => PStr (String c EmptyString)) (list_ascii_of_string s))
  | PDict d => Ok (map (fun kv => PStr (fst kv)) d)
  | _ => Raise (Exc TypeError (PStr "object is not iterable"))
  end.

(** The dictionary comprehension of [Path.dict] *)
Fixpoint operations (p : Path) (ms : list pyval)
  (acc : list (string * pyval)) : result (list (string * pyval)) :=
  match ms with
  | [] => Ok acc
  | PStr m :: rest =>
      operations p rest
        (dict_set (lower m)
           (PDict [("summary", PStr (summary p));
                   ("operationId", PStr (operation_name p));
                   ("responses", PDict (responses p));
                   ("parameters", PList (parameters p));
                   ("requestBody", request_body p)])
           acc)
  | _ :: _ =>
      Raise (Exc AttributeError (PStr "object has no attribute 'lower'"))
  end.

(** Lines 86-96 *)
Definition Path_dict (p : Path) : result (list (string * pyval)) :=
  match iterate (methods p) with
  | Raise e => Raise e
  | Ok ms => operations p ms []
  end.

(** *** [OpenAPI] *)

(** The dictionaries the class [OpenAPI] holds: they are class attributes,
    created once and shared by every instance and every call. *)
Record openapi_state : Type := mkState {
  paths : list (string * pyval);
  schemas : list (string * pyval);       (* components["schemas"] *)
  definitions : list (string * pyval)
}.

(** The class as it is when the module has been loaded. *)
Definition initial_state : openapi_state := mkState [] [] [].

Definition nonempty {A} (l : list A) : bool :=
  match l with [] => false | _ => true end.

(** Lines 150-157, for an entry with a callback. *)
Definition visit_callback (pattern : string) (cb : callback)
  (st : openapi_state) : result unit * openapi_state :=
  if truthy (getattr (cb_dict cb) "djapy" (PBool false))
     && truthy (getattr (cb_dict cb) "openapi" (PBool false)) then
    match dict_get "djapy_allowed_method" (cb_dict cb) with
    | None =>
        (Raise (Exc AttributeError
                  (PStr "function object has no attribute 'djapy_allowed_method'")),
         st)
    | Some allowed =>
        match Path_init pattern cb allowed with
        | Raise e => (Raise e, st)
        | Ok p =>
            let st :=
              if nonempty (export_definitions p)
              then mkState (paths st) (schemas st)
                     (dict_update (definitions st) (export_definitions p))
              else st in
            let st :=
              if nonempty (export_components p)
              then mkState (paths st)
                     (dict_update (schemas st) (export_components p))
                     (definitions st)
              else st in
            if truthy (getattr (cb_dict cb) "openapi" (PBool false)) then
              match Path_dict p with
              | Raise e => (Raise e, st)
              | Ok d =>
                  (Ok tt,
                   mkState (dict_set (path p) (PDict d) (paths st))
                     (schemas st) (definitions st))
              end
            else (Ok tt, st)
        end
    end
  else (Ok tt, st).

(** Lines 148-159 *)
Fixpoint visit_entry (u : url_entry) (st : openapi_state)
  : result unit * openapi_state :=
  match u with
  | URLPattern pattern cb => visit_callback pattern cb st
  | URLResolver _ url_patterns =>
      (fix generate_paths (l : list url_entry) (st : openapi_state)
         : result unit * openapi_state :=
         match l with
         | [] => (Ok tt, st)
         | u' :: l' =>
             match visit_entry u' st with
             | (Ok _, st') => generate_paths l' st'
             | (Raise e, st') => (Raise e, st')
             end
         end) url_patterns st
  end.

Fixpoint generate_paths (url_pattern : list url_entry) (st : openapi_state)
  : result unit * openapi_state :=
  match url_pattern with
  | [] => (Ok tt, st)
  | u :: l =>
      match visit_entry u st with
      | (Ok _, st') => generate_paths l st'
      | (Raise e, st') => (Raise e, st')
      end
  end.

Definition Info_dict : pyval :=
  PDict [("title", PStr "My API"); ("version", PStr "1.0.0");
         ("description", PStr "This API is a powerful")].

(** Lines 161-169: the walk, then the document read off the class. *)
Definition OpenAPI_dict (resolved_url : list url_entry) (st : openapi_state)
  : result pyval * openapi_state :=
  match generate_paths resolved_url st with
  | (Raise e, st') => (Raise e, st')
  | (Ok _, st') =>
      (Ok (PDict [("openapi", PStr "3.1.0");
                  ("info", Info_dict);
                  ("paths", PDict (paths st'));
                  ("components", PDict [("schemas", PDict (schemas st'))]);
                  ("$defs", PDict (definitions st'))]),
       st')
  end.

End Generator.

(** *** The effect of a walk on the class *)

(** What a walk writes, dictionary by dictionary, in the order of the
    writes. *)
Record writes : Type := mkWrites {
  w_paths : list (string * pyval);
  w_schemas : list (string * pyval);
  w_definitions : list (string * pyval)
}.

Definition no_writes : writes := mkWrites [] [] [].

Definition writes_then (a b : writes) : writes :=
  mkWrites (w_paths a ++ w_paths b) (w_schemas a ++ w_schemas b)
    (w_definitions a ++ w_definitions b).

Definition apply_writes (ws : writes) (st : openapi_state) : openapi_state :=
  mkState (dict_update (paths st) (w_paths ws))
    (dict_update (schemas st) (w_schemas ws))
    (dict_update (definitions st) (w_definitions ws)).

(** A step of the walk whose result and writes do not depend on what the
    class dictionaries hold. *)
Definition oblivious (run : openapi_state -> result unit * openapi_state)
  : Prop :=
  exists r ws, forall st, run st = (r, apply_writes ws st).

End OpenApi.


(* ===================================================================== *)
(** ** A concrete installation, for the examples *)
(* ===================================================================== *)

Module Sample.
Import Py.
Import Dec.

(** Modelled from the spec: the constants of [djapy.v2.defaults] are not
    among the sources; the wire format names the generic body
    [{message, errorDetail, alias: "server_error"}], a 401 "auth required"
    message and a 405 "method not allowed" message. *)
Definition auth_required_message : pyval :=
  PDict [("message", PStr "auth required"); ("alias", PStr "auth_required")].
Definition method_not_allowed_message : pyval :=
  PDict [("message", PStr "method not allowed");
         ("alias", PStr "method_not_allowed")].
Definition server_error_message : pyval :=
  PDict [("message", PStr "server error"); ("errorDetail", PNone);
         ("alias", PStr "server_error")].

(** Modelled from the spec: [djapy.v2.parser] and [djapy.v2.response] are
    not among the sources. Extraction binds each required parameter from the
    keyword arguments of the route and fails with one validation error
    listing all the missing names; a validation error is rendered as the
    list of its entries. *)
Definition sample_extract (request : HttpRequest)
  (required : list parameter) (view_kwargs : kwargs) : result kwargs :=
  let missing :=
    filter (fun p => match dict_get (param_name p) view_kwargs with
                     | Some _ => false | None => true end) required in
  match missing with
  | [] =>
      Ok (flat_map (fun p => match dict_get (param_name p) view_kwargs with
                             | Some v => [(param_name p, v)]
                             | None => []
                             end) required)
  | _ =>
      Raise (Exc ValidationError
               (PList (map (fun p => PDict [("loc", PStr (param_name p));
                                            ("msg", PStr "Field required")])
                         missing)))
  end.

Definition sample_model_validate (schema : string) (v : pyval)
  : result (list (string * pyval)) :=
  match v with
  | PDict d => Ok d
  | _ =>
      Raise (Exc ValidationError
               (PList [PDict [("loc", PStr schema);
                              ("msg", PStr "Input should be an object")]]))
  end.

Definition sample_create_validation_error (title loc type_ : string)
  : result pyexc :=
  Ok (Exc ValidationError
        (PList [PDict [("loc", PStr loc); ("type", PStr type_);
                       ("title", PStr title)]])).

Definition sample_create_json (e : pyexc) : result pyval :=
  match e with Exc _ detail => Ok detail end.

Definition std : foreign :=
  mkForeign auth_required_message method_not_allowed_message
    server_error_message sample_extract sample_model_validate
    sample_create_validation_error sample_create_json.

(** [std] with any other [create_validation_error]. *)
Definition std_with (create : string -> string -> string -> result pyexc)
  : foreign :=
  mkForeign auth_required_message method_not_allowed_message
    server_error_message sample_extract sample_model_validate
    create sample_create_json.

(** The registry when the errorhandler module does not exist. *)
Definition no_handlers : registry := mkRegistry [] None [].

Definition request_param : parameter :=
  mkParameter "request" POSITIONAL_OR_KEYWORD None.

(** [def hello(request) -> {200: str}: return "ok"] *)
Definition hello : view_function :=
  mkView "hello" [request_param] (Some (AnnDict [(200, TBuiltin B_str)])) []
    (fun _ _ _ => Ok (PStr "ok")).

(** [def hello_bare(request) -> str: return "ok"] *)
Definition hello_bare : view_function :=
  mkView "hello_bare" [request_param] (Some (AnnType (TBuiltin B_str))) []
    (fun _ _ _ => Ok (PStr "ok")).

(** [hello] with [members.djapy_message_response = "members only"], a
    text where the wrapper expects a mapping. *)
Definition members : view_function :=
  mkView "members" [request_param] (Some (AnnDict [(200, TBuiltin B_str)]))
    [("djapy_message_response", PStr "members only")]
    (fun _ _ _ => Ok (PStr "ok")).

(** [def teapot(request) -> {200: str}: return 418, "short and stout"] *)
Definition teapot : view_function :=
  mkView "teapot" [request_param] (Some (AnnDict [(200, TBuiltin B_str)])) []
    (fun _ _ _ => Ok (PTuple [PInt 418; PStr "short and stout"])).

(** [class NotFoundError(Exception)], a class of the application. *)
Definition NotFoundError : pyclass := exception_class "app.errors.NotFoundError".

(** [def find_user(request, user_id: int) -> {200: UserSchema}: raise
    NotFoundError(user_id)] *)
Definition find_user : view_function :=
  mkView "find_user"
    [request_param;
     mkParameter "user_id" POSITIONAL_OR_KEYWORD (Some (TBuiltin B_int))]
    (Some (AnnDict [(200, TSchema "UserSchema")])) []
    (fun _ _ kw => Raise (Exc NotFoundError (PDict kw))).

(** [def picky(request) -> {200: str}: raise ValidationError(...)], a
    validation error raised by the handler's own logic. *)
Definition picky : view_function :=
  mkView "picky" [request_param] (Some (AnnDict [(200, TBuiltin B_str)])) []
    (fun _ _ _ =>
       Raise (Exc ValidationError
                (PList [PDict [("loc", PStr "age");
                               ("msg", PStr "too young")]]))).

(** [def status_view(request) -> {200: str}: return z, "short and stout"] *)
Definition status_view (z : Z) : view_function :=
  mkView "status_view" [request_param]
    (Some (AnnDict [(200, TBuiltin B_str)])) []
    (fun _ _ _ => Ok (PTuple [PInt z; PStr "short and stout"])).

Definition get_anonymous : HttpRequest := mkRequest "GET" false PNone.
Definition post_anonymous : HttpRequest := mkRequest "POST" false PNone.
Definition get_user : HttpRequest := mkRequest "GET" true PNone.
Definition post_user : HttpRequest := mkRequest "POST" true PNone.

(** [djapify(login_required=True, allowed_method=["GET"])] *)
Definition get_only_login : djapify_options :=
  mkOptions true (PList [PStr "GET"]) true PNone.

(** [def handler_not_found(request, exception: NotFoundError):
      return {"message": "no such user"}] *)
Definition handler_not_found : function_obj :=
  mkFunction "handler_not_found" (Some (Some NotFoundError))
    (fun _ _ => Ok (PDict [("message", PStr "no such user")])).

(** [def handler_attribute(request, exception: AttributeError):
      return {"message": "bad attribute"}] *)
Definition handler_attribute : function_obj :=
  mkFunction "handler_attribute" (Some (Some AttributeError))
    (fun _ _ => Ok (PDict [("message", PStr "bad attribute")])).

(** [def handler_broken(request, exception: NotFoundError):
      raise RuntimeError("handler failed")] *)
Definition handler_broken : function_obj :=
  mkFunction "handler_broken" (Some (Some NotFoundError))
    (fun _ _ => Raise (Exc RuntimeError (PStr "handler failed"))).

(** What [dir] lists of any module loaded from a file. *)
Definition module_dunders : py_module :=
  map (fun n => (n, AttrValue PNone))
    ["__builtins__"; "__cached__"; "__doc__"; "__file__"; "__loader__";
     "__name__"; "__package__"; "__spec__"].

(** An errorhandler module that defines one function, [handler_not_found],
    and nothing else. *)
Definition one_handler_module : py_module :=
  (module_dunders ++ [("handler_not_found", AttrFunction handler_not_found)])%list.

(** The registry built from an errorhandler module that defines the
    functions [fns]. *)
Definition module_of (fns : list function_obj) : py_module :=
  (module_dunders ++ map (fun f => (fn_name f, AttrFunction f)) fns)%list.

Definition registry_of (fns : list function_obj) : registry :=
  match load_errorhandlers (Ok (module_of fns)) with
  | Ok r => r
  | Raise _ => no_handlers
  end.

(** A stand-in for pydantic's rendering: built-in classes are rendered in
    place, a [Schema] class is rendered as a reference and its definition
    is put under ["$defs"]. *)
Definition basic_type (b : builtin) : string :=
  match b with
  | B_str => "string" | B_int => "integer" | B_bool => "boolean"
  | B_list => "array" | B_dict => "object" | B_tuple => "array"
  end.

Definition render_field (t : option pytype) : pyval :=
  match t with
  | Some (TBuiltin b) => PDict [("type", PStr (basic_type b))]
  | Some (TSchema n) => PDict [("$ref", PStr ("#/components/schemas/" ++ n))]
  | None => PDict []
  end.

Definition field_defs (t : option pytype) : list (string * pyval) :=
  match t with
  | Some (TSchema n) =>
      [(n, PDict [("title", PStr n); ("type", PStr "object")])]
  | _ => []
  end.

Definition sample_model_schema (name : string)
  (fields : list (string * option pytype)) : result (list (string * pyval)) :=
  let defs := flat_map (fun f => field_defs (snd f)) fields in
  let body :=
    [("properties",
      PDict (map (fun f => (fst f, render_field (snd f))) fields));
     ("title", PStr name); ("type", PStr "object")] in
  Ok (match defs with
      | [] => body
      | _ => ("$defs", PDict defs) :: body
      end).

Definition pydantic : OpenApi.foreign := OpenApi.mkForeign sample_model_schema.

(** [def user(request, user_id: int) -> {200: UserSchema, 404: str}] *)
Definition user : view_function :=
  mkView "user"
    [request_param;
     mkParameter "user_id" POSITIONAL_OR_KEYWORD (Some (TBuiltin B_int))]
    (Some (AnnDict [(200, TSchema "UserSchema"); (404, TBuiltin B_str)])) []
    (fun _ _ kw => Ok (PDict kw)).

(** A URL configuration: two wrapped views, one of them under an
    [include], the same path routed twice, and a plain Django view. *)
Definition urlpatterns : list OpenApi.url_entry :=
  [OpenApi.URLPattern "hello/"
     (OpenApi.callback_of (djapify default_options hello));
   OpenApi.URLResolver "api/"
     [OpenApi.URLPattern "users/<int:user_id>/"
        (OpenApi.callback_of
           (djapify (mkOptions false (PList [PStr "GET"; PStr "POST"])
                       true PNone) user));
      OpenApi.URLPattern "hello/"
        (OpenApi.callback_of (djapify default_options teapot))];
   OpenApi.URLPattern "admin/" (OpenApi.mkCallback "admin" [] None None)].

End Sample.


(* ===================================================================== *)
(** ** djapy/mixins/permissions.py *)
(* ===================================================================== *)

Module Permissions.
Import Py.
Import Dec.

(** A view of [PermissionMixin]: [has_permission] is the abstract method,
    [super_render] is [DjapyBaseView.__render__] of [djapy.views.generics],
    which is not among the sources. *)
Record view (A : Type) : Type := mkView {
  has_permission : HttpRequest -> result pyval;
  super_render : HttpRequest -> result A
}.
Arguments mkView {A} _ _.
Arguments has_permission {A} _ _.
Arguments super_render {A} _ _.

(** [PermissionMixin.__render__], lines 11-15: what it prints and what it
    returns. *)
Definition __render__ {A} (self : view A) (request : HttpRequest)
  : list string * result A :=
  match has_permission self request with
  | Raise e => ([], Raise e)
  | Ok allowed =>
      (if negb (truthy allowed) then ["no permission"] else [],
       super_render self request)
  end.

(** [LoginRequiredMixin], lines 18-20. *)
Definition LoginRequiredMixin {A} (super_render : HttpRequest -> result A)
  : view A :=
  mkView (fun request => Ok (PBool (user_is_authenticated request)))
    super_render.

End Permissions.

(* ===================================================================== *)
(** ** Further notions and examples *)
(* ===================================================================== *)

Module Coverage.
Import Py.
Import Dec Sample.

(** The events of the [except] clause: logging and error handlers. *)
Definition error_event (ev : event) : bool :=
  match ev with
  | EvLogException _ | EvErrorHandler _ => true
  | _ => false
  end.


(** The callbacks of a routing tree, in the order of the walk. *)
Fixpoint callbacks_of (u : OpenApi.url_entry) : list OpenApi.callback :=
  match u with
  | OpenApi.URLPattern _ cb => [cb]
  | OpenApi.URLResolver _ l => flat_map callbacks_of l
  end.

(** The test of line 150 of openapi.py. *)
Definition documented (cb : OpenApi.callback) : bool :=
  truthy (getattr (OpenApi.cb_dict cb) "djapy" (PBool false))
  && truthy (getattr (OpenApi.cb_dict cb) "openapi" (PBool false)).

(** No match of [<int:] starts anywhere in [s]. *)
Fixpoint no_int_capture (s : string) : bool :=
  match OpenApi.strip_prefix "<int:" s with
  | Some _ => false
  | None =>
      match s with
      | EmptyString => true
      | String _ s' => no_int_capture s'
      end
  end.

(** A name a converter can capture and [(.+?)>] can match whole. *)
Fixpoint plain_name (s : string) : bool :=
  match s with
  | EmptyString => true
  | String c s' =>
      negb (Ascii.eqb c ">") && negb (Ascii.eqb c OpenApi.newline)
      && plain_name s'
  end.

(** The conditions of lines 59 and 62-65 of dec2.py. *)
Definition dec2_login_refused (w : Dec2.wrapped_view) (request : HttpRequest)
  : bool :=
  truthy (getattr (Dec2.wv_dict w) "djapy_has_login_required" (PBool false))
  && negb (user_is_authenticated request).

Definition dec2_method_refused (w : Dec2.wrapped_view)
  (request : HttpRequest) : bool :=
  let djapy_allowed_method :=
    getattr (Dec2.wv_dict w) "djapy_allowed_method" PNone in
  (isinstance_list djapy_allowed_method
   && method_not_in request djapy_allowed_method)
  || (isinstance_str djapy_allowed_method
      && negb (eq_str (method request) djapy_allowed_method)).

(** *** Examples *)

(** [def echo(request, name: str) -> {200: UserSchema, 201: str}] returns
    its keyword arguments, or [(201, name)] when asked to create. *)
Definition echo : view_function :=
  mkView "echo"
    [request_param;
     mkParameter "name" POSITIONAL_OR_KEYWORD (Some (TBuiltin B_str));
     mkParameter "args" VAR_POSITIONAL None;
     mkParameter "create" KEYWORD_ONLY (Some (TBuiltin B_bool))]
    (Some (AnnDict [(200, TSchema "UserSchema"); (201, TBuiltin B_str)]))
    [("csrf_exempt", PBool true);
     ("djapy_message_response", PDict [("message", PStr "not for you")])]
    (fun request _ kw =>
       if String.eqb (method request) "POST"
       then Ok (PTuple [PInt 201; getattr kw "name" PNone])
       else Ok (PDict kw)).

(** [def count(request) -> {200: str}: return 3] *)
Definition count : view_function :=
  mkView "count" [request_param] (Some (AnnDict [(200, TBuiltin B_str)])) []
    (fun _ _ _ => Ok (PInt 3)).

(** [def triple(request) -> {200: str}: return 200, "a", "b"] *)
Definition triple : view_function :=
  mkView "triple" [request_param] (Some (AnnDict [(200, TBuiltin B_str)])) []
    (fun _ _ _ => Ok (PTuple [PInt 200; PStr "a"; PStr "b"])).

(** [def quit(request) -> {200: str}: sys.exit(1)] *)
Definition quit : view_function :=
  mkView "quit" [request_param] (Some (AnnDict [(200, TBuiltin B_str)])) []
    (fun _ _ _ => Raise (Exc SystemExit (PInt 1))).

(** [django.core.exceptions.ValidationError], which shares its name with
    pydantic's class and nothing else. *)
Definition DjangoValidationError : pyclass :=
  exception_class "django.core.exceptions.ValidationError".

(** [asyncio.CancelledError] derives from [BaseException] only. *)
Definition CancelledError : pyclass :=
  mkClass "asyncio.exceptions.CancelledError" ["BaseException"].

(** [def strict(request) -> {200: str}:
      raise django.core.exceptions.ValidationError("too young")] *)
Definition strict : view_function :=
  mkView "strict" [request_param] (Some (AnnDict [(200, TBuiltin B_str)])) []
    (fun _ _ _ => Raise (Exc DjangoValidationError (PStr "too young"))).

(** [def cancelled(request) -> {200: str}: raise asyncio.CancelledError()] *)
Definition cancelled : view_function :=
  mkView "cancelled" [request_param]
    (Some (AnnDict [(200, TBuiltin B_str)])) []
    (fun _ _ _ => Raise (Exc CancelledError PNone)).

(** [def unannotated(request): return "ok"] *)
Definition unannotated : view_function :=
  mkView "unannotated" [request_param] None [] (fun _ _ _ => Ok (PStr "ok")).

(** [def handler_silent(request, exception: NotFoundError): return None] *)
Definition handler_silent : function_obj :=
  mkFunction "handler_silent" (Some (Some NotFoundError))
    (fun _ _ => Ok PNone).

(** [def handler_leaky(request, exception: NotFoundError):
      return {"error": exception}] *)
Definition handler_leaky : function_obj :=
  mkFunction "handler_leaky" (Some (Some NotFoundError))
    (fun _ e => Ok (PDict [("error", PObj (cls_name (exc_class e)))])).

(** [def handler_misnamed(request, error: NotFoundError): ...] *)
Definition handler_misnamed : function_obj :=
  mkFunction "handler_misnamed" None
    (fun _ _ => Ok (PDict [("message", PStr "no such user")])).

(** An errorhandler module with a constant [handler_limit = 3]. *)
Definition module_with_constant : py_module :=
  (module_dunders ++ [("handler_limit", AttrValue (PInt 3))])%list.

(** An errorhandler module that defines a function [handler]. *)
Definition module_with_handler : py_module :=
  (module_dunders ++ [("handler", AttrFunction handler_not_found)])%list.

Definition post_named : HttpRequest := mkRequest "POST" true PNone.

(** Stand-ins for what [djapy.data] imports: extraction as in [Sample], a
    validation error printed as an empty JSON list, the two messages of
    [log_exception]; [call_type] converts instances of the class and
    refuses the rest. *)
Definition std2 : Dec2.foreign :=
  Dec2.mkForeign auth_required_message method_not_allowed_message
    (fun request required => sample_extract request required [])
    sample_model_validate
    (fun _ e => Ok (PStr (cls_name (exc_class e)), PStr "Something went wrong"))
    (fun _ => "[]")
    (fun b v =>
       if isinstance v b then Ok (call_builtin b v)
       else Raise (Exc TypeError (PStr "cannot convert"))).

(** A parent view that renders the method of the request. *)
Definition plain_view (request : HttpRequest) : result pyval :=
  Ok (PStr (method request)).

End Coverage.

(* ===================================================================== *)
(** ** Facts about exception classes *)
(* ===================================================================== *)

Module ClassFacts.
Import Py.

Lemma names_eqb_refl l : names_eqb l l = true.
Proof.
  induction l as [|a l IH]; [reflexivity|].
  cbn [names_eqb]. now rewrite String.eqb_refl, IH.
Qed.

Lemma names_eqb_eq l1 l2 : names_eqb l1 l2 = true -> l1 = l2.
Proof.
  revert l2. induction l1 as [|a l1 IH]; intros [|b l2] H;
    try discriminate H; [reflexivity|].
  cbn [names_eqb] in H. apply andb_prop in H as [Hab H].
  apply String.eqb_eq in Hab. subst b. f_equal. now apply IH.
Qed.

Lemma class_eqb_refl c : class_eqb c c = true.
Proof.
  unfold class_eqb. now rewrite String.eqb_refl, names_eqb_refl.
Qed.

Lemma class_eqb_eq c d : class_eqb c d = true -> c = d.
Proof.
  destruct c as [n a], d as [n' a']. unfold class_eqb. cbn [cls_name
    cls_ancestors]. intros H. apply andb_prop in H as [Hn Ha].
  apply String.eqb_eq in Hn. apply names_eqb_eq in Ha. now subst.
Qed.

(** pydantic's [ValidationError] derives from [Exception]. *)
Lemma ValidationError_is_Exception e :
  is_ValidationError e = true -> is_Exception e = true.
Proof.
  unfold is_ValidationError, is_Exception. intros H.
  apply class_eqb_eq in H. now rewrite H.
Qed.

End ClassFacts.

(* ===================================================================== *)
(** ** Facts about ordered dictionaries *)
(* ===================================================================== *)

Module DictFacts.
Import Py.

Section Dict.
Context {V : Type}.
Implicit Types (d : list (string * V)) (k : string) (v : V).

Lemma dict_get_set_eq k v d : dict_get k (dict_set k v d) = Some v.
Proof.
  induction d as [|[k' v'] d IH]; simpl.
  - now rewrite String.eqb_refl.
  - destruct (String.eqb k k') eqn:E; simpl.
    + now rewrite String.eqb_refl.
    + now rewrite E.
Qed.

Lemma dict_get_set_ne k k' v d :
  k <> k' -> dict_get k (dict_set k' v d) = dict_get k d.
Proof.
  intros Hne. induction d as [|[k0 v0] d IH]; simpl.
  - apply String.eqb_neq in Hne. now rewrite Hne.
  - destruct (String.eqb k' k0) eqn:E; simpl.
    + apply String.eqb_eq in E. subst k0.
      apply String.eqb_neq in Hne. now rewrite Hne.
    + now rewrite IH.
Qed.

Lemma keys_dict_set_in k v d :
  In k (keys d) -> keys (dict_set k v d) = keys d.
Proof.
  unfold keys. induction d as [|[k' v'] d IH]; simpl; [tauto|].
  intros [->|Hin].
  - now rewrite String.eqb_refl.
  - destruct (String.eqb k k') eqn:E; simpl.
    + apply String.eqb_eq in E. now subst.
    + now rewrite IH.
Qed.

Lemma in_keys_dict_set k k' v d :
  In k (keys (dict_set k' v d)) <-> k = k' \/ In k (keys d).
Proof.
  unfold keys. induction d as [|[k0 v0] d IH]; simpl.
  - intuition congruence.
  - destruct (String.eqb k' k0) eqn:E; simpl.
    + apply String.eqb_eq in E. subst k0. intuition congruence.
    + rewrite IH. intuition congruence.
Qed.

(** Writing twice to the same key is writing the last value. *)
Lemma dict_set_set k v v' d :
  dict_set k v (dict_set k v' d) = dict_set k v d.
Proof.
  induction d as [|[k0 v0] d IH]; simpl.
  - now rewrite String.eqb_refl.
  - destruct (String.eqb k k0) eqn:E; simpl.
    + now rewrite String.eqb_refl.
    + now rewrite E, IH.
Qed.

(** Writes to two keys commute as soon as the first-written key is already
    there: no new key changes place. *)
Lemma dict_set_comm k1 v1 k2 v2 d :
  k1 <> k2 -> In k1 (keys d) ->
  dict_set k1 v1 (dict_set k2 v2 d) = dict_set k2 v2 (dict_set k1 v1 d).
Proof.
  intros Hne. unfold keys.
  assert (E12 : String.eqb k1 k2 = false) by now apply String.eqb_neq.
  assert (E21 : String.eqb k2 k1 = false)
    by (apply String.eqb_neq; congruence).
  induction d as [|[k0 v0] d IH]; simpl; [tauto|].
  intros Hin.
  destruct (String.eqb k2 k0) eqn:E2; destruct (String.eqb k1 k0) eqn:E1;
    simpl.
  - apply String.eqb_eq in E1, E2. congruence.
  - apply String.eqb_eq in E2. subst k0. now rewrite E12, String.eqb_refl.
  - apply String.eqb_eq in E1. subst k0. now rewrite E21, String.eqb_refl.
  - rewrite E1, E2. f_equal. apply IH.
    destruct Hin as [Heq|Hin]; [|exact Hin].
    apply String.eqb_neq in E1. congruence.
Qed.

Lemma dict_update_app d w1 w2 :
  dict_update d (w1 ++ w2) = dict_update (dict_update d w1) w2.
Proof. unfold dict_update. apply fold_left_app. Qed.

Lemma dict_update_cons d k v w :
  dict_update d ((k, v) :: w) = dict_update (dict_set k v d) w.
Proof. reflexivity. Qed.

Lemma keys_dict_update_incl d w k :
  In k (keys d) -> In k (keys (dict_update d w)).
Proof.
  revert d. induction w as [|[k' v'] w IH]; intros d Hin; [exact Hin|].
  rewrite dict_update_cons. apply IH. apply in_keys_dict_set. now right.
Qed.

Lemma keys_dict_update_written d w k :
  In k (keys w) -> In k (keys (dict_update d w)).
Proof.
  revert d. induction w as [|[k' v'] w IH]; intros d Hin; [destruct Hin|].
  rewrite dict_update_cons. destruct Hin as [Heq|Hin]; simpl in *.
  1: subst k'.
  - apply keys_dict_update_incl. apply in_keys_dict_set. now left.
  - now apply IH.
Qed.

(** Replaying writes whose keys are all present, around a write to [k]. *)
Lemma dict_update_absorb k v w : forall d,
  (forall k', In k' (keys w) -> In k' (keys d)) ->
  dict_set k v (dict_update (dict_set k v d) w)
  = dict_set k v (dict_update d w).
Proof.
  induction w as [|[k1 v1] w IH]; intros d Hall.
  - simpl. apply dict_set_set.
  - rewrite !dict_update_cons.
    assert (Hk1 : In k1 (keys d)) by (apply Hall; now left).
    assert (Hrest : forall k', In k' (keys w) ->
                               In k' (keys (dict_set k1 v1 d))).
    { intros k' Hin. apply in_keys_dict_set. right. apply Hall. now right. }
    destruct (String.eqb_spec k1 k) as [->|Hne].
    + now rewrite dict_set_set.
    + rewrite dict_set_comm by assumption. now apply IH.
Qed.

Lemma dict_update_snoc d w k v :
  dict_update d (w ++ [(k, v)]) = dict_set k v (dict_update d w).
Proof. now rewrite dict_update_app. Qed.

(** [d.update(w)] twice is [d.update(w)] once: same keys in the same
    order, same values. *)
Lemma dict_update_idempotent w : forall d,
  dict_update (dict_update d w) w = dict_update d w.
Proof.
  induction w as [|[k v] w IH] using rev_ind; intros d; [reflexivity|].
  rewrite !dict_update_snoc.
  rewrite dict_update_absorb.
  - now rewrite IH.
  - intros k' Hin. now apply keys_dict_update_written.
Qed.

End Dict.
End DictFacts.


(* ===================================================================== *)
(** ** The wrapper of djapy/v2/dec.py: gates *)
(* ===================================================================== *)

Module GateFacts.
Import Py.
Import Dec ClassFacts DictFacts Sample.

Ltac other_key := let H := fresh in intro H; discriminate H.

(** A JSON dictionary is sent with the status it is given. *)
Lemma JsonResponse_dict d z safe :
  json_ok (PDict d) = true -> 100 <= z <= 599 ->
  JsonResponse (PDict d) (PInt z) safe = Ok (mkResponse z (PDict d)).
Proof.
  intros Hj [Hlo Hhi]. apply Z.leb_le in Hlo, Hhi.
  unfold JsonResponse. rewrite Hj.
  cbn [isinstance_dict negb int_of_status]. rewrite andb_false_r.
  now rewrite Hlo, Hhi.
Qed.

(** What the wrapper reads as [djapy_has_login_required]. *)
Lemma djapify_login_attr o vf :
  dict_get "djapy_has_login_required" (wv_dict (djapify o vf))
  = if login_required o then Some (PBool true)
    else dict_get "djapy_has_login_required" (vf_dict vf).
Proof.
  unfold djapify, wraps. cbn [wv_dict].
  destruct (attached_allowed_method (allowed_method o));
    [rewrite dict_get_set_ne by other_key|];
    (destruct (login_required o);
     [apply dict_get_set_eq
     |now rewrite !dict_get_set_ne by other_key]).
Qed.

(** What the wrapper reads as [djapy_allowed_method]. *)
Lemma djapify_allowed_attr o vf :
  dict_get "djapy_allowed_method" (wv_dict (djapify o vf))
  = match attached_allowed_method (allowed_method o) with
    | Some l => Some l
    | None => dict_get "djapy_allowed_method" (vf_dict vf)
    end.
Proof.
  unfold djapify, wraps. cbn [wv_dict].
  destruct (attached_allowed_method (allowed_method o)).
  - apply dict_get_set_eq.
  - destruct (login_required o);
      now rewrite !dict_get_set_ne by other_key.
Qed.

Lemma djapify_view_func o vf : view_func (djapify o vf) = vf.
Proof. reflexivity. Qed.

(** A request that passes both gates enters the [try]. *)
Lemma _wrapped_view_enters_try F reg w request args view_kwargs :
  login_refused w request = false ->
  method_refused w request = false ->
  _wrapped_view F reg w request args view_kwargs
  = try_except (try_block F w request args view_kwargs) is_Exception
      (except_block F reg request).
Proof.
  unfold login_refused, method_refused, _wrapped_view.
  intros -> Hm. apply orb_false_elim in Hm as [-> ->]. reflexivity.
Qed.

(** A response built by [JsonResponse] has the status it was given. *)
Lemma JsonResponse_Ok_status data z safe r :
  JsonResponse data (PInt z) safe = Ok r -> status_code r = z.
Proof.
  unfold JsonResponse.
  destruct (safe && negb (isinstance_dict data)); [discriminate|].
  destruct (negb (json_ok data)); [discriminate|].
  cbn [int_of_status].
  destruct ((100 <=? z) && (z <=? 599)); [|discriminate].
  now intros [= <-].
Qed.

(** With [safe=True], [JsonResponse] refuses what is not a dictionary and
    what the encoder cannot serialise with a [TypeError]. *)
Lemma JsonResponse_safe_refuses data status :
  isinstance_dict data = false \/ json_ok data = false ->
  exists t, JsonResponse data status true = Raise (Exc TypeError t).
Proof.
  intros H. unfold JsonResponse. destruct (isinstance_dict data).
  - destruct H as [H|H]; [discriminate H|]. rewrite H. cbn. eauto.
  - cbn. eauto.
Qed.

(** What line 91 does once the login check has refused the request. *)
Lemma _wrapped_view_login_refused F reg w request args view_kwargs :
  login_refused w request = true ->
  _wrapped_view F reg w request args view_kwargs
  = ([], JsonResponse
           (getattr (vf_dict (view_func w)) "djapy_message_response"
              (DEFAULT_AUTH_REQUIRED_MESSAGE F))
           (PInt 401) true).
Proof.
  unfold login_refused, _wrapped_view. now intros ->.
Qed.

(** C2, as the claim has it, fails: a handler that carries a text as its
    [djapy_message_response] and is wrapped with [login_required = True]
    gives no 401 to a request without a user: line 91 hands the text to
    [JsonResponse], which refuses it, and the [TypeError] leaves the
    wrapper. *)
Lemma login_view_with_text_message_raises :
  outcome (_wrapped_view std no_handlers (djapify get_only_login members)
             get_anonymous [] [])
  = Raise (Exc TypeError (PStr "In order to allow non-dict objects to be serialized set the safe parameter to False."))
  /\ ~ (exists r,
          outcome (_wrapped_view std no_handlers
                     (djapify get_only_login members) get_anonymous [] [])
          = Ok r).
Proof.
  split; [reflexivity|]. intros [r H]. vm_compute in H. discriminate H.
Qed.

(** C2, amended. For every handler wrapped with [login_required = True]
    and every request whose user is not authenticated, whatever its method,
    the trace of the wrapper is empty: parameter extraction, schema
    validation and the handler body never ran. When the configured (or
    default) message is a JSON-serialisable mapping the answer is 401 with
    that message; when it is not, the [TypeError] of [JsonResponse] leaves
    the wrapper. *)
Theorem login_required_unauthenticated_401
  F reg o vf request args view_kwargs :
  login_required o = true ->
  user_is_authenticated request = false ->
  let run := _wrapped_view F reg (djapify o vf) request args view_kwargs in
  let message := getattr (vf_dict vf) "djapy_message_response"
                   (DEFAULT_AUTH_REQUIRED_MESSAGE F) in
  trace_of run = []
  /\ (forall msg, message = PDict msg -> json_ok (PDict msg) = true ->
                  run = ([], Ok (mkResponse 401 (PDict msg))))
  /\ (isinstance_dict message = false \/ json_ok message = false ->
      exists t, run = ([], Raise (Exc TypeError t))).
Proof.
  intros Hlogin Hanon run message.
  assert (Hrun : run = ([], JsonResponse message (PInt 401) true)).
  { subst run message. rewrite _wrapped_view_login_refused; [reflexivity|].
    unfold login_refused, getattr.
    now rewrite djapify_login_attr, Hlogin, Hanon. }
  rewrite Hrun. split; [reflexivity|]. split.
  - intros msg Hmsg Hjson. rewrite Hmsg.
    now rewrite JsonResponse_dict by (assumption || lia).
  - intros Hbad.
    destruct (JsonResponse_safe_refuses message (PInt 401) Hbad) as [t Ht].
    exists t. now rewrite Ht.
Qed.

Lemma login_required_unauthenticated_401_witness :
  _wrapped_view std no_handlers (djapify get_only_login hello)
    get_anonymous [] []
  = ([], Ok (mkResponse 401 auth_required_message)).
Proof.
  exact (proj1 (proj2 (login_required_unauthenticated_401 std no_handlers
                         get_only_login hello get_anonymous [] []
                         eq_refl eq_refl))
           [("message", PStr "auth required");
            ("alias", PStr "auth_required")]
           eq_refl eq_refl).
Defined.

(** C1, as the claim has it, fails: the login check of line 90 comes before
    the method check of line 93, so a POST without a user to a handler that
    allows only GET and requires login is answered 401, not 405. *)
Lemma post_to_get_only_login_view_is_401 :
  outcome (_wrapped_view std no_handlers (djapify get_only_login hello)
             post_anonymous [] [])
  = Ok (mkResponse 401 auth_required_message)
  /\ ~ (exists r,
          outcome (_wrapped_view std no_handlers (djapify get_only_login hello)
                     post_anonymous [] []) = Ok r
          /\ status_code r = 405).
Proof.
  split; [reflexivity|].
  intros [r [H1 H2]]. vm_compute in H1. inversion H1; subst r.
  discriminate H2.
Qed.

(** C1, amended. For every wrapped handler whose allowed methods were
    attached as the list [l] (a non-empty list, or a single method made a
    one-element list) and every request whose method is not in [l]:
    - when the login check lets the request through, the trace is empty
      (the handler body was not invoked) and the answer is 405 with the
      configured (or default) message, provided that message is a
      JSON-serialisable mapping; when it is not, the [TypeError] of
      [JsonResponse] leaves the wrapper;
    - when the login check refuses the request, which it does first, the
      answer is 401 with the configured (or default) message for it, under
      the same proviso, and any response given has status 401. *)
Theorem method_not_allowed_405
  F reg o vf request args view_kwargs l :
  attached_allowed_method (allowed_method o) = Some (PList l) ->
  str_in (method request) l = false ->
  let run := _wrapped_view F reg (djapify o vf) request args view_kwargs in
  let message default :=
    getattr (vf_dict vf) "djapy_message_response" default in
  (login_refused (djapify o vf) request = false ->
   (forall msg,
       message (DEFAULT_METHOD_NOT_ALLOWED_MESSAGE F) = PDict msg ->
       json_ok (PDict msg) = true ->
       run = ([], Ok (mkResponse 405 (PDict msg))))
   /\ (isinstance_dict (message (DEFAULT_METHOD_NOT_ALLOWED_MESSAGE F)) = false
       \/ json_ok (message (DEFAULT_METHOD_NOT_ALLOWED_MESSAGE F)) = false ->
       exists t, run = ([], Raise (Exc TypeError t))))
  /\ (login_refused (djapify o vf) request = true ->
      (forall msg,
          message (DEFAULT_AUTH_REQUIRED_MESSAGE F) = PDict msg ->
          json_ok (PDict msg) = true ->
          run = ([], Ok (mkResponse 401 (PDict msg))))
      /\ (forall r, outcome run = Ok r -> status_code r = 401)).
Proof.
  intros Hatt Hnot run message. split.
  - intros Hlogin.
    assert (Hrun : run
                   = ([], JsonResponse
                            (message (DEFAULT_METHOD_NOT_ALLOWED_MESSAGE F))
                            (PInt 405) true)).
    { subst run message. unfold login_refused in Hlogin.
      unfold _wrapped_view. rewrite Hlogin.
      unfold getattr at 1 2. rewrite djapify_allowed_attr, Hatt.
      cbn [isinstance_list]. unfold method_not_in. rewrite Hnot.
      reflexivity. }
    rewrite Hrun. split.
    + intros msg Hmsg Hjson. rewrite Hmsg.
      now rewrite JsonResponse_dict by (assumption || lia).
    + intros Hbad.
      destruct (JsonResponse_safe_refuses _ (PInt 405) Hbad) as [t Ht].
      exists t. now rewrite Ht.
  - intros Hlogin. subst run.
    rewrite _wrapped_view_login_refused by assumption.
    rewrite djapify_view_func. split.
    + intros msg Hmsg Hjson. subst message. cbv beta in Hmsg. rewrite Hmsg.
      now rewrite JsonResponse_dict by (assumption || lia).
    + intros r Hr. unfold outcome in Hr. cbn [snd] in Hr.
      now apply JsonResponse_Ok_status in Hr.
Qed.

Lemma method_not_allowed_405_witness :
  _wrapped_view std no_handlers (djapify get_only_login hello)
    post_user [] []
  = ([], Ok (mkResponse 405 method_not_allowed_message)).
Proof.
  exact (proj1 (proj1 (method_not_allowed_405 std no_handlers
                         get_only_login hello post_user [] [] [PStr "GET"]
                         eq_refl eq_refl)
                  eq_refl)
           [("message", PStr "method not allowed");
            ("alias", PStr "method_not_allowed")]
           eq_refl eq_refl).
Defined.

(** The login check stays closed for a handler wrapped without
    [login_required] that carried no such attribute of its own. *)
Lemma login_not_required o vf request :
  login_required o = false ->
  dict_get "djapy_has_login_required" (vf_dict vf) = None ->
  login_refused (djapify o vf) request = false.
Proof.
  intros Ho Hvf. unfold login_refused, getattr.
  now rewrite djapify_login_attr, Ho, Hvf.
Qed.

(** C10, as the claim has it, fails: with [allowed_method=[]] the guard of
    line 140 attaches nothing, and what the wrapper reads is [None], not a
    list. *)
Lemma empty_allowed_method_is_not_attached :
  let w := djapify (mkOptions false (PList []) true PNone) hello in
  dict_get "djapy_allowed_method" (wv_dict w) = None
  /\ getattr (wv_dict w) "djapy_allowed_method" PNone = PNone
  /\ isinstance_list (getattr (wv_dict w) "djapy_allowed_method" PNone)
     = false.
Proof. repeat split. Qed.

(** C10, amended. Whenever the decorator attaches [djapy_allowed_method] it
    attaches a list: a non-empty list as it is, a non-empty string as a
    one-element list; for an empty (or otherwise unusable) configuration it
    attaches nothing. So for a handler that carried no such attribute of
    its own, the wrapper reads [None] or a list, never a string, and the
    comparison of line 96 is not taken. *)
Theorem allowed_method_attached_as_list o vf :
  dict_get "djapy_allowed_method" (vf_dict vf) = None ->
  let a := getattr (wv_dict (djapify o vf)) "djapy_allowed_method" PNone in
  (a = PNone \/ isinstance_list a = true)
  /\ isinstance_str a = false
  /\ (forall s, allowed_method o = PStr s -> s <> "" -> a = PList [PStr s])
  /\ (forall l, allowed_method o = PList l -> l <> [] -> a = PList l)
  /\ (truthy (allowed_method o) = false -> a = PNone).
Proof.
  intros Hvf a. subst a. unfold getattr.
  rewrite djapify_allowed_attr, Hvf. unfold attached_allowed_method.
  repeat split.
  - destruct (allowed_method o) as [|b|z|s|[|x l]|[|x l]|[|x d]|c]; simpl;
      repeat match goal with
             | |- context [if ?c then _ else _] => destruct c; simpl
             end; auto.
  - destruct (allowed_method o) as [|b|z|s|[|x l]|[|x l]|[|x d]|c]; simpl;
      repeat match goal with
             | |- context [if ?c then _ else _] => destruct c; simpl
             end; auto.
  - intros s -> Hs. simpl.
    destruct (String.eqb_spec s ""); [contradiction|reflexivity].
  - intros l -> Hl. simpl. destruct l; [contradiction|reflexivity].
  - now intros ->.
Qed.

Lemma allowed_method_attached_as_list_witness :
  let a := getattr (wv_dict (djapify default_options hello))
             "djapy_allowed_method" PNone in
  (a = PNone \/ isinstance_list a = true)
  /\ isinstance_str a = false
  /\ (forall s, allowed_method default_options = PStr s -> s <> ""
                -> a = PList [PStr s])
  /\ (forall l, allowed_method default_options = PList l -> l <> []
                -> a = PList l)
  /\ (truthy (allowed_method default_options) = false -> a = PNone).
Proof.
  apply (allowed_method_attached_as_list default_options hello).
  reflexivity.
Defined.

End GateFacts.


(* ===================================================================== *)
(** ** The wrapper of djapy/v2/dec.py: the error path *)
(* ===================================================================== *)

Module ErrorFacts.
Import Py PyNotations.
Import Dec ClassFacts DictFacts GateFacts Sample.

(** *** The small laws of the logging computations *)

Lemma bind_lift_Ok {A B} (a : A) (k : A -> M B) :
  bind (lift (Ok a)) k = k a.
Proof. unfold bind, lift. now destruct (k a). Qed.

Lemma bind_ret {A B} (a : A) (k : A -> M B) : bind (ret a) k = k a.
Proof. unfold bind, ret. now destruct (k a). Qed.

Lemma bind_lift_Raise {A B} e (k : A -> M B) :
  bind (lift (Raise e)) k = ([], Raise e).
Proof. reflexivity. Qed.

Lemma bind_emit {B} ev (k : unit -> M B) :
  bind (emit ev) k = (ev :: fst (k tt), snd (k tt)).
Proof. unfold bind, emit. now destruct (k tt). Qed.

Lemma outcome_bind_emit {B} ev (k : unit -> M B) :
  outcome (bind (emit ev) k) = outcome (k tt).
Proof. now rewrite bind_emit. Qed.

(** A response built by [JsonResponse] has the status and the data it was
    given. *)
Lemma JsonResponse_Ok data z safe r :
  JsonResponse data (PInt z) safe = Ok r ->
  status_code r = z /\ content r = data.
Proof.
  unfold JsonResponse.
  destruct (safe && negb (isinstance_dict data)); [discriminate|].
  destruct (negb (json_ok data)); [discriminate|].
  cbn [int_of_status].
  destruct ((100 <=? z) && (z <=? 599)); [|discriminate].
  intros H. inversion H. now split.
Qed.

(** On a dictionary and a status in range, [JsonResponse] can only fail
    with a [TypeError]. *)
Lemma JsonResponse_dict_cases d z :
  100 <= z <= 599 ->
  JsonResponse (PDict d) (PInt z) true = Ok (mkResponse z (PDict d))
  \/ exists t, JsonResponse (PDict d) (PInt z) true = Raise (Exc TypeError t).
Proof.
  intros Hz. destruct (json_ok (PDict d)) eqn:Hj.
  - left. now apply JsonResponse_dict.
  - right. unfold JsonResponse. rewrite Hj. cbn. eauto.
Qed.

(** *** The registry *)

Section Registry.
Variable F : foreign.
Variables (request : HttpRequest) (exception : pyexc).

(** Entries annotated with other classes are passed over. *)
Lemma handle_error_loop_passes_over fns rest :
  forallb (passes_over exception) fns = true ->
  handle_error_loop F (fns ++ rest) request exception
  = handle_error_loop F rest request exception.
Proof.
  induction fns as [|a fns IH]; intros Hall; [reflexivity|].
  simpl in Hall. apply andb_prop in Hall as [Ha Hall].
  destruct a as [f|v]; [|discriminate].
  simpl in Ha. destruct (fn_exception_param f) as [ann|] eqn:Hp;
    [|discriminate].
  cbn [app handle_error_loop inspect_signature]. rewrite bind_lift_Ok, Hp.
  apply negb_true_iff in Ha. rewrite Ha. now apply IH.
Qed.

Lemma handle_error_loop_no_match fns :
  forallb (passes_over exception) fns = true ->
  handle_error_loop F fns request exception = ([], Ok None).
Proof.
  intros Hall. rewrite <- (app_nil_r fns).
  now rewrite handle_error_loop_passes_over.
Qed.

(** The first entry annotated with the class of the exception is called;
    a non-empty JSON dictionary it returns is the body of a 400. *)
Lemma handle_error_loop_first_match pre f post d :
  forallb (passes_over exception) pre = true ->
  fn_exception_param f = Some (Some (exc_class exception)) ->
  fn_call f request exception = Ok (PDict d) ->
  d <> [] -> json_ok (PDict d) = true ->
  handle_error_loop F (pre ++ AttrFunction f :: post) request exception
  = ([EvErrorHandler (fn_name f)], Ok (Some (mkResponse 400 (PDict d)))).
Proof.
  intros Hpre Hp Hcall Hd Hj.
  rewrite handle_error_loop_passes_over by assumption.
  cbn [app handle_error_loop inspect_signature]. rewrite bind_lift_Ok, Hp. cbn [annotation_matches].
  rewrite class_eqb_refl, bind_emit, Hcall, bind_lift_Ok.
  destruct d as [|kv d]; [contradiction|].
  cbn [truthy isinstance_dict andb].
  rewrite JsonResponse_dict by (assumption || lia).
  reflexivity.
Qed.

(** When every entry returns, the loop returns, and a response it gives
    has status 400 or 500. *)
Lemma handle_error_loop_returns fns :
  Forall handler_returns fns ->
  (exists d, DEFAULT_MESSAGE_ERROR F = PDict d /\ json_ok (PDict d) = true) ->
  exists t o,
    handle_error_loop F fns request exception = (t, Ok o)
    /\ forall r, o = Some r -> status_code r = 400 \/ status_code r = 500.
Proof.
  intros Hall [dflt [Hdflt Hjson]].
  induction Hall as [|a fns Ha Hall IH].
  - exists [], None. split; [reflexivity|discriminate].
  - destruct Ha as [f [-> [Hp Hcall]]].
    destruct IH as [t [o [IHeq IHst]]].
    cbn [app handle_error_loop inspect_signature]. rewrite bind_lift_Ok.
    destruct (fn_exception_param f) as [ann|]; [|contradiction].
    destruct (annotation_matches exception ann); [|eauto].
    rewrite bind_emit.
    destruct (Hcall request exception) as [v Hv]. rewrite Hv, bind_lift_Ok.
    destruct (truthy v && isinstance_dict v) eqn:Hdict.
    + apply andb_prop in Hdict as [_ Hdict].
      destruct v as [|b|z|s|l|l|d|c]; try discriminate.
      destruct (JsonResponse_dict_cases d 400) as [Hok|[te Hraise]]; [lia| |].
      * rewrite Hok. do 2 eexists. split; [reflexivity|].
        intros r [= <-]. now left.
      * rewrite Hraise. unfold try_except. simpl.
        rewrite Hdflt, JsonResponse_dict by (assumption || lia).
        do 2 eexists. split; [reflexivity|].
        intros r [= <-]. now right.
    + rewrite IHeq. simpl. do 2 eexists. split; [reflexivity|exact IHst].
Qed.

End Registry.

(** *** Outcomes, compositionally *)

Lemma outcome_bind {A B} (m : M A) (k : A -> M B) :
  outcome (bind m k)
  = match outcome m with
    | Ok a => outcome (k a)
    | Raise e => Raise e
    end.
Proof.
  destruct m as [t [a|e]]; unfold outcome; simpl; [|reflexivity].
  now destruct (k a).
Qed.

Lemma outcome_try_except {A} (body : M A) catches handler :
  outcome (try_except body catches handler)
  = match outcome body with
    | Ok a => Ok a
    | Raise e => if catches e then outcome (handler e) else Raise e
    end.
Proof.
  destruct body as [t [a|e]]; unfold outcome; simpl; [reflexivity|].
  destruct (catches e); [|reflexivity]. now destruct (handler e).
Qed.

Lemma outcome_lift {A} (r : result A) : outcome (lift r) = r.
Proof. reflexivity. Qed.

Section ExceptClause.
Variable F : foreign.
Variable reg : registry.
Variables (request : HttpRequest) (exception : pyexc).

(** A response of [handle_error] has status 400 or 500. *)
Lemma handle_error_loop_status fns r :
  outcome (handle_error_loop F fns request exception) = Ok (Some r) ->
  status_code r = 400 \/ status_code r = 500.
Proof.
  induction fns as [|a fns IH]; [discriminate|].
  cbn [handle_error_loop]. rewrite outcome_bind, outcome_lift.
  destruct a as [f|v]; [|discriminate]. cbn [inspect_signature].
  destruct (fn_exception_param f) as [ann|]; [|discriminate].
  destruct (annotation_matches exception ann); [|exact IH].
  rewrite outcome_bind_emit, outcome_bind, outcome_lift.
  destruct (fn_call f request exception) as [v|e]; [|discriminate].
  destruct (truthy v && isinstance_dict v); [|exact IH].
  rewrite outcome_try_except, outcome_bind, outcome_lift.
  destruct (JsonResponse v (PInt 400) true) as [r0|e] eqn:E400.
  - intros [= <-]. left. now apply JsonResponse_Ok in E400.
  - destruct (is_TypeError e); [|discriminate].
    rewrite outcome_bind_emit, outcome_bind, outcome_lift.
    destruct (JsonResponse (DEFAULT_MESSAGE_ERROR F) (PInt 500) true)
      as [r0|e'] eqn:E500; [|discriminate].
    intros [= <-]. right. now apply JsonResponse_Ok in E500.
Qed.

(** Whatever the [except] clause answers has status 400 or 500. *)
Lemma except_block_status r :
  outcome (except_block F reg request exception) = Ok r ->
  status_code r = 400 \/ status_code r = 500.
Proof.
  unfold except_block. rewrite outcome_bind_emit, outcome_bind.
  unfold handle_error.
  destruct (outcome (handle_error_loop F (_errorhandler_functions reg)
                       request exception)) as [[r0|]|e] eqn:Hloop;
    [| |discriminate].
  - intros [= <-]. eapply handle_error_loop_status, Hloop.
  - destruct (is_ValidationError exception).
    + rewrite outcome_bind, outcome_lift.
      destruct (create_json_from_validation_error F exception);
        [|discriminate].
      rewrite outcome_lift. intros H. left.
      now apply JsonResponse_Ok in H.
    + rewrite outcome_lift. intros H. right.
      now apply JsonResponse_Ok in H.
Qed.

(** With no entry for the class of the exception, the clause answers by
    itself. *)
Lemma except_block_no_match :
  forallb (passes_over exception) (_errorhandler_functions reg) = true ->
  except_block F reg request exception
  = (EvLogException exception
       :: fst (if is_ValidationError exception
               then body <- lift (create_json_from_validation_error
                                    F exception) ;;
                    lift (JsonResponse body (PInt 400) false)
               else lift (JsonResponse (DEFAULT_MESSAGE_ERROR F)
                            (PInt 500) true)),
     snd (if is_ValidationError exception
          then body <- lift (create_json_from_validation_error
                               F exception) ;;
               lift (JsonResponse body (PInt 400) false)
          else lift (JsonResponse (DEFAULT_MESSAGE_ERROR F)
                       (PInt 500) true))).
Proof.
  intros Hall. unfold except_block, handle_error.
  rewrite bind_emit, handle_error_loop_no_match by assumption.
  change (@pair (list event) (result (option HttpResponse)) [] (Ok None))
    with (@ret (option HttpResponse) None).
  now rewrite bind_ret.
Qed.

(** When the registry cannot raise and a validation error can be
    rendered, the clause returns a response. *)
Lemma except_block_returns :
  Forall handler_returns (_errorhandler_functions reg) ->
  (exists d, DEFAULT_MESSAGE_ERROR F = PDict d /\ json_ok (PDict d) = true) ->
  (is_ValidationError exception = true ->
   exists body, create_json_from_validation_error F exception = Ok body
                /\ json_ok body = true) ->
  exists r, outcome (except_block F reg request exception) = Ok r.
Proof.
  intros Hreg Hdflt Hjson.
  destruct (handle_error_loop_returns F request exception _ Hreg Hdflt)
    as [t [o [Hloop _]]].
  unfold except_block, handle_error.
  rewrite outcome_bind_emit, outcome_bind, Hloop.
  cbn [outcome snd].
  destruct o as [r|]; [now exists r|].
  destruct (is_ValidationError exception).
  - destruct (Hjson eq_refl) as [body [Hbody Hok]].
    rewrite outcome_bind, outcome_lift, Hbody, outcome_lift.
    unfold JsonResponse. rewrite Hok. cbn. eauto.
  - destruct Hdflt as [d [Hd Hok]].
    rewrite outcome_lift, Hd, JsonResponse_dict by (assumption || lia).
    eauto.
Qed.

End ExceptClause.

End ErrorFacts.


(* ===================================================================== *)
(** ** The wrapper of djapy/v2/dec.py: inside the [try] *)
(* ===================================================================== *)

Module ContractFacts.
Import Py PyNotations.
Import Dec ClassFacts DictFacts GateFacts ErrorFacts Sample.

Section Wrapper.
Variable F : foreign.
Variable reg : registry.
Variable w : wrapped_view.
Variables (request : HttpRequest) (args : list pyval) (view_kwargs : kwargs).

(** The handler body raised: nothing after it ran. *)
Lemma try_block_body_raises kw e :
  extract_and_validate_request_params F request (required_params w)
    view_kwargs = Ok kw ->
  vf_body (view_func w) request args kw = Raise e ->
  try_block F w request args view_kwargs
  = ([EvExtractParams; EvViewFunc], Raise e).
Proof.
  intros Hex Hbody. unfold try_block.
  rewrite bind_emit, Hex, bind_lift_Ok, bind_emit, Hbody.
  reflexivity.
Qed.

(** The status the handler returned is not a key of the map. *)
Lemma x_schema_get_absent m status :
  hashable status = true ->
  (forall z, int_of_status status = Some z -> lookup_status z m = None) ->
  x_schema_get (Some (AnnDict m)) status = Ok None.
Proof.
  intros Hh Habs. unfold x_schema_get. rewrite Hh.
  destruct (int_of_status status) as [z|]; [|reflexivity].
  now rewrite (Habs z eq_refl).
Qed.

Lemma try_block_absent_status kw rv status response m :
  x_schema w = Some (AnnDict m) ->
  extract_and_validate_request_params F request (required_params w)
    view_kwargs = Ok kw ->
  vf_body (view_func w) request args kw = Ok rv ->
  unpack_response rv = Ok (status, response) ->
  hashable status = true ->
  (forall z, int_of_status status = Some z -> lookup_status z m = None) ->
  try_block F w request args view_kwargs
  = ([EvExtractParams; EvViewFunc], Raise missing_name).
Proof.
  intros Hxs Hex Hbody Hun Hh Habs. unfold try_block.
  rewrite bind_emit, Hex, bind_lift_Ok, bind_emit, Hbody, bind_lift_Ok.
  rewrite Hun, bind_lift_Ok. cbn [fst snd]. unfold resolve_response.
  rewrite Hxs, x_schema_get_absent, bind_lift_Ok by assumption.
  reflexivity.
Qed.

(** What the wrapper does with an exception of the [try]. *)
Lemma _wrapped_view_caught t e :
  login_refused w request = false ->
  method_refused w request = false ->
  try_block F w request args view_kwargs = (t, Raise e) ->
  is_Exception e = true ->
  _wrapped_view F reg w request args view_kwargs
  = ((t ++ fst (except_block F reg request e))%list,
     snd (except_block F reg request e)).
Proof.
  intros Hl Hm Htry Hexc.
  rewrite _wrapped_view_enters_try by assumption.
  unfold try_except. rewrite Htry, Hexc.
  now destruct (except_block F reg request e).
Qed.

End Wrapper.

(** A status that is not a key of the response map: line 107 finds
    nothing, and line 115 fails on [None.__name__] before it has a
    validation error to raise. That [AttributeError] is logged and handed
    to the [except] clause like any other exception, so every response has
    status 400 or 500; when the registry passes over it, the answer is the
    500 with the fixed body [DEFAULT_MESSAGE_ERROR]. *)
Lemma absent_status_is_an_error
  F reg w request args view_kwargs kw rv status response m :
  login_refused w request = false ->
  method_refused w request = false ->
  x_schema w = Some (AnnDict m) ->
  extract_and_validate_request_params F request (required_params w)
    view_kwargs = Ok kw ->
  vf_body (view_func w) request args kw = Ok rv ->
  unpack_response rv = Ok (status, response) ->
  hashable status = true ->
  (forall z, int_of_status status = Some z -> lookup_status z m = None) ->
  let run := _wrapped_view F reg w request args view_kwargs in
  In (EvLogException missing_name) (trace_of run)
  /\ (forall r, outcome run = Ok r ->
                status_code r = 400 \/ status_code r = 500)
  /\ (forallb (passes_over missing_name) (_errorhandler_functions reg) = true ->
      forall d, DEFAULT_MESSAGE_ERROR F = PDict d ->
                json_ok (PDict d) = true ->
                run = ([EvExtractParams; EvViewFunc;
                        EvLogException missing_name],
                       Ok (mkResponse 500 (PDict d)))).
Proof.
  intros Hl Hm Hxs Hex Hbody Hun Hh Habs run.
  assert (Hrun : run
                 = (([EvExtractParams; EvViewFunc]
                     ++ fst (except_block F reg request missing_name))%list,
                    snd (except_block F reg request missing_name))).
  { subst run. apply _wrapped_view_caught; try assumption; [|reflexivity].
    eapply try_block_absent_status; eassumption. }
  rewrite Hrun. clear Hrun. repeat split.
  - unfold trace_of. cbn [fst]. apply in_or_app. right.
    unfold except_block. rewrite bind_emit. now left.
  - intros r Hr. eapply except_block_status. exact Hr.
  - intros Hall d Hd Hj. rewrite except_block_no_match by assumption.
    replace (is_ValidationError missing_name) with false by reflexivity.
    rewrite Hd, JsonResponse_dict by (assumption || lia). reflexivity.
Qed.

(** The [AttributeError] of line 115 goes through the registry: a
    function registered for [AttributeError] answers for it. *)
Example absent_status_with_attribute_handler_is_400 :
  outcome (_wrapped_view std (registry_of [handler_attribute])
             (djapify default_options teapot) get_anonymous [] [])
  = Ok (mkResponse 400 (PDict [("message", PStr "bad attribute")])).
Proof. reflexivity. Qed.

(** C3. [def status_view(request) -> {200: str}: return z, "short and
    stout"] with a status [z] other than 200, wrapped by [djapy.v2] with
    nothing registered: the answer is the 500 with the generic body, the
    same for every missing status, so it does not name the status. Line
    115 means to raise the validation error [create_validation_error]
    builds, but [schema_or_type] is [None] and building the error's name
    from [schema_or_type.__name__] fails first: the run is the same
    whatever [create_validation_error] would have returned, and what is
    logged is the [AttributeError]. *)
Theorem absent_status_answer_names_no_status create z :
  z <> 200 ->
  _wrapped_view (std_with create) no_handlers
    (djapify default_options (status_view z)) get_anonymous [] []
  = ([EvExtractParams; EvViewFunc; EvLogException missing_name],
     Ok (mkResponse 500 server_error_message)).
Proof.
  intros Hz.
  refine (proj2 (proj2 (absent_status_is_an_error (std_with create)
                          no_handlers
                          (djapify default_options (status_view z))
                          get_anonymous [] [] []
                          (PTuple [PInt z; PStr "short and stout"])
                          (PInt z) (PStr "short and stout")
                          [(200, TBuiltin B_str)]
                          eq_refl eq_refl eq_refl eq_refl eq_refl eq_refl
                          eq_refl _))
            eq_refl _ eq_refl eq_refl).
  intros z' [= <-]. unfold lookup_status. cbn [find fst].
  destruct (Z.eqb_spec 200 z) as [E|E]; [congruence|reflexivity].
Qed.

Lemma absent_status_answer_names_no_status_witness :
  _wrapped_view std no_handlers (djapify default_options (status_view 418))
    get_anonymous [] []
  = ([EvExtractParams; EvViewFunc; EvLogException missing_name],
     Ok (mkResponse 500 server_error_message))
  /\ _wrapped_view std no_handlers (djapify default_options (status_view 419))
       get_anonymous [] []
     = ([EvExtractParams; EvViewFunc; EvLogException missing_name],
        Ok (mkResponse 500 server_error_message)).
Proof.
  split.
  - apply (absent_status_answer_names_no_status
             sample_create_validation_error 418).
    discriminate.
  - apply (absent_status_answer_names_no_status
             sample_create_validation_error 419).
    discriminate.
Defined.

(** C4, as the claim has it, fails: a validation error raised by the
    handler's own logic, with nothing registered for it, is not answered
    with the generic 500 but, by line 124, with a 400 carrying the rendered
    validation error. *)
Lemma unregistered_validation_error_is_400 :
  outcome (_wrapped_view std no_handlers (djapify default_options picky)
             get_anonymous [] [])
  = Ok (mkResponse 400
          (PList [PDict [("loc", PStr "age"); ("msg", PStr "too young")]]))
  /\ outcome (_wrapped_view std no_handlers (djapify default_options picky)
                get_anonymous [] [])
     <> Ok (mkResponse 500 (DEFAULT_MESSAGE_ERROR std)).
Proof. split; [reflexivity|discriminate]. Qed.

(** C4, amended. For every exception deriving from [Exception] that the
    handler body raises:
    - if the registry holds a function annotated with exactly the class of
      the exception, every entry before it is a function with a parameter
      [exception] annotated with another class, and that function returns
      a non-empty JSON-serialisable mapping, then it was called and that
      mapping is the body of a 400;
    - if every entry of the registry is a function with a parameter
      [exception] annotated with another class and the exception is not a
      pydantic [ValidationError], the answer is the 500 with the generic
      body (a JSON-serialisable mapping);
    - if every entry of the registry is such and the exception is a
      pydantic [ValidationError] whose rendering is JSON-serialisable, the
      answer is a 400 whose body is the rendered validation error. *)
Theorem handler_exception_dispatch
  F reg w request args view_kwargs kw e :
  login_refused w request = false ->
  method_refused w request = false ->
  extract_and_validate_request_params F request (required_params w)
    view_kwargs = Ok kw ->
  vf_body (view_func w) request args kw = Raise e ->
  is_Exception e = true ->
  let run := _wrapped_view F reg w request args view_kwargs in
  (forall pre f post d,
      _errorhandler_functions reg = (pre ++ AttrFunction f :: post)%list ->
      forallb (passes_over e) pre = true ->
      fn_exception_param f = Some (Some (exc_class e)) ->
      fn_call f request e = Ok (PDict d) ->
      d <> [] -> json_ok (PDict d) = true ->
      run = ([EvExtractParams; EvViewFunc; EvLogException e;
              EvErrorHandler (fn_name f)],
             Ok (mkResponse 400 (PDict d))))
  /\ (forallb (passes_over e) (_errorhandler_functions reg) = true ->
      is_ValidationError e = false ->
      forall d, DEFAULT_MESSAGE_ERROR F = PDict d ->
                json_ok (PDict d) = true ->
                run = ([EvExtractParams; EvViewFunc; EvLogException e],
                       Ok (mkResponse 500 (PDict d))))
  /\ (forallb (passes_over e) (_errorhandler_functions reg) = true ->
      is_ValidationError e = true ->
      forall body, create_json_from_validation_error F e = Ok body ->
                   json_ok body = true ->
                   run = ([EvExtractParams; EvViewFunc; EvLogException e],
                          Ok (mkResponse 400 body))).
Proof.
  intros Hl Hm Hex Hbody Hexc run.
  assert (Hrun : run
                 = (([EvExtractParams; EvViewFunc]
                     ++ fst (except_block F reg request e))%list,
                    snd (except_block F reg request e))).
  { subst run. apply _wrapped_view_caught; try assumption.
    eapply try_block_body_raises; eassumption. }
  rewrite Hrun. clear Hrun. repeat split.
  - intros pre f post d Hreg Hpre Hp Hcall Hd Hj.
    unfold except_block, handle_error.
    rewrite bind_emit, Hreg.
    rewrite (handle_error_loop_first_match F request e pre f post d)
      by assumption.
    reflexivity.
  - intros Hall Hnv d Hd Hj. rewrite except_block_no_match by assumption.
    rewrite Hnv, Hd, JsonResponse_dict by (assumption || lia).
    reflexivity.
  - intros Hall Hv body Hb Hj. rewrite except_block_no_match by assumption.
    rewrite Hv, Hb, bind_lift_Ok. unfold JsonResponse. rewrite Hj.
    reflexivity.
Qed.

Lemma handler_exception_dispatch_witness :
  _wrapped_view std (registry_of [handler_not_found])
    (djapify default_options find_user) get_anonymous []
    [("user_id", PInt 7)]
  = ([EvExtractParams; EvViewFunc;
      EvLogException (Exc NotFoundError (PDict [("user_id", PInt 7)]));
      EvErrorHandler "handler_not_found"],
     Ok (mkResponse 400 (PDict [("message", PStr "no such user")])))
  /\ _wrapped_view std no_handlers
       (djapify default_options find_user) get_anonymous []
       [("user_id", PInt 7)]
     = ([EvExtractParams; EvViewFunc;
         EvLogException (Exc NotFoundError (PDict [("user_id", PInt 7)]))],
        Ok (mkResponse 500 server_error_message))
  /\ _wrapped_view std no_handlers
       (djapify default_options picky) get_anonymous [] []
     = ([EvExtractParams; EvViewFunc;
         EvLogException
           (Exc ValidationError
              (PList [PDict [("loc", PStr "age");
                             ("msg", PStr "too young")]]))],
        Ok (mkResponse 400
              (PList [PDict [("loc", PStr "age");
                             ("msg", PStr "too young")]]))).
Proof.
  split; [|split].
  - refine (proj1 (handler_exception_dispatch std
                     (registry_of [handler_not_found])
                     (djapify default_options find_user) get_anonymous []
                     [("user_id", PInt 7)] [("user_id", PInt 7)]
                     (Exc NotFoundError (PDict [("user_id", PInt 7)]))
                     eq_refl eq_refl eq_refl eq_refl eq_refl)
              [] handler_not_found []
              [("message", PStr "no such user")]
              eq_refl eq_refl eq_refl eq_refl _ eq_refl).
    discriminate.
  - exact (proj1 (proj2 (handler_exception_dispatch std no_handlers
                           (djapify default_options find_user)
                           get_anonymous []
                           [("user_id", PInt 7)] [("user_id", PInt 7)]
                           (Exc NotFoundError
                              (PDict [("user_id", PInt 7)]))
                           eq_refl eq_refl eq_refl eq_refl eq_refl))
             eq_refl eq_refl
             [("message", PStr "server error"); ("errorDetail", PNone);
              ("alias", PStr "server_error")]
             eq_refl eq_refl).
  - exact (proj2 (proj2 (handler_exception_dispatch std no_handlers
                           (djapify default_options picky)
                           get_anonymous [] [] []
                           (Exc ValidationError
                              (PList [PDict [("loc", PStr "age");
                                             ("msg", PStr "too young")]]))
                           eq_refl eq_refl eq_refl eq_refl eq_refl))
             eq_refl eq_refl
             (PList [PDict [("loc", PStr "age");
                            ("msg", PStr "too young")]])
             eq_refl eq_refl).
Defined.

(** C9, as the claim has it, fails: the [except] clause calls the
    registered function outside any [try]; when that function raises, the
    exception leaves the wrapper. *)
Lemma failing_error_handler_escapes :
  outcome (_wrapped_view std (registry_of [handler_broken])
             (djapify default_options find_user) get_anonymous []
             [("user_id", PInt 7)])
  = Raise (Exc RuntimeError (PStr "handler failed"))
  /\ ~ (exists r,
          outcome (_wrapped_view std (registry_of [handler_broken])
                     (djapify default_options find_user) get_anonymous []
                     [("user_id", PInt 7)]) = Ok r).
Proof.
  split; [reflexivity|]. intros [r H]. vm_compute in H. discriminate H.
Qed.

(** C9, amended. The wrapper of [djapy.v2] returns a response (the one the
    [try] produced, or one with status 400, 401, 405 or 500) whenever
    - what parameter extraction, the handler body or response resolution
      raise on the request derives from [Exception],
    - every entry of the registry is a function with a parameter
      [exception] that returns without raising,
    - a pydantic [ValidationError] raised there has a JSON-serialisable
      rendering, and
    - the generic body and the configured (or default) messages of the two
      gates are JSON-serialisable mappings. *)
Theorem wrapper_returns_a_response
  F reg w request args view_kwargs :
  (exists d, DEFAULT_MESSAGE_ERROR F = PDict d /\ json_ok (PDict d) = true) ->
  (exists d, getattr (vf_dict (view_func w)) "djapy_message_response"
               (DEFAULT_AUTH_REQUIRED_MESSAGE F) = PDict d
             /\ json_ok (PDict d) = true) ->
  (exists d, getattr (vf_dict (view_func w)) "djapy_message_response"
               (DEFAULT_METHOD_NOT_ALLOWED_MESSAGE F) = PDict d
             /\ json_ok (PDict d) = true) ->
  Forall handler_returns (_errorhandler_functions reg) ->
  (forall e, outcome (try_block F w request args view_kwargs) = Raise e ->
             is_ValidationError e = true ->
             exists body, create_json_from_validation_error F e = Ok body
                          /\ json_ok body = true) ->
  (forall e, outcome (try_block F w request args view_kwargs) = Raise e ->
             is_Exception e = true) ->
  exists r,
    outcome (_wrapped_view F reg w request args view_kwargs) = Ok r
    /\ (outcome (try_block F w request args view_kwargs) = Ok r
        \/ In (status_code r) [400; 401; 405; 500]).
Proof.
  intros Hdflt [da [Hda Hja]] [dm [Hdm Hjm]] Hreg Hrender Hexc.
  destruct (login_refused w request) eqn:Hl.
  { unfold login_refused in Hl. unfold _wrapped_view. rewrite Hl, Hda.
    rewrite JsonResponse_dict by (assumption || lia).
    eexists. split; [reflexivity|]. right. simpl. tauto. }
  destruct (method_refused w request) eqn:Hm.
  { unfold login_refused in Hl. unfold method_refused in Hm.
    unfold _wrapped_view. rewrite Hl.
    apply orb_prop in Hm as [Hm|Hm].
    - rewrite Hm, Hdm, JsonResponse_dict by (assumption || lia).
      eexists. split; [reflexivity|]. right. simpl. tauto.
    - destruct (isinstance_list
                  (getattr (wv_dict w) "djapy_allowed_method" PNone)
                && method_not_in request
                     (getattr (wv_dict w) "djapy_allowed_method" PNone));
        rewrite ?Hm, Hdm, JsonResponse_dict by (assumption || lia);
        (eexists; split; [reflexivity|]; right; simpl; tauto). }
  rewrite _wrapped_view_enters_try by assumption.
  rewrite outcome_try_except.
  destruct (outcome (try_block F w request args view_kwargs))
    as [r|e] eqn:Htry.
  - exists r. split; [reflexivity|now left].
  - rewrite (Hexc e eq_refl).
    destruct (except_block_returns F reg request e Hreg Hdflt
                (Hrender e eq_refl))
      as [r Hr].
    exists r. split; [exact Hr|]. right.
    destruct (except_block_status F reg request e r Hr) as [->| ->];
      simpl; tauto.
Qed.

Lemma wrapper_returns_a_response_witness :
  exists r,
    outcome (_wrapped_view std (registry_of [handler_not_found])
               (djapify default_options picky) get_anonymous [] []) = Ok r
    /\ (outcome (try_block std (djapify default_options picky)
                   get_anonymous [] []) = Ok r
        \/ In (status_code r) [400; 401; 405; 500]).
Proof.
  apply (wrapper_returns_a_response std (registry_of [handler_not_found])
           (djapify default_options picky) get_anonymous [] []).
  - eexists. split; reflexivity.
  - eexists. split; reflexivity.
  - eexists. split; reflexivity.
  - constructor; [|constructor]. exists handler_not_found.
    split; [reflexivity|]. split; [discriminate|].
    intros. eexists. reflexivity.
  - intros e He _. vm_compute in He. inversion He; subst e.
    eexists. split; reflexivity.
  - intros e He. vm_compute in He. inversion He; subst e. reflexivity.
Defined.

End ContractFacts.


(* ===================================================================== *)
(** ** Start-up and annotations: where the two decorators differ *)
(* ===================================================================== *)

Module StartupFacts.
Import Py.
Import Dec ClassFacts DictFacts GateFacts ErrorFacts Sample.

(** When the warning of line 42 is logged: when [dir] of the module lists
    more than [MAX_HANDLER_COUNT] names, whatever they name. *)
Lemma warning_counts_dir m r :
  load_errorhandlers (Ok m) = Ok r ->
  (logged_warnings r = [handler_count_warning]
   <-> (Z.of_nat (List.length (dir m)) > MAX_HANDLER_COUNT)%Z)
  /\ _errorhandler_functions r
     = map snd (filter (fun kv => String.prefix "handler_" (fst kv)) m).
Proof.
  unfold load_errorhandlers. intros [= <-]. cbn [logged_warnings
    _errorhandler_functions]. split; [|reflexivity].
  destruct (Z.gtb_spec (Z.of_nat (List.length (dir m))) MAX_HANDLER_COUNT).
  - split; [lia|reflexivity].
  - split; [discriminate|lia].
Qed.

(** C6. An errorhandler module that defines exactly one function,
    [handler_not_found], registers one entry, which does not exceed
    [MAX_HANDLER_COUNT = 1]; yet loading it logs the warning, because line
    40 counts every name [dir] lists, the module's own [__name__],
    [__doc__], ... included.  Loading does return the registry. *)
Theorem one_handler_module_is_warned_about :
  exists r,
    load_errorhandlers (Ok one_handler_module) = Ok r
    /\ _errorhandler_functions r = [AttrFunction handler_not_found]
    /\ Z.of_nat (List.length (_errorhandler_functions r)) <= MAX_HANDLER_COUNT
    /\ logged_warnings r = [handler_count_warning]
    /\ Z.of_nat (List.length (dir one_handler_module)) = 9.
Proof.
  eexists. split; [reflexivity|]. repeat split. discriminate.
Qed.

(** C5. With the errorhandler module absent, [djapy.v2.dec] loads with an
    empty registry, in which every lookup yields [None], and logs nothing;
    but [djapy.data.dec2.djapify] raises on its line 50,
    [print(getattr(_imported_errorhandler, 'handler'))], before it has
    built the decorator, whatever the schema and the options. *)
Theorem absent_module_v2_loads_dec2_raises :
  load_errorhandlers module_absent = Ok (mkRegistry [] None [])
  /\ (forall F request exception,
         handle_error F (mkRegistry [] None []) request exception
         = ([], Ok None))
  /\ (forall schema o,
         Dec2.djapify module_absent schema o
         = Raise (Exc AttributeError
                    (PStr "'NoneType' object has no attribute 'handler'"))).
Proof. repeat split. Qed.

(** A bare class as [x_schema] has no usable [get]: the lookup of line 107
    raises for the status 200. *)
Lemma x_schema_get_bare t :
  exists e, x_schema_get (Some (AnnType t)) (PInt 200) = Raise e.
Proof. destruct t as [n|[]]; eexists; reflexivity. Qed.

(** C7. [def hello_bare(request) -> str: return "ok"], wrapped by
    [djapy.v2], answers a GET with the generic 500: line 129 keeps the bare
    annotation as it is and line 107 calls [.get] on it. The same handler
    annotated [{200: str}] answers 200 with ["ok"], and
    [djapy.data.dec2.djapify] does turn a bare schema into [{200: schema}]
    (lines 43-44). *)
Theorem bare_annotation_is_not_wrapped_as_200 :
  _wrapped_view std no_handlers (djapify default_options hello_bare)
    get_anonymous [] []
  = ([EvExtractParams; EvViewFunc;
      EvLogException
        (Exc AttributeError
           (PStr "type object 'str' has no attribute 'get'"))],
     Ok (mkResponse 500 server_error_message))
  /\ _wrapped_view std no_handlers (djapify default_options hello)
       get_anonymous [] []
     = ([EvExtractParams; EvViewFunc], Ok (mkResponse 200 (PStr "ok")))
  /\ x_schema (djapify default_options hello_bare)
     = Some (AnnType (TBuiltin B_str))
  /\ Dec2.normalize_schema (AnnType (TBuiltin B_str))
     = [(200, TBuiltin B_str)].
Proof. repeat split. Qed.

(** The older decorator attaches the configuration as it is: there a
    single method stays a string and the comparison of its line 65 is the
    one that decides. *)
Example dec2_attaches_the_string_as_it_is :
  getattr (Dec2.wv_dict (Dec2.decorator [(200, TBuiltin B_str)]
                           Dec2.default_options hello))
    "djapy_allowed_method" PNone
  = PStr "GET".
Proof. reflexivity. Qed.

Example required_params_of_find_user :
  map param_name (get_required_params find_user) = ["user_id"].
Proof. reflexivity. Qed.

Example missing_parameter_is_400 :
  _wrapped_view std no_handlers (djapify default_options find_user)
    get_anonymous [] []
  = ([EvExtractParams;
      EvLogException
        (Exc ValidationError
           (PList [PDict [("loc", PStr "user_id");
                          ("msg", PStr "Field required")]]))],
     Ok (mkResponse 400
           (PList [PDict [("loc", PStr "user_id");
                          ("msg", PStr "Field required")]]))).
Proof. reflexivity. Qed.

End StartupFacts.


(* ===================================================================== *)
(** ** The document generator of djapy/v2/openapi.py *)
(* ===================================================================== *)

Module OpenApiFacts.
Import Py.
Import Dec DictFacts OpenApi Sample.

Example path_name_of_int_capture :
  make_path_name_from_url "users/<int:user_id>/posts/<int:n>"
  = "users/{user_id}/posts/{n}".
Proof. reflexivity. Qed.

(** Induction on a routing tree, with the hypothesis for every entry of an
    [include]. *)
Lemma url_entry_forall_ind (P : url_entry -> Prop) :
  (forall pattern cb, P (URLPattern pattern cb)) ->
  (forall pattern l, Forall P l -> P (URLResolver pattern l)) ->
  forall u, P u.
Proof.
  intros Hleaf Hnode.
  fix self 1. intros [pattern cb|pattern l].
  - apply Hleaf.
  - apply Hnode. induction l as [|u l IH]; constructor.
    + apply self.
    + exact IH.
Qed.

(** *** Writes *)

Lemma apply_no_writes st : apply_writes no_writes st = st.
Proof. now destruct st. Qed.

Lemma apply_writes_then a b st :
  apply_writes (writes_then a b) st = apply_writes b (apply_writes a st).
Proof.
  unfold apply_writes, writes_then. simpl.
  now rewrite !dict_update_app.
Qed.

(** Replaying the writes of a walk on its own result changes nothing. *)
Lemma apply_writes_idempotent ws st :
  apply_writes ws (apply_writes ws st) = apply_writes ws st.
Proof.
  unfold apply_writes. simpl. now rewrite !dict_update_idempotent.
Qed.

(** *** A walk is a list of writes that does not depend on the class *)

Section Walk.
Variable F : foreign.

Lemma visit_callback_oblivious pattern cb :
  oblivious (visit_callback F pattern cb).
Proof.
  unfold oblivious, visit_callback.
  destruct (truthy (getattr (cb_dict cb) "djapy" (PBool false))
            && truthy (getattr (cb_dict cb) "openapi" (PBool false)));
    [|exists (Ok tt), no_writes; intros st; now rewrite apply_no_writes].
  destruct (dict_get "djapy_allowed_method" (cb_dict cb)) as [allowed|];
    [|eexists _, no_writes; intros st; now rewrite apply_no_writes].
  destruct (Path_init F pattern cb allowed) as [p|e];
    [|eexists _, no_writes; intros st; now rewrite apply_no_writes].
  assert (Hst : forall st,
             (let st0 :=
                if nonempty (export_definitions p)
                then mkState (paths st) (schemas st)
                       (dict_update (definitions st) (export_definitions p))
                else st in
              if nonempty (export_components p)
              then mkState (paths st0)
                     (dict_update (schemas st0) (export_components p))
                     (definitions st0)
              else st0)
             = apply_writes
                 (mkWrites [] (export_components p) (export_definitions p))
                 st).
  { intros [ps ss ds]. unfold apply_writes. simpl.
    destruct (export_definitions p), (export_components p); reflexivity. }
  destruct (truthy (getattr (cb_dict cb) "openapi" (PBool false))).
  - destruct (Path_dict p) as [d|e].
    + exists (Ok tt),
        (writes_then
           (mkWrites [] (export_components p) (export_definitions p))
           (mkWrites [(path p, PDict d)] [] [])).
      intros st. cbv zeta in Hst. rewrite Hst, apply_writes_then.
      reflexivity.
    + eexists _, _. intros st. cbv zeta in Hst. rewrite Hst. reflexivity.
  - eexists _, _. intros st. cbv zeta in Hst. rewrite Hst. reflexivity.
Qed.

Lemma visit_resolver pattern l st :
  visit_entry F (URLResolver pattern l) st = generate_paths F l st.
Proof. reflexivity. Qed.

Lemma generate_paths_oblivious_from l :
  Forall (fun u => oblivious (visit_entry F u)) l ->
  oblivious (generate_paths F l).
Proof.
  induction 1 as [|u l [r1 [w1 Hu]] _ [r2 [w2 Hl]]].
  - exists (Ok tt), no_writes. intros st. simpl.
    now rewrite apply_no_writes.
  - destruct r1 as [[]|e].
    + exists r2, (writes_then w1 w2). intros st. simpl.
      now rewrite Hu, Hl, apply_writes_then.
    + exists (Raise e), w1. intros st. simpl. now rewrite Hu.
Qed.

Lemma visit_entry_oblivious u : oblivious (visit_entry F u).
Proof.
  induction u as [pattern cb|pattern l IH] using url_entry_forall_ind.
  - apply visit_callback_oblivious.
  - destruct (generate_paths_oblivious_from l IH) as [r [ws H]].
    exists r, ws. intros st. now rewrite visit_resolver.
Qed.

Lemma generate_paths_oblivious l : oblivious (generate_paths F l).
Proof.
  apply generate_paths_oblivious_from, Forall_forall.
  intros u _. apply visit_entry_oblivious.
Qed.

End Walk.

(** C8. If generating the document against a routing tree returns [doc],
    starting from whatever the class dictionaries hold, then generating it
    again against the same tree, starting from what the first walk left,
    returns the same [doc] (the same paths with the same operations in the
    same order, the same component table) and leaves the class
    dictionaries as they were. *)
Theorem generating_twice_gives_the_same_document
  F resolved_url st doc st1 :
  OpenAPI_dict F resolved_url st = (Ok doc, st1) ->
  OpenAPI_dict F resolved_url st1 = (Ok doc, st1).
Proof.
  unfold OpenAPI_dict.
  destruct (generate_paths_oblivious F resolved_url) as [r [ws Hwalk]].
  rewrite !Hwalk. destruct r as [[]|e]; [|discriminate].
  intros [= <- <-]. now rewrite !apply_writes_idempotent.
Qed.

Lemma generating_twice_gives_the_same_document_witness :
  exists doc st1,
    OpenAPI_dict pydantic urlpatterns initial_state = (Ok doc, st1)
    /\ OpenAPI_dict pydantic urlpatterns st1 = (Ok doc, st1)
    /\ keys (paths (snd (OpenAPI_dict pydantic urlpatterns initial_state)))
       = ["hello/"; "users/{user_id}/"]
    /\ keys (schemas (snd (OpenAPI_dict pydantic urlpatterns initial_state)))
       = ["UserSchema"].
Proof.
  destruct (OpenAPI_dict pydantic urlpatterns initial_state)
    as [[doc|e] st1] eqn:E.
  - exists doc, st1. split; [reflexivity|]. split.
    + apply (generating_twice_gives_the_same_document pydantic urlpatterns
               initial_state doc st1 E).
    + vm_compute in E. inversion E. split; reflexivity.
  - exfalso. vm_compute in E. discriminate E.
Defined.

End OpenApiFacts.


(* ===================================================================== *)
(** ** More on djapy/v2/dec.py: signatures and the registry *)
(* ===================================================================== *)

Module RegistryCoverage.
Import Py PyNotations.
Import Dec ClassFacts DictFacts GateFacts ErrorFacts ContractFacts Sample Coverage.

Lemma filter_later_indices {A} (f : A -> bool) (ps : list A) : forall k,
  map snd
    (filter (fun ip : nat * A => f (snd ip) && negb (Nat.eqb (fst ip) 0))
       (combine (seq (S k) (List.length ps)) ps))
  = filter f ps.
Proof.
  induction ps as [|p ps IH]; intros k; [reflexivity|].
  cbn [List.length seq combine filter fst snd Nat.eqb negb].
  rewrite andb_true_r.
  destruct (f p); cbn [map snd]; now rewrite IH.
Qed.

(** [get_required_params] gives the positional-or-keyword parameters that
    come after the first one, in the order of the signature: the first
    parameter is left out whatever it is, and [*args], [**kwargs],
    keyword-only and positional-only parameters are never required. *)
Theorem required_params_follow_the_first vf :
  get_required_params vf
  = filter (fun p => is_POSITIONAL_OR_KEYWORD (kind p))
      (tl (vf_parameters vf)).
Proof.
  unfold get_required_params, enumerate.
  destruct (vf_parameters vf) as [|p ps]; [reflexivity|].
  cbn [List.length seq combine filter fst snd Nat.eqb negb tl].
  rewrite andb_false_r.
  apply (filter_later_indices (fun p => is_POSITIONAL_OR_KEYWORD (kind p))).
Qed.

(** What lines 45-47 register: exactly the attributes of the module whose
    name starts with [handler_], functions or not. *)
Theorem registered_entries_are_the_prefixed_attributes m :
  exists r,
    load_errorhandlers (Ok m) = Ok r
    /\ forall a,
         In a (_errorhandler_functions r)
         <-> exists name, In (name, a) m
                          /\ String.prefix "handler_" name = true.
Proof.
  eexists. split; [reflexivity|]. intros a.
  cbn [_errorhandler_functions]. rewrite in_map_iff. split.
  - intros [[name a'] [Heq Hin]]. simpl in Heq. subst a'.
    apply filter_In in Hin as [Hin Hp]. now exists name.
  - intros [name [Hin Hp]]. exists (name, a). split; [reflexivity|].
    apply filter_In. now split.
Qed.

(** A registered attribute that is not callable makes [handle_error] fail
    on [inspect.signature] (line 54) for whatever exception it is given:
    the exception the wrapper caught is replaced by a [TypeError] that
    leaves the wrapper. *)
Theorem non_callable_entry_breaks_every_error_response
  F reg w request args view_kwargs t e v rest :
  login_refused w request = false ->
  method_refused w request = false ->
  try_block F w request args view_kwargs = (t, Raise e) ->
  is_Exception e = true ->
  _errorhandler_functions reg = AttrValue v :: rest ->
  _wrapped_view F reg w request args view_kwargs
  = ((t ++ [EvLogException e])%list,
     Raise (Exc TypeError (PStr "object is not a callable object"))).
Proof.
  intros Hl Hm Htry He Hreg.
  rewrite (_wrapped_view_caught F reg w request args view_kwargs t e)
    by assumption.
  unfold except_block, handle_error. rewrite Hreg, bind_emit.
  reflexivity.
Qed.

Lemma non_callable_entry_breaks_every_error_response_witness :
  _wrapped_view std
    (mkRegistry [AttrValue (PInt 3)] (Some module_with_constant)
       [handler_count_warning])
    (djapify default_options find_user) get_anonymous []
    [("user_id", PInt 7)]
  = ([EvExtractParams; EvViewFunc;
      EvLogException (Exc NotFoundError (PDict [("user_id", PInt 7)]))],
     Raise (Exc TypeError (PStr "object is not a callable object")))
  /\ load_errorhandlers (Ok module_with_constant)
     = Ok (mkRegistry [AttrValue (PInt 3)] (Some module_with_constant)
             [handler_count_warning]).
Proof.
  split; [|reflexivity].
  apply (non_callable_entry_breaks_every_error_response std _
           (djapify default_options find_user) get_anonymous []
           [("user_id", PInt 7)] [EvExtractParams; EvViewFunc]
           (Exc NotFoundError (PDict [("user_id", PInt 7)]))
           (PInt 3) []); reflexivity.
Defined.

(** A registered function without a parameter named [exception] makes
    [handle_error] fail on line 56 ([None.annotation]): the
    [AttributeError] leaves the wrapper, whatever was caught. *)
Theorem handler_without_exception_parameter_breaks_dispatch
  F reg w request args view_kwargs t e f rest :
  login_refused w request = false ->
  method_refused w request = false ->
  try_block F w request args view_kwargs = (t, Raise e) ->
  is_Exception e = true ->
  _errorhandler_functions reg = AttrFunction f :: rest ->
  fn_exception_param f = None ->
  _wrapped_view F reg w request args view_kwargs
  = ((t ++ [EvLogException e])%list,
     Raise (Exc AttributeError
              (PStr "'NoneType' object has no attribute 'annotation'"))).
Proof.
  intros Hl Hm Htry He Hreg Hp.
  rewrite (_wrapped_view_caught F reg w request args view_kwargs t e)
    by assumption.
  unfold except_block, handle_error. rewrite Hreg, bind_emit.
  cbn [handle_error_loop inspect_signature]. rewrite bind_lift_Ok, Hp.
  reflexivity.
Qed.

Lemma handler_without_exception_parameter_breaks_dispatch_witness :
  _wrapped_view std (registry_of [handler_misnamed])
    (djapify default_options picky) get_anonymous [] []
  = ([EvExtractParams; EvViewFunc;
      EvLogException
        (Exc ValidationError
           (PList [PDict [("loc", PStr "age");
                          ("msg", PStr "too young")]]))],
     Raise (Exc AttributeError
              (PStr "'NoneType' object has no attribute 'annotation'"))).
Proof.
  apply (handler_without_exception_parameter_breaks_dispatch std
           (registry_of [handler_misnamed])
           (djapify default_options picky) get_anonymous [] []
           [EvExtractParams; EvViewFunc] _ handler_misnamed []);
    reflexivity.
Defined.

(** A registered function for the class of the exception that returns
    nothing, an empty mapping or anything but a mapping (line 58) is called
    and then disregarded: the search goes on with the entries after it. *)
Theorem handler_returning_no_mapping_is_disregarded
  F request e f rest v :
  fn_exception_param f = Some (Some (exc_class e)) ->
  fn_call f request e = Ok v ->
  truthy v && isinstance_dict v = false ->
  handle_error_loop F (AttrFunction f :: rest) request e
  = (EvErrorHandler (fn_name f)
       :: trace_of (handle_error_loop F rest request e),
     outcome (handle_error_loop F rest request e)).
Proof.
  intros Hp Hcall Hv.
  cbn [handle_error_loop inspect_signature].
  rewrite bind_lift_Ok, Hp. cbn [annotation_matches].
  rewrite class_eqb_refl, bind_emit, Hcall, bind_lift_Ok, Hv.
  reflexivity.
Qed.

Lemma handler_returning_no_mapping_is_disregarded_witness :
  handle_error_loop std
    [AttrFunction handler_silent; AttrFunction handler_not_found]
    get_anonymous (Exc NotFoundError PNone)
  = ([EvErrorHandler "handler_silent"; EvErrorHandler "handler_not_found"],
     Ok (Some (mkResponse 400 (PDict [("message", PStr "no such user")])))).
Proof.
  apply (handler_returning_no_mapping_is_disregarded std get_anonymous
           (Exc NotFoundError PNone) handler_silent
           [AttrFunction handler_not_found] PNone); reflexivity.
Defined.

Lemma JsonResponse_dict_refused d z safe :
  json_ok (PDict d) = false ->
  JsonResponse (PDict d) (PInt z) safe
  = Raise (Exc TypeError (PStr "Object is not JSON serializable")).
Proof.
  intros Hj. unfold JsonResponse. rewrite Hj.
  cbn [isinstance_dict negb]. now rewrite andb_false_r.
Qed.

(** A registered function for the class of the exception that returns a
    non-empty mapping the JSON encoder refuses (lines 59-63): the
    [TypeError] is logged and the answer is the generic 500; later entries
    are not consulted. *)
Theorem handler_mapping_that_cannot_be_serialised_is_500
  F request e f rest d dflt :
  fn_exception_param f = Some (Some (exc_class e)) ->
  fn_call f request e = Ok (PDict d) ->
  d <> [] ->
  json_ok (PDict d) = false ->
  DEFAULT_MESSAGE_ERROR F = PDict dflt ->
  json_ok (PDict dflt) = true ->
  handle_error_loop F (AttrFunction f :: rest) request e
  = ([EvErrorHandler (fn_name f);
      EvLogException
        (Exc TypeError (PStr "Object is not JSON serializable"))],
     Ok (Some (mkResponse 500 (PDict dflt)))).
Proof.
  intros Hp Hcall Hd Hj Hdflt Hjd.
  cbn [handle_error_loop inspect_signature].
  rewrite bind_lift_Ok, Hp. cbn [annotation_matches].
  rewrite class_eqb_refl, bind_emit, Hcall, bind_lift_Ok.
  destruct d as [|kv d]; [contradiction|].
  cbn [truthy isinstance_dict andb].
  rewrite (JsonResponse_dict_refused (kv :: d) 400 true Hj).
  rewrite Hdflt, JsonResponse_dict by (assumption || lia).
  reflexivity.
Qed.

Lemma handler_mapping_that_cannot_be_serialised_is_500_witness :
  handle_error_loop std
    [AttrFunction handler_leaky; AttrFunction handler_not_found]
    get_anonymous (Exc NotFoundError PNone)
  = ([EvErrorHandler "handler_leaky";
      EvLogException
        (Exc TypeError (PStr "Object is not JSON serializable"))],
     Ok (Some (mkResponse 500 server_error_message))).
Proof.
  apply (handler_mapping_that_cannot_be_serialised_is_500 std get_anonymous
           (Exc NotFoundError PNone) handler_leaky
           [AttrFunction handler_not_found]
           [("error", PObj "app.errors.NotFoundError")]
           [("message", PStr "server error"); ("errorDetail", PNone);
            ("alias", PStr "server_error")]);
    try reflexivity.
  discriminate.
Defined.

(** The events [handle_error] leaves are handler calls and logged
    exceptions. *)
Lemma handle_error_loop_events F fns request e :
  forallb error_event (trace_of (handle_error_loop F fns request e)) = true.
Proof.
  induction fns as [|a fns IH]; [reflexivity|].
  cbn [handle_error_loop].
  destruct a as [f|v]; [|reflexivity].
  cbn [inspect_signature]. rewrite bind_lift_Ok.
  destruct (fn_exception_param f) as [ann|]; [|reflexivity].
  destruct (annotation_matches e ann); [|exact IH].
  rewrite bind_emit. unfold trace_of. cbn [fst forallb error_event andb].
  destruct (fn_call f request e) as [v|e']; [|reflexivity].
  rewrite bind_lift_Ok.
  destruct (truthy v && isinstance_dict v); [|exact IH].
  destruct (JsonResponse v (PInt 400) true) as [r0|e'] eqn:E400;
    unfold try_except;
    cbn [bind lift ret emit fst snd app forallb error_event andb].
  + reflexivity.
  + destruct (is_TypeError e'); [|reflexivity].
    now destruct (JsonResponse (DEFAULT_MESSAGE_ERROR F) (PInt 500) true).
Qed.

(** Whatever is registered, a response of [handle_error] has status 400
    (a handler's mapping) or 500 (the mapping could not be serialised);
    the events it leaves are handler calls and logged exceptions. *)
Theorem handle_error_answers_400_or_500 F reg request e r :
  outcome (handle_error F reg request e) = Ok (Some r) ->
  (status_code r = 400 \/ status_code r = 500)
  /\ forallb error_event (trace_of (handle_error F reg request e)) = true.
Proof.
  intros H. split.
  - eapply handle_error_loop_status. exact H.
  - apply handle_error_loop_events.
Qed.

Lemma handle_error_answers_400_or_500_witness :
  (status_code (mkResponse 400 (PDict [("message", PStr "no such user")]))
   = 400
   \/ status_code (mkResponse 400 (PDict [("message", PStr "no such user")]))
      = 500)
  /\ forallb error_event
       (trace_of (handle_error std (registry_of [handler_not_found])
                    get_anonymous (Exc NotFoundError PNone))) = true.
Proof.
  apply (handle_error_answers_400_or_500 std
           (registry_of [handler_not_found]) get_anonymous
           (Exc NotFoundError PNone)).
  reflexivity.
Defined.

End RegistryCoverage.


(* ===================================================================== *)
(** ** More on djapy/v2/dec.py: the wrapper and the decorator *)
(* ===================================================================== *)

Module WrapperCoverage.
Import Py PyNotations.
Import Dec ClassFacts DictFacts GateFacts ErrorFacts ContractFacts Sample Coverage.
Import RegistryCoverage.

Lemma trace_bind {A B} (m : M A) (k : A -> M B) :
  trace_of (bind m k)
  = (trace_of m
     ++ match outcome m with
        | Ok a => trace_of (k a)
        | Raise _ => []
        end)%list.
Proof.
  destruct m as [t [a|e]]; unfold trace_of, outcome; simpl.
  - now destruct (k a).
  - now rewrite app_nil_r.
Qed.

Lemma trace_lift {A} (r : result A) : trace_of (lift r) = [].
Proof. reflexivity. Qed.

Lemma json_ok_call_builtin b v :
  json_ok v = true -> json_ok (call_builtin b v) = true.
Proof. destruct b, v; simpl; auto. Qed.

Lemma JsonResponse_unsafe data z :
  json_ok data = true -> 100 <= z <= 599 ->
  JsonResponse data (PInt z) false = Ok (mkResponse z data).
Proof.
  intros Hj [Hlo Hhi]. apply Z.leb_le in Hlo, Hhi.
  unfold JsonResponse. rewrite Hj. cbn [andb negb int_of_status].
  now rewrite Hlo, Hhi.
Qed.

(** The status of a response is the number its status argument stands
    for. *)
Lemma JsonResponse_status data status safe r :
  JsonResponse data status safe = Ok r ->
  int_of_status status = Some (status_code r) /\ content r = data.
Proof.
  unfold JsonResponse.
  destruct (safe && negb (isinstance_dict data)); [discriminate|].
  destruct (negb (json_ok data)); [discriminate|].
  destruct (int_of_status status) as [z|]; [|discriminate].
  destruct ((100 <=? z) && (z <=? 599)); [|discriminate].
  intros [= <-]. now split.
Qed.

(** The events of the [except] clause. *)
Lemma except_block_events F reg request e :
  forallb error_event (trace_of (except_block F reg request e)) = true.
Proof.
  unfold except_block. rewrite bind_emit. unfold trace_of at 1.
  cbn [fst forallb error_event andb]. fold (trace_of
    (error_response <- handle_error F reg request e;;
     match error_response with
     | Some r => ret r
     | None =>
         if is_ValidationError e
         then body <- lift (create_json_from_validation_error F e);;
              lift (JsonResponse body (PInt 400) false)
         else lift (JsonResponse (DEFAULT_MESSAGE_ERROR F) (PInt 500) true)
     end)).
  rewrite trace_bind, forallb_app. unfold handle_error at 1.
  rewrite handle_error_loop_events. cbn [andb].
  destruct (outcome (handle_error F reg request e)) as [[r|]|e'];
    try reflexivity.
  destruct (is_ValidationError e); [|reflexivity].
  rewrite trace_bind, trace_lift.
  now destruct (create_json_from_validation_error F e).
Qed.

Section Wrapper.
Variable F : foreign.
Variable reg : registry.
Variable w : wrapped_view.
Variables (request : HttpRequest) (args : list pyval) (view_kwargs : kwargs).

(** What a handler returns with a status of its map and a value of the
    built-in class declared for it is answered with that status and that
    value; nothing is logged. *)
Theorem declared_builtin_response_is_sent kw rv z v m b :
  login_refused w request = false ->
  method_refused w request = false ->
  x_schema w = Some (AnnDict m) ->
  extract_and_validate_request_params F request (required_params w)
    view_kwargs = Ok kw ->
  vf_body (view_func w) request args kw = Ok rv ->
  unpack_response rv = Ok (PInt z, v) ->
  lookup_status z m = Some (TBuiltin b) ->
  isinstance v b = true ->
  json_ok v = true ->
  100 <= z <= 599 ->
  _wrapped_view F reg w request args view_kwargs
  = ([EvExtractParams; EvViewFunc], Ok (mkResponse z (call_builtin b v))).
Proof.
  intros Hl Hm Hxs Hex Hbody Hun Hlook Hinst Hj Hz.
  rewrite _wrapped_view_enters_try by assumption.
  unfold try_block.
  rewrite bind_emit, Hex, bind_lift_Ok, bind_emit, Hbody, bind_lift_Ok.
  rewrite Hun, bind_lift_Ok. cbn [fst snd]. unfold resolve_response.
  rewrite Hxs. cbn [x_schema_get hashable int_of_status].
  rewrite Hlook, bind_lift_Ok, Hinst.
  rewrite JsonResponse_unsafe by (auto using json_ok_call_builtin).
  reflexivity.
Qed.

(** What a handler returns with a status of its map for which a [Schema]
    class is declared is validated against that class, and the validated
    fields are answered with that status. *)
Theorem declared_schema_response_is_validated_and_sent kw rv z v m name d :
  login_refused w request = false ->
  method_refused w request = false ->
  x_schema w = Some (AnnDict m) ->
  extract_and_validate_request_params F request (required_params w)
    view_kwargs = Ok kw ->
  vf_body (view_func w) request args kw = Ok rv ->
  unpack_response rv = Ok (PInt z, v) ->
  lookup_status z m = Some (TSchema name) ->
  model_validate F name v = Ok d ->
  json_ok (PDict d) = true ->
  100 <= z <= 599 ->
  _wrapped_view F reg w request args view_kwargs
  = ([EvExtractParams; EvViewFunc; EvModelValidate name],
     Ok (mkResponse z (PDict d))).
Proof.
  intros Hl Hm Hxs Hex Hbody Hun Hlook Hval Hj Hz.
  rewrite _wrapped_view_enters_try by assumption.
  unfold try_block.
  rewrite bind_emit, Hex, bind_lift_Ok, bind_emit, Hbody, bind_lift_Ok.
  rewrite Hun, bind_lift_Ok. cbn [fst snd]. unfold resolve_response.
  rewrite Hxs. cbn [x_schema_get hashable int_of_status].
  rewrite Hlook, bind_lift_Ok, bind_emit, Hval, bind_lift_Ok.
  rewrite JsonResponse_dict by assumption.
  reflexivity.
Qed.

(** A pydantic [ValidationError] raised anywhere in the [try] (by
    parameter extraction, by the handler, by the validation of its
    response) is logged and answered 400 with its rendering, when that
    rendering is JSON-serialisable and every entry of the registry is a
    function with a parameter [exception] annotated with another class. *)
Theorem unregistered_validation_error_anywhere_is_400 t e body :
  login_refused w request = false ->
  method_refused w request = false ->
  try_block F w request args view_kwargs = (t, Raise e) ->
  is_ValidationError e = true ->
  forallb (passes_over e) (_errorhandler_functions reg) = true ->
  create_json_from_validation_error F e = Ok body ->
  json_ok body = true ->
  _wrapped_view F reg w request args view_kwargs
  = ((t ++ [EvLogException e])%list, Ok (mkResponse 400 body)).
Proof.
  intros Hl Hm Htry Hv Hreg Hbody Hj.
  rewrite (_wrapped_view_caught F reg w request args view_kwargs t e)
    by auto using ValidationError_is_Exception.
  rewrite except_block_no_match by assumption.
  rewrite Hv, Hbody, bind_lift_Ok, JsonResponse_unsafe by (assumption || lia).
  reflexivity.
Qed.

(** When parameter extraction fails, the handler body is not called and
    no response model is validated, whatever the failure and whatever is
    registered for it. *)
Theorem failed_extraction_never_reaches_the_handler e :
  extract_and_validate_request_params F request (required_params w)
    view_kwargs = Raise e ->
  ~ In EvViewFunc (trace_of (_wrapped_view F reg w request args view_kwargs))
  /\ forall name,
       ~ In (EvModelValidate name)
           (trace_of (_wrapped_view F reg w request args view_kwargs)).
Proof.
  intros Hex.
  assert (Hev : forall ev,
             In ev (trace_of (_wrapped_view F reg w request args view_kwargs))
             -> ev = EvExtractParams \/ error_event ev = true).
  { unfold _wrapped_view.
    destruct (_ && _); [intros ev []|].
    destruct (_ && _); [intros ev []|].
    destruct (_ && _); [intros ev []|].
    unfold try_except, try_block. rewrite bind_emit, Hex, bind_lift_Raise.
    cbn [fst snd]. destruct (is_Exception e).
    - pose proof (except_block_events F reg request e) as Hall.
      destruct (except_block F reg request e) as [t' r'].
      unfold trace_of in *. cbn [fst] in *.
      intros ev [<-|Hin]; [now left|]. right.
      rewrite forallb_forall in Hall. now apply Hall.
    - intros ev [<-|[]]. now left. }
  split; [|intros name]; intros Hin; apply Hev in Hin as [H|H];
    discriminate H.
Qed.

(** An exception that does not derive from [Exception] (the interpreter
    exiting, a keyboard interrupt, a cancelled task) is not caught by line
    117: it leaves the
    wrapper as it is, and is not logged. *)
Theorem base_exception_passes_through t e :
  login_refused w request = false ->
  method_refused w request = false ->
  try_block F w request args view_kwargs = (t, Raise e) ->
  is_Exception e = false ->
  _wrapped_view F reg w request args view_kwargs = (t, Raise e).
Proof.
  intros Hl Hm Htry He.
  rewrite _wrapped_view_enters_try by assumption.
  unfold try_except. now rewrite Htry, He.
Qed.

(** The statuses the wrapper can answer with: 401 and 405 from the gates,
    400 and 500 from the [except] clause, and otherwise only a status that
    is a key of the handler's response map. *)
Theorem answered_status_is_declared r :
  outcome (_wrapped_view F reg w request args view_kwargs) = Ok r ->
  In (status_code r) [400; 401; 405; 500]
  \/ exists m t, x_schema w = Some (AnnDict m)
                 /\ lookup_status (status_code r) m = Some t.
Proof.
  unfold _wrapped_view.
  destruct (_ && _).
  { rewrite outcome_lift. intros H. apply JsonResponse_Ok in H as [<- _].
    left. simpl. tauto. }
  destruct (_ && _).
  { rewrite outcome_lift. intros H. apply JsonResponse_Ok in H as [<- _].
    left. simpl. tauto. }
  destruct (_ && _).
  { rewrite outcome_lift. intros H. apply JsonResponse_Ok in H as [<- _].
    left. simpl. tauto. }
  rewrite outcome_try_except.
  destruct (outcome (try_block F w request args view_kwargs))
    as [r'|e] eqn:Htry.
  - intros [= <-]. right. revert Htry. unfold try_block.
    rewrite outcome_bind_emit, outcome_bind, outcome_lift.
    destruct (extract_and_validate_request_params _ _ _ _) as [kw|];
      [|discriminate].
    rewrite outcome_bind_emit, outcome_bind, outcome_lift.
    destruct (vf_body _ _ _ _) as [rv|]; [|discriminate].
    rewrite outcome_bind, outcome_lift.
    destruct (unpack_response rv) as [[status v]|]; [|discriminate].
    cbn [fst snd]. unfold resolve_response.
    rewrite outcome_bind, outcome_lift.
    destruct (x_schema w) as [[m|t]|] eqn:Hxs.
    + cbn [x_schema_get]. destruct (hashable status); [|discriminate].
      destruct (int_of_status status) as [z|] eqn:Hz.
      * destruct (lookup_status z m) as [[name|b]|] eqn:Hlook;
          [| |discriminate].
        -- rewrite outcome_bind_emit, outcome_bind, outcome_lift.
           destruct (model_validate F name v); [|discriminate].
           rewrite outcome_lift. intros H.
           apply JsonResponse_status in H as [H _].
           rewrite Hz in H. injection H as <-. eauto.
        -- destruct (isinstance v b).
           ++ rewrite outcome_lift. intros H.
              apply JsonResponse_status in H as [H _].
              rewrite Hz in H. injection H as <-. eauto.
           ++ rewrite outcome_bind, outcome_lift.
              destruct (create_validation_error _ _ _ _); discriminate.
      * discriminate.
    + destruct t as [name|[]]; cbn [x_schema_get];
        try discriminate.
      destruct (isinstance_dict status); discriminate.
    + discriminate.
  - destruct (is_Exception e); [|discriminate].
    intros H. left.
    destruct (except_block_status F reg request e r H) as [-> | ->];
      simpl; tauto.
Qed.

End Wrapper.

(** [djapify(allowed_method=["GET", "POST"])] *)
Lemma get_or_post_attached :
  attached_allowed_method (PList [PStr "GET"; PStr "POST"])
  = Some (PList [PStr "GET"; PStr "POST"]).
Proof. reflexivity. Qed.

Lemma declared_builtin_response_is_sent_witness :
  _wrapped_view std no_handlers
    (djapify (mkOptions false (PList [PStr "GET"; PStr "POST"]) true PNone)
       echo)
    post_named [] [("name", PStr "Ada")]
  = ([EvExtractParams; EvViewFunc], Ok (mkResponse 201 (PStr "Ada"))).
Proof.
  apply (declared_builtin_response_is_sent std no_handlers
           (djapify (mkOptions false (PList [PStr "GET"; PStr "POST"]) true
                       PNone) echo)
           post_named [] [("name", PStr "Ada")] [("name", PStr "Ada")]
           (PTuple [PInt 201; PStr "Ada"]) 201 (PStr "Ada")
           [(200, TSchema "UserSchema"); (201, TBuiltin B_str)] B_str);
    try reflexivity.
  lia.
Defined.

Lemma declared_schema_response_is_validated_and_sent_witness :
  _wrapped_view std no_handlers (djapify default_options echo)
    get_user [] [("name", PStr "Ada")]
  = ([EvExtractParams; EvViewFunc; EvModelValidate "UserSchema"],
     Ok (mkResponse 200 (PDict [("name", PStr "Ada")]))).
Proof.
  apply (declared_schema_response_is_validated_and_sent std no_handlers
           (djapify default_options echo)
           get_user [] [("name", PStr "Ada")] [("name", PStr "Ada")]
           (PDict [("name", PStr "Ada")]) 200 (PDict [("name", PStr "Ada")])
           [(200, TSchema "UserSchema"); (201, TBuiltin B_str)]
           "UserSchema" [("name", PStr "Ada")]);
    try reflexivity.
  lia.
Defined.

Lemma unregistered_validation_error_anywhere_is_400_witness :
  _wrapped_view std (registry_of [handler_not_found])
    (djapify default_options find_user) get_anonymous [] []
  = ([EvExtractParams;
      EvLogException
        (Exc ValidationError
           (PList [PDict [("loc", PStr "user_id");
                          ("msg", PStr "Field required")]]))],
     Ok (mkResponse 400
           (PList [PDict [("loc", PStr "user_id");
                          ("msg", PStr "Field required")]]))).
Proof.
  apply (unregistered_validation_error_anywhere_is_400 std
           (registry_of [handler_not_found])
           (djapify default_options find_user) get_anonymous [] []
           [EvExtractParams]
           (Exc ValidationError
              (PList [PDict [("loc", PStr "user_id");
                             ("msg", PStr "Field required")]])));
    reflexivity.
Defined.

Lemma failed_extraction_never_reaches_the_handler_witness :
  ~ In EvViewFunc
      (trace_of (_wrapped_view std (registry_of [handler_not_found])
                   (djapify default_options find_user) get_anonymous [] []))
  /\ forall name,
       ~ In (EvModelValidate name)
           (trace_of (_wrapped_view std (registry_of [handler_not_found])
                        (djapify default_options find_user)
                        get_anonymous [] [])).
Proof.
  apply (failed_extraction_never_reaches_the_handler std
           (registry_of [handler_not_found])
           (djapify default_options find_user) get_anonymous [] []
           (Exc ValidationError
              (PList [PDict [("loc", PStr "user_id");
                             ("msg", PStr "Field required")]]))).
  reflexivity.
Defined.

Lemma base_exception_passes_through_witness :
  _wrapped_view std (registry_of [handler_not_found])
    (djapify default_options quit) get_anonymous [] []
  = ([EvExtractParams; EvViewFunc], Raise (Exc SystemExit (PInt 1))).
Proof.
  apply (base_exception_passes_through std
           (registry_of [handler_not_found])
           (djapify default_options quit) get_anonymous [] []
           [EvExtractParams; EvViewFunc] (Exc SystemExit (PInt 1)));
    reflexivity.
Defined.

(** Django's [ValidationError] is not the class line 124 tests for: with
    nothing registered for it, it is answered with the generic 500. *)
Example django_validation_error_is_500 :
  _wrapped_view std no_handlers (djapify default_options strict)
    get_anonymous [] []
  = ([EvExtractParams; EvViewFunc;
      EvLogException (Exc DjangoValidationError (PStr "too young"))],
     Ok (mkResponse 500 server_error_message)).
Proof. reflexivity. Qed.

(** A cancelled task is not caught by line 117 either. *)
Example cancelled_error_passes_through :
  _wrapped_view std (registry_of [handler_not_found])
    (djapify default_options cancelled) get_anonymous [] []
  = ([EvExtractParams; EvViewFunc], Raise (Exc CancelledError PNone)).
Proof. reflexivity. Qed.

Lemma answered_status_is_declared_witness :
  In (status_code (mkResponse 200 (PStr "ok"))) [400; 401; 405; 500]
  \/ exists m t,
       x_schema (djapify default_options hello) = Some (AnnDict m)
       /\ lookup_status (status_code (mkResponse 200 (PStr "ok"))) m
          = Some t.
Proof.
  apply (answered_status_is_declared std no_handlers
           (djapify default_options hello) get_anonymous [] []).
  reflexivity.
Defined.

(** A value that is not an instance of the built-in class declared for
    its status is not sent by the [try]: the block raises after the handler
    has run (the error [create_validation_error] built for
    ["<class>_parsing"], or what that call raised), so any response comes
    from the [except] clause and has status 400 or 500. When the error
    built is a pydantic [ValidationError] with a JSON-serialisable
    rendering and every entry of the registry is a function with a
    parameter [exception] annotated with another class, the answer is a
    400 with that rendering. *)
Theorem response_of_another_type_is_400
  F reg w request args view_kwargs kw rv z v m b :
  login_refused w request = false ->
  method_refused w request = false ->
  x_schema w = Some (AnnDict m) ->
  extract_and_validate_request_params F request (required_params w)
    view_kwargs = Ok kw ->
  vf_body (view_func w) request args kw = Ok rv ->
  unpack_response rv = Ok (PInt z, v) ->
  lookup_status z m = Some (TBuiltin b) ->
  isinstance v b = false ->
  let run := _wrapped_view F reg w request args view_kwargs in
  (exists e, try_block F w request args view_kwargs
             = ([EvExtractParams; EvViewFunc], Raise e))
  /\ (forall r, outcome run = Ok r ->
                status_code r = 400 \/ status_code r = 500)
  /\ (forall e body,
         create_validation_error F "Response" "response"
           (builtin_name b ++ "_parsing") = Ok e ->
         is_ValidationError e = true ->
         forallb (passes_over e) (_errorhandler_functions reg) = true ->
         create_json_from_validation_error F e = Ok body ->
         json_ok body = true ->
         run = ([EvExtractParams; EvViewFunc; EvLogException e],
                Ok (mkResponse 400 body))).
Proof.
  intros Hl Hm Hxs Hex Hbody Hun Hlook Hinst run.
  assert (Htry : try_block F w request args view_kwargs
                 = ([EvExtractParams; EvViewFunc],
                    match create_validation_error F "Response" "response"
                            (builtin_name b ++ "_parsing") with
                    | Ok e => Raise e
                    | Raise e => Raise e
                    end)).
  { unfold try_block.
    rewrite bind_emit, Hex, bind_lift_Ok, bind_emit, Hbody, bind_lift_Ok.
    rewrite Hun, bind_lift_Ok. cbn [fst snd]. unfold resolve_response.
    rewrite Hxs. cbn [x_schema_get hashable int_of_status].
    rewrite Hlook, bind_lift_Ok, Hinst.
    now destruct (create_validation_error F "Response" "response"
                    (builtin_name b ++ "_parsing")). }
  split; [|split].
  - rewrite Htry.
    destruct (create_validation_error F "Response" "response"
                (builtin_name b ++ "_parsing")) as [e|e]; now exists e.
  - intros r. subst run.
    rewrite _wrapped_view_enters_try by assumption.
    rewrite outcome_try_except, Htry. unfold outcome at 1. cbn [snd].
    destruct (create_validation_error F "Response" "response"
                (builtin_name b ++ "_parsing")) as [e|e];
      (destruct (is_Exception e); [apply except_block_status|discriminate]).
  - intros e body Hcreate Hv Hreg Hrender Hj. subst run.
    rewrite Hcreate in Htry.
    rewrite (_wrapped_view_caught F reg w request args view_kwargs
               [EvExtractParams; EvViewFunc] e)
      by (assumption || now apply ValidationError_is_Exception).
    rewrite except_block_no_match by assumption.
    rewrite Hv, Hrender, bind_lift_Ok, JsonResponse_unsafe
      by (assumption || lia).
    reflexivity.
Qed.

Lemma response_of_another_type_is_400_witness :
  _wrapped_view std no_handlers (djapify default_options count)
    get_anonymous [] []
  = ([EvExtractParams; EvViewFunc;
      EvLogException
        (Exc ValidationError
           (PList [PDict [("loc", PStr "response");
                          ("type", PStr "str_parsing");
                          ("title", PStr "Response")]]))],
     Ok (mkResponse 400
           (PList [PDict [("loc", PStr "response");
                          ("type", PStr "str_parsing");
                          ("title", PStr "Response")]]))).
Proof.
  exact (proj2 (proj2 (response_of_another_type_is_400 std no_handlers
                         (djapify default_options count) get_anonymous
                         [] [] [] (PInt 3) 200 (PInt 3)
                         [(200, TBuiltin B_str)] B_str
                         eq_refl eq_refl eq_refl eq_refl eq_refl eq_refl
                         eq_refl eq_refl))
           _ _ eq_refl eq_refl eq_refl eq_refl eq_refl).
Defined.

(** *** The decorator *)



(** The contract the decorator attaches can be read back: the marker
    [djapy], the two documentation options, the message of the handler (or
    an empty one), the required parameters, the return annotation and the
    handler itself, whatever the handler carried under those names. *)
Theorem attached_contract_reads_back o vf :
  let w := djapify o vf in
  dict_get "djapy" (wv_dict w) = Some (PBool true)
  /\ dict_get "openapi" (wv_dict w) = Some (PBool (openapi o))
  /\ dict_get "openapi_tags" (wv_dict w) = Some (openapi_tags o)
  /\ dict_get "djapy_message_response" (wv_dict w)
     = Some (getattr (vf_dict vf) "djapy_message_response" (PDict []))
  /\ dict_get "schema" (wv_dict w) = Some (annotation_object (vf_return vf))
  /\ dict_get "required_params" (wv_dict w)
     = Some (PList (map parameter_object (get_required_params vf)))
  /\ dict_get "__wrapped__" (wv_dict w) = Some (function_object vf)
  /\ required_params w = get_required_params vf
  /\ x_schema w = vf_return vf
  /\ view_func w = vf.
Proof.
  unfold djapify, wraps. cbn [wv_dict required_params x_schema].
  destruct (attached_allowed_method (allowed_method o));
    destruct (login_required o);
    repeat split;
    rewrite ?dict_get_set_ne by other_key; apply dict_get_set_eq.
Qed.

(** An empty [allowed_method] does not refuse every method: it switches
    the method check off. *)
Theorem empty_allowed_method_allows_every_method o vf request :
  truthy (allowed_method o) = false ->
  dict_get "djapy_allowed_method" (vf_dict vf) = None ->
  method_refused (djapify o vf) request = false.
Proof.
  intros Ho Hvf. unfold method_refused, getattr.
  rewrite djapify_allowed_attr. unfold attached_allowed_method.
  now rewrite Ho, Hvf.
Qed.

Lemma empty_allowed_method_allows_every_method_witness :
  method_refused (djapify (mkOptions false (PList []) true PNone) hello)
    (mkRequest "DELETE" false PNone) = false.
Proof.
  apply (empty_allowed_method_allows_every_method
           (mkOptions false (PList []) true PNone) hello);
    reflexivity.
Defined.

End WrapperCoverage.


(* ===================================================================== *)
(** ** More on djapy/data/dec2.py *)
(* ===================================================================== *)

Module Dec2Coverage.
Import Py PyNotations.
Import Dec ClassFacts DictFacts GateFacts ErrorFacts Sample Coverage.

(** [djapify(schema, ...)] of the older module returns its decorator
    exactly when the errorhandler module can be imported and has an
    attribute named [handler] (line 50). *)
Theorem dec2_djapify_needs_a_handler_attribute imported schema o :
  (exists dec, Dec2.djapify imported schema o = Ok dec)
  <-> (exists m a, imported = Ok m /\ dict_get "handler" m = Some a).
Proof.
  unfold Dec2.djapify, Dec2.import_errorhandler, Dec2.getattr_handler.
  split.
  - intros [dec H]. destruct imported as [m|e].
    + destruct (dict_get "handler" m) as [a|] eqn:Ha; [eauto|discriminate].
    + destruct (is_Exception e); discriminate.
  - intros [m [a [-> Ha]]]. rewrite Ha. eauto.
Qed.

Ltac run_monad :=
  cbv beta iota zeta delta
    [bind emit lift ret raise try_except fst snd app].

Section Wrapper.
Variable F : Dec2.foreign.
Variable w : Dec2.wrapped_view.
Variables (request : HttpRequest) (args : list pyval) (kw : kwargs).

Lemma dec2_enters_try :
  dec2_login_refused w request = false ->
  dec2_method_refused w request = false ->
  Dec2._wrapped_view F w request args kw
  = (x <- Dec2.extract_step F w request ;;
     match x with
     | inr r => ret (Some r)
     | inl _data_kwargs =>
         y <- Dec2.invoke_step F w request args _data_kwargs kw ;;
         match y with
         | inr r => ret (Some r)
         | inl func => Dec2.respond F w func
         end
     end).
Proof.
  unfold dec2_login_refused, dec2_method_refused, Dec2._wrapped_view.
  intros -> Hm. apply orb_false_elim in Hm as [-> ->]. reflexivity.
Qed.

(** When parameter extraction fails, the handler is not called: a
    pydantic [ValidationError] is answered 400 with [e.json()], any other
    exception leaves the wrapper (only that class is caught on line 70). *)
Theorem dec2_extraction_failure e :
  dec2_login_refused w request = false ->
  dec2_method_refused w request = false ->
  Dec2.extract_and_validate_request_params F request (Dec2.required_params w)
  = Raise e ->
  Dec2._wrapped_view F w request args kw
  = ([EvExtractParams],
     if is_ValidationError e
     then Ok (Some (mkResponse 400 (PStr (Dec2.exc_json F e))))
     else Raise e).
Proof.
  intros Hl Hm Hex. rewrite dec2_enters_try by assumption.
  unfold Dec2.extract_step. rewrite Hex.
  destruct (is_ValidationError e) eqn:Hv; run_monad; rewrite Hv;
    reflexivity.
Qed.

(** An exception of the handler (deriving from [Exception]) is logged and
    answered 500 with the two messages of [log_exception] and the alias
    [server_error]. *)
Theorem dec2_handler_exception_is_500 dk e em dm :
  dec2_login_refused w request = false ->
  dec2_method_refused w request = false ->
  Dec2.extract_and_validate_request_params F request (Dec2.required_params w)
  = Ok dk ->
  Dec2.call_view w request args dk kw = Raise e ->
  is_Exception e = true ->
  Dec2.log_exception F request e = Ok (em, dm) ->
  json_ok em = true -> json_ok dm = true ->
  Dec2._wrapped_view F w request args kw
  = ([EvExtractParams; EvViewFunc; EvLogException e],
     Ok (Some (mkResponse 500
                 (PDict [("message", dm); ("error_message", em);
                         ("alias", PStr "server_error")])))).
Proof.
  intros Hl Hm Hex Hcall He Hlog Hem Hdm.
  assert (Hj : json_ok (PDict [("message", dm); ("error_message", em);
                               ("alias", PStr "server_error")]) = true).
  { cbn [json_ok forallb snd]. now rewrite Hem, Hdm. }
  rewrite dec2_enters_try by assumption.
  unfold Dec2.extract_step, Dec2.invoke_step. rewrite Hex. run_monad.
  rewrite Hcall. run_monad. rewrite He, Hlog. run_monad.
  rewrite JsonResponse_dict by (assumption || lia).
  reflexivity.
Qed.

(** A schema map without the key 200 (line 83): the handler runs, and then
    [issubclass(None, Schema)] raises a [TypeError] that leaves the
    wrapper. *)
Theorem dec2_map_without_200_fails_after_the_handler dk func :
  dec2_login_refused w request = false ->
  dec2_method_refused w request = false ->
  Dec2.extract_and_validate_request_params F request (Dec2.required_params w)
  = Ok dk ->
  Dec2.call_view w request args dk kw = Ok func ->
  lookup_status 200 (Dec2.schema_map w) = None ->
  Dec2._wrapped_view F w request args kw
  = ([EvExtractParams; EvViewFunc],
     Raise (Exc TypeError (PStr "issubclass() arg 1 must be a class"))).
Proof.
  intros Hl Hm Hex Hcall Hlook.
  rewrite dec2_enters_try by assumption.
  unfold Dec2.extract_step, Dec2.invoke_step. rewrite Hex. run_monad.
  rewrite Hcall. run_monad. unfold Dec2.respond. rewrite Hlook.
  reflexivity.
Qed.

(** The older wrapper reads the handler's [djapy_message_response] for its
    401 but [message_response] for its 405: a handler that configured only
    the former gets the default message on a refused method. *)
Theorem dec2_405_does_not_use_the_configured_message cfg d :
  dec2_login_refused w request = false ->
  dec2_method_refused w request = true ->
  dict_get "djapy_message_response" (vf_dict (Dec2.view_func w)) = Some cfg ->
  dict_get "message_response" (vf_dict (Dec2.view_func w)) = None ->
  Dec2.DEFAULT_METHOD_NOT_ALLOWED_MESSAGE F = PDict d ->
  json_ok (PDict d) = true ->
  Dec2._wrapped_view F w request args kw
  = ([], Ok (Some (mkResponse 405 (PDict d)))).
Proof.
  unfold dec2_login_refused, dec2_method_refused, Dec2._wrapped_view.
  intros -> Hm _ Hnone Hd Hj.
  assert (Hmsg : getattr (vf_dict (Dec2.view_func w)) "message_response"
                   (Dec2.DEFAULT_METHOD_NOT_ALLOWED_MESSAGE F) = PDict d).
  { unfold getattr. rewrite Hnone. exact Hd. }
  rewrite Hmsg, JsonResponse_dict by (assumption || lia).
  apply orb_prop in Hm as [Hm|Hm]; rewrite Hm; [reflexivity|].
  now destruct (isinstance_list _ && _).
Qed.

(** The statuses the older wrapper can answer with: the handler has no say,
    a success is always 200. *)
Theorem dec2_answers_a_fixed_set_of_statuses r :
  outcome (Dec2._wrapped_view F w request args kw) = Ok (Some r) ->
  In (status_code r) [200; 400; 401; 405; 500].
Proof.
  unfold Dec2._wrapped_view.
  destruct (_ && _).
  { rewrite outcome_bind, outcome_lift.
    destruct (JsonResponse _ _ _) eqn:E; [|discriminate].
    intros [= <-]. apply JsonResponse_Ok in E as [-> _]. simpl. tauto. }
  destruct (_ && _).
  { rewrite outcome_bind, outcome_lift.
    destruct (JsonResponse _ _ _) eqn:E; [|discriminate].
    intros [= <-]. apply JsonResponse_Ok in E as [-> _]. simpl. tauto. }
  destruct (_ && _).
  { rewrite outcome_bind, outcome_lift.
    destruct (JsonResponse _ _ _) eqn:E; [|discriminate].
    intros [= <-]. apply JsonResponse_Ok in E as [-> _]. simpl. tauto. }
  rewrite outcome_bind. unfold Dec2.extract_step.
  rewrite outcome_try_except, outcome_bind_emit, outcome_bind, outcome_lift.
  destruct (Dec2.extract_and_validate_request_params _ _ _) as [dk|e].
  - cbn [outcome snd ret]. rewrite outcome_bind. unfold Dec2.invoke_step.
    rewrite outcome_try_except, outcome_bind_emit, outcome_bind,
      outcome_lift.
    destruct (Dec2.call_view _ _ _ _ _) as [func|e].
    + cbn [outcome snd ret]. unfold Dec2.respond.
      destruct (lookup_status 200 (Dec2.schema_map w)) as [[name|b]|];
        [| |discriminate].
      * rewrite outcome_try_except, outcome_bind_emit, outcome_bind,
          outcome_lift.
        destruct (Dec2.model_validate F name func) as [d|e].
        -- rewrite outcome_bind, outcome_lift.
           destruct (JsonResponse _ _ _) eqn:E.
           ++ cbn [outcome snd ret]. intros [= <-].
              apply JsonResponse_Ok in E as [-> _]. simpl. tauto.
           ++ destruct (is_ValidationError e); [|discriminate].
              cbn [outcome snd ret]. intros [= <-]. simpl. tauto.
        -- destruct (is_ValidationError e); [|discriminate].
           cbn [outcome snd ret]. intros [= <-]. simpl. tauto.
      * rewrite outcome_bind, outcome_lift.
        destruct (Dec2.call_type F b func); [|discriminate].
        rewrite outcome_bind, outcome_lift.
        destruct (JsonResponse _ _ _) eqn:E; [|discriminate].
        cbn [outcome snd ret]. intros [= <-].
        apply JsonResponse_Ok in E as [-> _]. simpl. tauto.
    + destruct (is_Exception e); [|discriminate].
      rewrite outcome_bind_emit, outcome_bind, outcome_lift.
      destruct (Dec2.log_exception F request e) as [[em dm]|];
        [|discriminate].
      rewrite outcome_bind, outcome_lift.
      destruct (JsonResponse _ _ _) eqn:E; [|discriminate].
      cbn [outcome snd ret]. intros [= <-].
      apply JsonResponse_Ok in E as [-> _]. simpl. tauto.
  - destruct (is_ValidationError e); [|discriminate].
    cbn [outcome snd ret]. intros [= <-]. simpl. tauto.
Qed.

End Wrapper.

Lemma dec2_extraction_failure_witness :
  Dec2._wrapped_view std2
    (Dec2.decorator [(200, TSchema "UserSchema")] Dec2.default_options
       find_user)
    get_anonymous [] []
  = ([EvExtractParams], Ok (Some (mkResponse 400 (PStr "[]")))).
Proof.
  apply (dec2_extraction_failure std2
           (Dec2.decorator [(200, TSchema "UserSchema")]
              Dec2.default_options find_user)
           get_anonymous [] []
           (Exc ValidationError
              (PList [PDict [("loc", PStr "user_id");
                             ("msg", PStr "Field required")]])));
    reflexivity.
Defined.

Lemma dec2_handler_exception_is_500_witness :
  Dec2._wrapped_view std2
    (Dec2.decorator [(200, TBuiltin B_str)] Dec2.default_options picky)
    get_anonymous [] []
  = ([EvExtractParams; EvViewFunc;
      EvLogException
        (Exc ValidationError
           (PList [PDict [("loc", PStr "age");
                          ("msg", PStr "too young")]]))],
     Ok (Some (mkResponse 500
                 (PDict [("message", PStr "Something went wrong");
                         ("error_message",
                          PStr "pydantic_core._pydantic_core.ValidationError");
                         ("alias", PStr "server_error")])))).
Proof.
  apply (dec2_handler_exception_is_500 std2
           (Dec2.decorator [(200, TBuiltin B_str)] Dec2.default_options
              picky)
           get_anonymous [] [] []
           (Exc ValidationError
              (PList [PDict [("loc", PStr "age");
                             ("msg", PStr "too young")]]))
           (PStr "pydantic_core._pydantic_core.ValidationError")
           (PStr "Something went wrong"));
    reflexivity.
Defined.

Lemma dec2_map_without_200_fails_after_the_handler_witness :
  Dec2._wrapped_view std2
    (Dec2.decorator [(201, TBuiltin B_str)] Dec2.default_options hello)
    get_anonymous [] []
  = ([EvExtractParams; EvViewFunc],
     Raise (Exc TypeError (PStr "issubclass() arg 1 must be a class"))).
Proof.
  apply (dec2_map_without_200_fails_after_the_handler std2
           (Dec2.decorator [(201, TBuiltin B_str)] Dec2.default_options
              hello)
           get_anonymous [] [] [] (PStr "ok"));
    reflexivity.
Defined.

Lemma dec2_405_does_not_use_the_configured_message_witness :
  Dec2._wrapped_view std2
    (Dec2.decorator [(200, TSchema "UserSchema")] Dec2.default_options echo)
    post_named [] []
  = ([], Ok (Some (mkResponse 405 method_not_allowed_message)))
  /\ dict_get "djapy_message_response" (vf_dict echo)
     = Some (PDict [("message", PStr "not for you")]).
Proof.
  split; [|reflexivity].
  apply (dec2_405_does_not_use_the_configured_message std2
           (Dec2.decorator [(200, TSchema "UserSchema")]
              Dec2.default_options echo)
           post_named [] []
           (PDict [("message", PStr "not for you")])
           [("message", PStr "method not allowed");
            ("alias", PStr "method_not_allowed")]);
    reflexivity.
Defined.

Lemma dec2_answers_a_fixed_set_of_statuses_witness :
  In (status_code (mkResponse 200 (PStr "ok"))) [200; 400; 401; 405; 500].
Proof.
  apply (dec2_answers_a_fixed_set_of_statuses std2
           (Dec2.decorator [(200, TBuiltin B_str)] Dec2.default_options
              hello)
           get_anonymous [] []).
  reflexivity.
Defined.

End Dec2Coverage.


(* ===================================================================== *)
(** ** More on djapy/v2/openapi.py *)
(* ===================================================================== *)

Module GeneratorCoverage.
Import Py.
Import Dec DictFacts OpenApi OpenApiFacts Sample Coverage.

(** *** Path names *)

Lemma no_int_capture_cons c s :
  no_int_capture (String c s)
  = match strip_prefix "<int:" (String c s) with
    | Some _ => false
    | None => no_int_capture s
    end.
Proof. reflexivity. Qed.

(** A pattern in which no [<int:] occurs is its own path name: captures
    of other converters ([<str:slug>], [<slug>], [<uuid:id>]) are left as
    Django writes them. *)
Theorem pattern_without_int_capture_is_unchanged s :
  no_int_capture s = true -> make_path_name_from_url s = s.
Proof.
  unfold make_path_name_from_url.
  induction s as [|c s IH]; intros H; [reflexivity|].
  rewrite no_int_capture_cons in H.
  cbn [sub_int_captures]. unfold match_int_capture.
  destruct (strip_prefix "<int:" (String c s)); [discriminate|].
  now rewrite IH.
Qed.

Lemma pattern_without_int_capture_is_unchanged_witness :
  make_path_name_from_url "posts/<slug:title>/<uuid:id>/"
  = "posts/<slug:title>/<uuid:id>/".
Proof.
  apply (pattern_without_int_capture_is_unchanged
           "posts/<slug:title>/<uuid:id>/").
  reflexivity.
Defined.

Lemma find_close_plain n rest :
  plain_name n = true -> find_close (n ++ String ">" rest) = Some (n, rest).
Proof.
  induction n as [|c n IH]; intros H.
  - reflexivity.
  - cbn [plain_name] in H. apply andb_prop in H as [Hc Hn].
    apply andb_prop in Hc as [Hgt Hnl].
    apply negb_true_iff in Hgt, Hnl.
    cbn [append find_close]. now rewrite Hgt, Hnl, IH.
Qed.

Lemma sub_skip p rest :
  sub_int_captures (String.length p) (p ++ rest) = sub_int_captures 0 rest.
Proof.
  induction p as [|c p IH]; [reflexivity|].
  cbn [String.length append sub_int_captures]. exact IH.
Qed.

Lemma length_app (a b : string) :
  String.length (a ++ b) = (String.length a + String.length b)%nat.
Proof. induction a as [|c a IH]; simpl; [reflexivity|now rewrite IH]. Qed.

Lemma append_close (n rest : string) :
  (n ++ ">") ++ rest = n ++ String ">" rest.
Proof. induction n as [|a n IH]; cbn [append]; [reflexivity|now f_equal]. Qed.

Lemma capture_at_head c n rest :
  plain_name (String c n) = true ->
  sub_int_captures 0 ("<int:" ++ String c n ++ String ">" rest)
  = "{" ++ String c n ++ "}" ++ sub_int_captures 0 rest.
Proof.
  intros H. pose proof H as H'.
  cbn [plain_name] in H'. apply andb_prop in H' as [Hc Hn].
  apply andb_prop in Hc as [_ Hnl]. apply negb_true_iff in Hnl.
  assert (Hm : match_int_capture
                 ("<int:" ++ String c n ++ String ">" rest)
               = Some (String c n, rest)).
  { unfold match_int_capture.
    change (strip_prefix "<int:" ("<int:" ++ String c n ++ String ">" rest))
      with (Some (String c (n ++ String ">" rest))).
    cbv beta iota. now rewrite Hnl, find_close_plain. }
  change ("<int:" ++ String c n ++ String ">" rest)
    with (String "<" ("int:" ++ String c n ++ String ">" rest)) at 1.
  cbn [sub_int_captures].
  change (String "<" ("int:" ++ String c n ++ String ">" rest))
    with ("<int:" ++ String c n ++ String ">" rest).
  rewrite Hm.
  replace (String.length ("<int:" ++ String c n ++ String ">" rest)
           - String.length rest - 1)%nat
    with (String.length ("int:" ++ String c n ++ ">")).
  - change ("int:" ++ String c n ++ String ">" rest)
      with ("int:" ++ String c (n ++ String ">" rest)).
    replace ("int:" ++ String c (n ++ String ">" rest))
      with (("int:" ++ String c n ++ ">") ++ rest).
    + now rewrite sub_skip.
    + cbn [append]. do 5 f_equal. apply append_close.
  - cbn [append String.length]. rewrite !length_app.
    cbn [String.length]. lia.
Qed.

(** No match of [<int:] begins in a text that has none and runs on into a
    following [<]. *)
Lemma strip_prefix_straddle p s :
  p <> "" ->
  strip_prefix "<int:" p = None ->
  strip_prefix "<int:" (p ++ String "<" s) = None.
Proof.
  destruct p as [|c1 [|c2 [|c3 [|c4 [|c5 p]]]]]; intros Hne H;
    [contradiction| | | | |];
    cbn [append strip_prefix] in *;
    repeat match goal with
           | |- context [Ascii.eqb ?a ?c] =>
               is_var c; destruct (Ascii.eqb a c)
           end;
    (reflexivity || discriminate H).
Qed.

Lemma sub_prefix pre s :
  no_int_capture pre = true ->
  sub_int_captures 0 (pre ++ String "<" s)
  = pre ++ sub_int_captures 0 (String "<" s).
Proof.
  induction pre as [|c pre IH]; intros H; [reflexivity|].
  rewrite no_int_capture_cons in H.
  destruct (strip_prefix "<int:" (String c pre)) eqn:E; [discriminate|].
  change (String c pre ++ String "<" s)
    with (String c (pre ++ String "<" s)) at 1.
  cbn [sub_int_captures]. unfold match_int_capture.
  change (String c (pre ++ String "<" s))
    with (String c pre ++ String "<" s).
  rewrite strip_prefix_straddle by (assumption || discriminate).
  cbn [append]. now rewrite IH.
Qed.

(** The first [<int:name>] of a pattern becomes [{name}]: what precedes
    it (text in which no [<int:] occurs, other converters included) is
    kept, and what follows it is rewritten in the same way. *)
Theorem int_capture_becomes_a_placeholder pre name rest :
  no_int_capture pre = true ->
  plain_name name = true ->
  name <> "" ->
  make_path_name_from_url (pre ++ "<int:" ++ name ++ ">" ++ rest)
  = pre ++ "{" ++ name ++ "}" ++ make_path_name_from_url rest.
Proof.
  intros Hpre Hname Hne. unfold make_path_name_from_url.
  change ("<int:" ++ name ++ ">" ++ rest)
    with (String "<" ("int:" ++ name ++ ">" ++ rest)).
  rewrite sub_prefix by assumption. f_equal.
  destruct name as [|c n]; [contradiction|].
  now apply capture_at_head.
Qed.

Lemma int_capture_becomes_a_placeholder_witness :
  make_path_name_from_url
    ("posts/<slug:title>/" ++ "<int:" ++ "id" ++ ">" ++ "/by/<int:n>/")
  = "posts/<slug:title>/" ++ "{" ++ "id" ++ "}"
    ++ make_path_name_from_url "/by/<int:n>/".
Proof.
  apply (int_capture_becomes_a_placeholder "posts/<slug:title>/" "id"
           "/by/<int:n>/"); try reflexivity.
  discriminate.
Defined.

(** *** The walk *)

Section Walk.
Variable F : foreign.

Lemma generate_paths_app l1 l2 st :
  generate_paths F (l1 ++ l2) st
  = match generate_paths F l1 st with
    | (Ok _, st1) => generate_paths F l2 st1
    | (Raise e, st1) => (Raise e, st1)
    end.
Proof.
  revert st. induction l1 as [|u l1 IH]; intros st; [reflexivity|].
  cbn [app generate_paths].
  destruct (visit_entry F u st) as [[[]|e] st1]; [apply IH|reflexivity].
Qed.

(** The pattern of an [include] plays no part: walking it is walking its
    entries in place, so the documented path of an included route is the
    route's own pattern, without the prefix it is mounted under. *)
Theorem include_prefix_is_ignored prefix l rest st :
  generate_paths F (URLResolver prefix l :: rest) st
  = generate_paths F (l ++ rest) st.
Proof.
  rewrite generate_paths_app. cbn [generate_paths].
  now rewrite visit_resolver.
Qed.

Lemma visit_entry_undocumented u :
  (forall cb, In cb (callbacks_of u) -> documented cb = false) ->
  forall st, visit_entry F u st = (Ok tt, st).
Proof.
  induction u as [pattern cb|pattern l IH] using url_entry_forall_ind;
    intros Hall st.
  - cbn [visit_entry]. unfold visit_callback.
    specialize (Hall cb (or_introl eq_refl)). unfold documented in Hall.
    now rewrite Hall.
  - rewrite visit_resolver. cbn [callbacks_of] in Hall.
    revert st. induction IH as [|u l Hu _ IHl]; intros st; [reflexivity|].
    cbn [generate_paths]. rewrite Hu.
    + apply IHl. intros cb Hin. apply Hall. cbn [flat_map].
      apply in_or_app. now right.
    + intros cb Hin. apply Hall. cbn [flat_map].
      apply in_or_app. now left.
Qed.

(** Views that are not marked both [djapy] and [openapi] (plain Django
    views, handlers wrapped with [openapi=False]) are passed over: a tree
    of such views is walked without error and leaves the document as it
    was. *)
Theorem undocumented_views_are_passed_over l st :
  (forall cb, In cb (flat_map callbacks_of l) -> documented cb = false) ->
  generate_paths F l st = (Ok tt, st).
Proof.
  intros Hall.
  change (generate_paths F l st)
    with (visit_entry F (URLResolver "" l) st).
  now apply visit_entry_undocumented.
Qed.

Lemma djapify_marks o vf :
  documented (callback_of (djapify o vf)) = openapi o.
Proof.
  unfold documented, callback_of, getattr. cbn [cb_dict].
  assert (H1 : dict_get "djapy" (wv_dict (djapify o vf))
               = Some (PBool true)).
  { unfold djapify, wraps. cbn [wv_dict].
    destruct (attached_allowed_method (allowed_method o));
      destruct (login_required o);
      rewrite !dict_get_set_ne by GateFacts.other_key;
      apply dict_get_set_eq. }
  assert (H2 : dict_get "openapi" (wv_dict (djapify o vf))
               = Some (PBool (openapi o))).
  { unfold djapify, wraps. cbn [wv_dict].
    destruct (attached_allowed_method (allowed_method o));
      destruct (login_required o);
      rewrite !dict_get_set_ne by GateFacts.other_key;
      apply dict_get_set_eq. }
  rewrite H1, H2. reflexivity.
Qed.

(** A handler wrapped with [openapi=True] and an empty [allowed_method]
    has no [djapy_allowed_method]: line 151 raises and the generation of
    the whole document fails at that route. *)
Theorem view_without_allowed_method_stops_the_generation
  o vf pattern st :
  openapi o = true ->
  truthy (allowed_method o) = false ->
  dict_get "djapy_allowed_method" (vf_dict vf) = None ->
  visit_entry F (URLPattern pattern (callback_of (djapify o vf))) st
  = (Raise (Exc AttributeError
              (PStr "function object has no attribute 'djapy_allowed_method'")),
     st).
Proof.
  intros Ho Ham Hvf. cbn [visit_entry]. unfold visit_callback.
  pose proof (djapify_marks o vf) as Hmark. unfold documented in Hmark.
  rewrite Hmark, Ho. cbn [callback_of cb_dict].
  rewrite GateFacts.djapify_allowed_attr. unfold attached_allowed_method.
  now rewrite Ham, Hvf.
Qed.

(** A handler wrapped with [openapi=True] whose return annotation is
    missing or is a bare class cannot be documented: [get_responses] fails
    on [.items()] and the generation stops there. *)
Theorem view_without_response_map_stops_the_generation
  o vf pattern st l :
  openapi o = true ->
  attached_allowed_method (allowed_method o) = Some l ->
  (forall m, vf_return vf <> Some (AnnDict m)) ->
  exists e,
    visit_entry F (URLPattern pattern (callback_of (djapify o vf))) st
    = (Raise e, st).
Proof.
  intros Ho Ham Hret. cbn [visit_entry]. unfold visit_callback.
  pose proof (djapify_marks o vf) as Hmark. unfold documented in Hmark.
  rewrite Hmark, Ho. cbn [callback_of cb_dict].
  rewrite GateFacts.djapify_allowed_attr, Ham.
  unfold Path_init, get_responses, schema_items.
  change (cb_schema (callback_of (djapify o vf)))
    with (Some (vf_return vf)).
  destruct (vf_return vf) as [[m|[name|[]]]|];
    try (eexists; reflexivity).
  exfalso. now apply (Hret m).
Qed.

Lemma Path_init_exports pattern cb allowed p :
  Path_init F pattern cb allowed = Ok p ->
  export_definitions p = [] /\ path p = make_path_name_from_url pattern.
Proof.
  unfold Path_init.
  destruct (get_responses F cb []) as [[rs cs]|]; [|discriminate].
  destruct (get_request_body F cb cs) as [[rb cs']|]; [|discriminate].
  intros [= <-]. now split.
Qed.

Lemma visit_callback_grows pattern cb st r st' :
  visit_callback F pattern cb st = (r, st') ->
  incl (keys (paths st)) (keys (paths st'))
  /\ incl (keys (schemas st)) (keys (schemas st'))
  /\ definitions st' = definitions st.
Proof.
  unfold visit_callback.
  destruct (_ && _);
    [|intros [= <- <-]; auto using incl_refl].
  destruct (dict_get _ _) as [allowed|];
    [|intros [= <- <-]; auto using incl_refl].
  destruct (Path_init F pattern cb allowed) as [p|e] eqn:Hp;
    [|intros [= <- <-]; auto using incl_refl].
  apply Path_init_exports in Hp as [Hdefs _]. rewrite Hdefs.
  cbn [nonempty].
  assert (Hs : incl (keys (schemas st))
                 (keys (schemas
                          (if nonempty (export_components p)
                           then mkState (paths st)
                                  (dict_update (schemas st)
                                     (export_components p))
                                  (definitions st)
                           else st)))).
  { destruct (nonempty _); [|apply incl_refl]. cbn [schemas].
    intros k. apply keys_dict_update_incl. }
  assert (Hd : definitions
                 (if nonempty (export_components p)
                  then mkState (paths st)
                         (dict_update (schemas st) (export_components p))
                         (definitions st)
                  else st) = definitions st)
    by now destruct (nonempty _).
  assert (Hp' : paths
                  (if nonempty (export_components p)
                   then mkState (paths st)
                          (dict_update (schemas st) (export_components p))
                          (definitions st)
                   else st) = paths st)
    by now destruct (nonempty _).
  destruct (truthy _).
  - destruct (Path_dict p) as [d|e]; intros [= <- <-].
    + cbn [paths schemas definitions]. rewrite Hp'.
      repeat split; try assumption.
      intros k Hk. apply in_keys_dict_set. now right.
    + rewrite Hp'. auto using incl_refl.
  - intros [= <- <-]. rewrite Hp'. auto using incl_refl.
Qed.

Lemma visit_entry_grows u : forall st r st',
  visit_entry F u st = (r, st') ->
  incl (keys (paths st)) (keys (paths st'))
  /\ incl (keys (schemas st)) (keys (schemas st'))
  /\ definitions st' = definitions st.
Proof.
  induction u as [pattern cb|pattern l IH] using url_entry_forall_ind;
    intros st r st'.
  - apply visit_callback_grows.
  - rewrite visit_resolver. revert st.
    induction IH as [|u l Hu _ IHl]; intros st.
    + intros [= <- <-]. auto using incl_refl.
    + cbn [generate_paths].
      destruct (visit_entry F u st) as [[[]|e] st1] eqn:Hv.
      * intros H. apply Hu in Hv as [Hp [Hs Hd]].
        apply IHl in H as [Hp' [Hs' Hd']].
        repeat split; [eapply incl_tran; eassumption
                      |eapply incl_tran; eassumption|congruence].
      * intros [= <- <-]. now apply Hu in Hv.
Qed.

(** A walk, whether it ends or fails on the way, never takes a path or a
    component out of the document and never touches [$defs]: what an
    earlier generation wrote stays, also for routes that are no longer in
    the tree. *)
Theorem generation_only_adds l st r st' :
  generate_paths F l st = (r, st') ->
  incl (keys (paths st)) (keys (paths st'))
  /\ incl (keys (schemas st)) (keys (schemas st'))
  /\ definitions st' = definitions st.
Proof.
  change (generate_paths F l st)
    with (visit_entry F (URLResolver "" l) st).
  apply visit_entry_grows.
Qed.

(** Once a documented route has been visited, the document holds its
    operations under its path name, in place of whatever was there: of two
    routes with the same path name the later one is the one documented. *)
Theorem visited_route_is_the_one_documented pattern cb allowed p d st :
  documented cb = true ->
  dict_get "djapy_allowed_method" (cb_dict cb) = Some allowed ->
  Path_init F pattern cb allowed = Ok p ->
  Path_dict p = Ok d ->
  exists st',
    visit_entry F (URLPattern pattern cb) st = (Ok tt, st')
    /\ dict_get (make_path_name_from_url pattern) (paths st')
       = Some (PDict d).
Proof.
  intros Hdoc Hallowed Hp Hd. cbn [visit_entry]. unfold visit_callback.
  unfold documented in Hdoc. rewrite Hdoc, Hallowed, Hp, Hd.
  apply andb_prop in Hdoc as [_ Ho]. rewrite Ho.
  eexists. split; [reflexivity|]. cbn [paths].
  apply Path_init_exports in Hp as [_ ->]. apply dict_get_set_eq.
Qed.

End Walk.

Lemma undocumented_views_are_passed_over_witness :
  generate_paths pydantic
    [URLPattern "admin/" (mkCallback "admin" [] None None);
     URLResolver "internal/"
       [URLPattern "hello/"
          (callback_of
             (djapify (mkOptions false (PStr "GET") false PNone) hello))]]
    initial_state
  = (Ok tt, initial_state).
Proof.
  apply (undocumented_views_are_passed_over pydantic).
  intros cb [<-|[<-|[]]]; reflexivity.
Defined.

Lemma view_without_allowed_method_stops_the_generation_witness :
  visit_entry pydantic
    (URLPattern "hello/"
       (callback_of (djapify (mkOptions false (PList []) true PNone) hello)))
    initial_state
  = (Raise (Exc AttributeError
              (PStr "function object has no attribute 'djapy_allowed_method'")),
     initial_state).
Proof.
  apply (view_without_allowed_method_stops_the_generation pydantic
           (mkOptions false (PList []) true PNone) hello "hello/"
           initial_state); reflexivity.
Defined.

Lemma view_without_response_map_stops_the_generation_witness :
  exists e,
    visit_entry pydantic
      (URLPattern "plain/" (callback_of (djapify default_options unannotated)))
      initial_state
    = (Raise e, initial_state).
Proof.
  apply (view_without_response_map_stops_the_generation pydantic
           default_options unannotated "plain/" initial_state
           (PList [PStr "GET"])); try reflexivity.
  discriminate.
Defined.

Lemma generation_only_adds_witness :
  let st := mkState [("retired/", PDict [])] [] [] in
  let run := generate_paths pydantic
               [URLPattern "hello/"
                  (callback_of (djapify default_options hello))] st in
  incl (keys (paths st)) (keys (paths (snd run)))
  /\ incl (keys (schemas st)) (keys (schemas (snd run)))
  /\ definitions (snd run) = definitions st.
Proof.
  intros st run.
  apply (generation_only_adds pydantic
           [URLPattern "hello/" (callback_of (djapify default_options hello))]
           st (fst run) (snd run)).
  apply surjective_pairing.
Defined.

Lemma visited_route_is_the_one_documented_witness :
  let cb := callback_of (djapify default_options hello) in
  let st := mkState [("hello/", PDict [])] [] [] in
  exists p d st',
    Path_init pydantic "hello/" cb (PList [PStr "GET"]) = Ok p
    /\ Path_dict p = Ok d
    /\ visit_entry pydantic (URLPattern "hello/" cb) st = (Ok tt, st')
    /\ dict_get (make_path_name_from_url "hello/") (paths st')
       = Some (PDict d).
Proof.
  intros cb st.
  destruct (Path_init pydantic "hello/" cb (PList [PStr "GET"]))
    as [p|e] eqn:Hp; [|vm_compute in Hp; discriminate Hp].
  destruct (Path_dict p) as [d|e] eqn:Hd.
  - destruct (visited_route_is_the_one_documented pydantic "hello/" cb
                (PList [PStr "GET"]) p d st eq_refl eq_refl Hp Hd)
      as [st' [Hv Hget]].
    exists p, d, st'. auto.
  - exfalso. vm_compute in Hp. inversion Hp; subst p.
    vm_compute in Hd. discriminate Hd.
Defined.

End GeneratorCoverage.

(* ===================================================================== *)
(** ** djapy/mixins/permissions.py *)
(* ===================================================================== *)

Module PermissionFacts.
Import Py.
Import Dec Permissions Coverage.

(** [PermissionMixin.__render__] never refuses: whatever [has_permission]
    returns, the result is the parent's rendering of the request; a denied
    request only differs by the line it prints. *)
Theorem permission_mixin_renders_without_permission
  {A} (self : view A) request allowed :
  has_permission self request = Ok allowed ->
  snd (__render__ self request) = super_render self request
  /\ (fst (__render__ self request) = ["no permission"]
      <-> truthy allowed = false).
Proof.
  intros H. unfold __render__. rewrite H. cbn [fst snd]. split;
    [reflexivity|].
  destruct (truthy allowed); cbn [negb]; split; intros H';
    (reflexivity || discriminate H').
Qed.

Lemma permission_mixin_renders_without_permission_witness :
  snd (__render__ (LoginRequiredMixin plain_view) Sample.post_anonymous)
  = super_render (LoginRequiredMixin plain_view) Sample.post_anonymous
  /\ (fst (__render__ (LoginRequiredMixin plain_view) Sample.post_anonymous)
      = ["no permission"]
      <-> truthy (PBool false) = false).
Proof.
  apply (permission_mixin_renders_without_permission
           (LoginRequiredMixin plain_view) Sample.post_anonymous
           (PBool false)).
  reflexivity.
Defined.

(** [LoginRequiredMixin] serves every request, logged in or not, with what
    the parent view renders. *)
Theorem login_required_mixin_serves_everyone
  {A} (render : HttpRequest -> result A) request :
  snd (__render__ (LoginRequiredMixin render) request) = render request.
Proof. reflexivity. Qed.

End PermissionFacts.
